(** * TIMB grower analysis: discovery and fetch engine

    A shallow embedding of the scraping engine of the repository
    ([growers/utils/scraper.py], [threaded_scraper.py], [async_scraper.py])
    and of the three management commands that drive it, followed by the
    properties established about them.

    Conventions.
    - Python [int]s are [Z]; [str]s are [string] (code points below 256).
    - A Python call that may raise returns a [PyResult]; [None] is the
      [None] of an [option].
    - The remote portal, the BeautifulSoup extraction and the interpreter
      limits are the environment [Env]; nothing is assumed about them.
    - Shared mutable objects ([self.stats], the database, the session) are
      threaded explicitly as state.  [time.sleep]/[asyncio.sleep] change no
      state and are left out. *)

From Stdlib Require Import ZArith NArith List Ascii String Bool Lia.
From stdpp Require Import base option list list_numbers strings pretty gmap.

Local Open Scope Z_scope.

(* ================================================================== *)
(** * Python values and exceptions *)
(* ================================================================== *)

Inductive PyExn : Type :=
| ValueError
| TypeError
| KeyError
| IndexError
| IntegrityError
| RequestException
| TimeoutError.

Inductive PyResult (A : Type) : Type :=
| Ok (a : A)
| Raise (e : PyExn).
Arguments Ok {A} a.
Arguments Raise {A} e.

Definition result_map {A B} (f : A -> B) (r : PyResult A) : PyResult B :=
  match r with Ok a => Ok (f a) | Raise e => Raise e end.

(** [try: body except (ValueError, TypeError): handler] *)
Definition try_except_value_type {A} (body : PyResult A) (handler : A) : PyResult A :=
  match body with
  | Ok a => Ok a
  | Raise ValueError | Raise TypeError => Ok handler
  | Raise e => Raise e
  end.

(** [range(lo, hi)] *)
Definition range (lo hi : Z) : list Z := seqZ lo (hi - lo).

(* ------------------------------------------------------------------ *)
(** ** Strings *)

(** [str.isspace] on one character (code points below 256). *)
Definition isspace (c : ascii) : bool :=
  let n := N_of_ascii c in
  ((9 <=? n) && (n <=? 13) || (28 <=? n) && (n <=? 32)
   || (n =? 133) || (n =? 160))%N.

(** [\d] of the [re] module on one character (code points below 256). *)
Definition isdecimal (c : ascii) : bool :=
  let n := N_of_ascii c in ((48 <=? n) && (n <=? 57))%N.

Definition digit_value (c : ascii) : N := (N_of_ascii c - 48)%N.

Fixpoint str_filter (p : ascii -> bool) (s : string) : string :=
  match s with
  | EmptyString => EmptyString
  | String c s' => if p c then String c (str_filter p s') else str_filter p s'
  end.

Fixpoint str_forall (p : ascii -> bool) (s : string) : bool :=
  match s with
  | EmptyString => true
  | String c s' => p c && str_forall p s'
  end.

Fixpoint str_exists (p : ascii -> bool) (s : string) : bool :=
  match s with
  | EmptyString => false
  | String c s' => p c || str_exists p s'
  end.

Fixpoint str_rev_app (s acc : string) : string :=
  match s with
  | EmptyString => acc
  | String c s' => str_rev_app s' (String c acc)
  end.

Definition str_rev (s : string) : string := str_rev_app s EmptyString.

Fixpoint lstrip (s : string) : string :=
  match s with
  | EmptyString => EmptyString
  | String c s' => if isspace c then lstrip s' else s
  end.

(** [s.strip()] *)
Definition strip (s : string) : string :=
  str_rev (lstrip (str_rev (lstrip s))).

(** Truth value of a [str]: non-empty. *)
Definition str_truthy (s : string) : bool :=
  match s with EmptyString => false | _ => true end.

(** [needle in hay] *)
Fixpoint str_contains (needle hay : string) : bool :=
  String.prefix needle hay
  || match hay with
     | EmptyString => false
     | String _ hay' => str_contains needle hay'
     end.

(** [s.replace(old, '')] and [s.replace(old, new)] for a one-character [old]. *)
Fixpoint str_replace_char (old : ascii) (new : string) (s : string) : string :=
  match s with
  | EmptyString => EmptyString
  | String c s' =>
      if Ascii.eqb c old then new +:+ str_replace_char old new s'
      else String c (str_replace_char old new s')
  end.

(* ================================================================== *)
(** * Numeric parsing helpers ([_parse_value], [_parse_int])

    The three scrapers carry the same two helpers, character for
    character. *)
(* ================================================================== *)

(** The value [float(s)] denotes before rounding to binary64:
    [dec_digits / 10 ^ dec_scale]. *)
Record decimal : Type := Decimal { dec_digits : N; dec_scale : N }.

Fixpoint digits_value (acc : N) (s : string) : N :=
  match s with
  | EmptyString => acc
  | String c s' => digits_value (acc * 10 + digit_value c)%N s'
  end.

(** Splits at the first ['.']: the part before it, and the part after it
    when there is one. *)
Fixpoint split_dot (s : string) : string * option string :=
  match s with
  | EmptyString => (EmptyString, None)
  | String c s' =>
      if Ascii.eqb c "."%char then (EmptyString, Some s')
      else let '(a, b) := split_dot s' in (String c a, b)
  end.

(** [float(s)] for the strings [_parse_value] can pass: digits and dots
    only.  Python accepts [12], [12.], [.5] and [12.5], and raises
    [ValueError] on the empty string, on a lone dot and on two dots. *)
Definition py_float (s : string) : PyResult decimal :=
  if negb (str_forall (fun c => isdecimal c || Ascii.eqb c "."%char) s)
  then Raise ValueError
  else
    match split_dot s with
    | (ip, None) =>
        if str_truthy ip then Ok (Decimal (digits_value 0 ip) 0)
        else Raise ValueError
    | (ip, Some fp) =>
        if str_exists (fun c => Ascii.eqb c "."%char) fp then Raise ValueError
        else if str_truthy ip || str_truthy fp
             then Ok (Decimal (digits_value (digits_value 0 ip) fp)
                              (N.of_nat (String.length fp)))
             else Raise ValueError
    end.

(** Digits with single underscores between them, as [int()] reads them:
    [Some] of the digits without the underscores. *)
Fixpoint int_digits (prev_digit : bool) (s : string) : option string :=
  match s with
  | EmptyString => if prev_digit then Some EmptyString else None
  | String c s' =>
      if isdecimal c then String c <$> int_digits true s'
      else if Ascii.eqb c "_"%char
           then (if prev_digit then int_digits false s' else None)
           else None
  end.

(** [int(s)] in base 10.  [limit] is the interpreter's
    [sys.get_int_max_str_digits()]; 0 turns the limit off. *)
Definition py_int (limit : N) (s : string) : PyResult Z :=
  let body := strip s in
  let '(neg, rest) :=
    match body with
    | String "-"%char r => (true, r)
    | String "+"%char r => (false, r)
    | _ => (false, body)
    end in
  match int_digits false rest with
  | None => Raise ValueError
  | Some ds =>
      if ((0 <? limit) && (limit <? N.of_nat (String.length ds)))%N
      then Raise ValueError
      else let v := Z.of_N (digits_value 0 ds) in
           Ok (if neg then - v else v)
  end.

(** [_parse_value(text)] *)
Definition _parse_value (text : string) : PyResult (option decimal) :=
  if negb (str_truthy text) || negb (str_truthy (strip text)) then Ok None
  else
    let cleaned := str_filter (fun c => isdecimal c || Ascii.eqb c "."%char) text in
    if negb (str_truthy cleaned) then Ok None
    else try_except_value_type (result_map Some (py_float cleaned)) None.

(** [_parse_int(text)] *)
Definition _parse_int (limit : N) (text : string) : PyResult (option Z) :=
  if negb (str_truthy text) || negb (str_truthy (strip text)) then Ok None
  else
    let cleaned := str_filter isdecimal text in
    if negb (str_truthy cleaned) then Ok None
    else try_except_value_type (result_map Some (py_int limit cleaned)) None.


(* ================================================================== *)
(** * Reports, the portal and the shared state *)
(* ================================================================== *)

(** [data['sales_summary']]: [{}] is [None]; the consumers only read it
    with [.get]. *)
Record SalesSummary : Type := {
  total_bales : option Z;
  total_mass_kg : option decimal;
  total_value_usd : option decimal;
  average_price_usd : option decimal }.

Record GradeItem : Type := {
  grade_name : string;
  mass_kg : option decimal;
  value_usd : option decimal;
  grade_average_price_usd : option decimal }.

Record CreditorItem : Type := {
  creditor_name : string;
  total_owed_usd : option decimal;
  total_paid_usd : option decimal;
  recovery_percentage : option decimal;
  notes : string }.

(** The dict built by [parse_report]. *)
Record Report : Type := {
  grower_info : gmap string string;
  must_know_info : gmap string string;
  sales_summary : option SalesSummary;
  grade_analysis : list GradeItem;
  creditor_recoveries : list CreditorItem }.

(** What one [session.post] gives back: an exception of the HTTP client
    (connection error, timeout, bad status from [raise_for_status]) or a
    response body. *)
Inductive TransportError : Type := Timeout | NetworkError | HttpError.

Inductive Response : Type :=
| Failed (e : TransportError)
| Body (html : string).

(** Everything outside the program.
    - [portal grower_id season n]: the answer of the portal to the [n]-th
      physical request (from 0) of one logical lookup of
      [(grower_id, season)];
    - [login_page name password]: the answer to the login form;
    - [extract_sections html]: what the BeautifulSoup selectors of
      [parse_report] and its [_parse_*] helpers read from a page;
    - [int_max_str_digits]: the interpreter's limit for [int(str)]. *)
Record Env : Type := {
  portal : string -> Z -> Z -> Response;
  login_page : string -> string -> Response;
  extract_sections : string -> Report;
  int_max_str_digits : N }.

(** [self.stats] ([retries] exists in the async scraper only). *)
Record Stats : Type := {
  requests_made : Z;
  successful_requests : Z;
  failed_requests : Z;
  retries : Z;
  growers_discovered : Z }.

(** The scraper's mutable state: its counters and, as a ghost field, the
    [(grower_id, season)] of every analysis request posted so far, oldest
    first. *)
Record St : Type := {
  stats : Stats;
  posts : list (string * Z) }.

Definition stats0 : Stats := Build_Stats 0 0 0 0 0.
Definition st0 : St := Build_St stats0 [].

Definition with_stats (f : Stats -> Stats) (st : St) : St :=
  Build_St (f (stats st)) (posts st).

(** [self.stats['requests_made'] += 1] and its siblings *)
Definition inc_requests_made : St -> St :=
  with_stats (fun s => Build_Stats (requests_made s + 1) (successful_requests s)
                         (failed_requests s) (retries s) (growers_discovered s)).
Definition inc_successful_requests : St -> St :=
  with_stats (fun s => Build_Stats (requests_made s) (successful_requests s + 1)
                         (failed_requests s) (retries s) (growers_discovered s)).
Definition inc_failed_requests : St -> St :=
  with_stats (fun s => Build_Stats (requests_made s) (successful_requests s)
                         (failed_requests s + 1) (retries s) (growers_discovered s)).
Definition inc_retries : St -> St :=
  with_stats (fun s => Build_Stats (requests_made s) (successful_requests s)
                         (failed_requests s) (retries s + 1) (growers_discovered s)).
Definition inc_growers_discovered : St -> St :=
  with_stats (fun s => Build_Stats (requests_made s) (successful_requests s)
                         (failed_requests s) (retries s) (growers_discovered s + 1)).

(** [self.session.post(self.analysis_form_url, data=payload)].  The payload
    splits the identifier into [deleteprefix] and [deletegnumber], which
    concatenate back to it, so the log keeps the identifier whole. *)
Definition log_post (grower_id : string) (season : Z) (st : St) : St :=
  Build_St (stats st) (posts st ++ [(grower_id, season)]).

Definition absent_marker : string := "Please specify the grower number".

(** [report_data.get('grower_info', {}).get('name', '').strip()] as a
    truth value. *)
Definition has_name (r : Report) : bool :=
  str_truthy (strip (default EmptyString (grower_info r !! "name"))).

(** [if report_data and report_data.get(...)...strip()]: a report dict
    always has its five keys, so it is truthy whenever it is not [None]. *)
Definition present (report_data : option Report) : bool :=
  match report_data with
  | Some r => has_name r
  | None => false
  end.

(** Discovery range of both concurrent scrapers:
    [self.start_year = 2018], [self.current_year = 2025];
    [range(2018, 2026)] in the threaded one. *)
Definition start_year : Z := 2018.
Definition current_year : Z := 2025.

(* ================================================================== *)
(** * [async_scraper.py]: [AsyncTIMBScraper] *)
(* ================================================================== *)

Module Async.

Record ScrapingConfig : Type := {
  max_concurrent_requests : Z;
  max_retries : Z }.

(** [ScrapingConfig()]: the dataclass defaults. *)
Definition default_config : ScrapingConfig :=
  {| max_concurrent_requests := 8; max_retries := 3 |}.

Record GrowerDiscoveryResult : Type := {
  grower_id : string;
  first_season : Z;
  first_report_data : Report }.

(** [parse_report].  The [except Exception] arm guards the BeautifulSoup
    code, which is total here ([extract_sections]). *)
Definition parse_report (E : Env) (html_content : string) : option Report :=
  if negb (str_truthy html_content) || str_contains absent_marker html_content
  then None
  else Some (extract_sections E html_content).

(** [_fetch_single_report], given the portal's answer to this request.
    Both [except] arms re-raise. *)
Definition _fetch_single_report (E : Env) (grower_id : string) (season : Z)
    (answer : Response) (st : St) : PyResult (option Report) * St :=
  let st := log_post grower_id season (inc_requests_made st) in
  match answer with
  | Failed Timeout => (Raise TimeoutError, st)
  | Failed _ => (Raise RequestException, st)
  | Body html_content => (Ok (parse_report E html_content), st)
  end.

(** The [for attempt in range(max_retries + 1)] loop of
    [fetch_report_with_retry], over the attempts still to run. *)
Fixpoint retry_loop (E : Env) (config : ScrapingConfig) (grower_id : string)
    (season : Z) (attempts : list Z) (st : St) : option Report * St :=
  match attempts with
  | [] => (None, inc_failed_requests st)
  | attempt :: rest =>
      let '(result, st) :=
        _fetch_single_report E grower_id season
          (portal E grower_id season attempt) st in
      match result with
      | Ok (Some report) => (Some report, inc_successful_requests st)
      | Ok None =>
          let st := if attempt <? max_retries config then inc_retries st else st in
          retry_loop E config grower_id season rest st
      | Raise _ =>
          let st := if attempt <? max_retries config then inc_retries st
                    else inc_failed_requests st in
          retry_loop E config grower_id season rest st
      end
  end.

Definition fetch_report_with_retry (E : Env) (config : ScrapingConfig)
    (grower_id : string) (season : Z) (st : St) : option Report * St :=
  retry_loop E config grower_id season (range 0 (max_retries config + 1)) st.

(** The [for year in range(...)] loop of [discover_grower_first_season]. *)
Fixpoint discover_loop (E : Env) (config : ScrapingConfig) (gid : string)
    (years : list Z) (st : St) : option GrowerDiscoveryResult * St :=
  match years with
  | [] => (None, st)
  | year :: rest =>
      let '(report_data, st) := fetch_report_with_retry E config gid year st in
      match report_data with
      | Some report =>
          if has_name report
          then (Some {| grower_id := gid; first_season := year;
                        first_report_data := report |},
                inc_growers_discovered st)
          else discover_loop E config gid rest st
      | None => discover_loop E config gid rest st
      end
  end.

Definition discover_grower_first_season (E : Env) (config : ScrapingConfig)
    (gid : string) (st : St) : option GrowerDiscoveryResult * St :=
  discover_loop E config gid (range start_year (current_year + 1)) st.

(** [discover_growers_batch].  [asyncio.gather] keeps the order of the
    tasks in its result; the tasks are run here one after the other, which
    is one of the schedules the event loop can choose, and no task reads
    what another writes except the counters. *)
Fixpoint discover_growers_batch (E : Env) (config : ScrapingConfig)
    (grower_ids : list string) (st : St) : list GrowerDiscoveryResult * St :=
  match grower_ids with
  | [] => ([], st)
  | gid :: rest =>
      let '(result, st) := discover_grower_first_season E config gid st in
      let '(found, st) := discover_growers_batch E config rest st in
      (match result with Some r => r :: found | None => found end, st)
  end.

(** [_fetch_with_metadata] *)
Definition _fetch_with_metadata (E : Env) (config : ScrapingConfig)
    (gid : string) (season : Z) (st : St) : option (string * Z * Report) * St :=
  let '(report_data, st) := fetch_report_with_retry E config gid season st in
  (match report_data with
   | Some report => Some (gid, season, report)
   | None => None
   end, st).

(** [fetch_multiple_reports] *)
Fixpoint fetch_multiple_reports (E : Env) (config : ScrapingConfig)
    (grower_season_pairs : list (string * Z)) (st : St)
    : list (string * Z * Report) * St :=
  match grower_season_pairs with
  | [] => ([], st)
  | (gid, season) :: rest =>
      let '(result, st) := _fetch_with_metadata E config gid season st in
      let '(fetched, st) := fetch_multiple_reports E config rest st in
      (match result with Some r => r :: fetched | None => fetched end, st)
  end.

(** [login]: the form posted and the verdict. *)
Definition login_payload (username password : string) : list (string * string) :=
  [("name", username); ("password", password); ("login", "Login")].

Definition login (E : Env) (username password : string) : bool :=
  match login_page E username password with
  | Failed _ => false
  | Body text => str_contains "Welcome" text && negb (str_contains "Not logged in" text)
  end.

End Async.

(* ================================================================== *)
(** * [threaded_scraper.py]: [ThreadedTIMBScraper] *)
(* ================================================================== *)

Module Threaded.

(** [parse_report]: no guard on an empty body here.  [extract_sections E]
    is this scraper's own reading of a page: its keys keep the colon of
    a label, which the async scraper drops.  A statement about both
    scrapers gives each its own environment. *)
Definition parse_report (E : Env) (html_content : string) : option Report :=
  if str_contains absent_marker html_content then None
  else Some (extract_sections E html_content).

(** [fetch_report]: one physical request, no retry.  [grower_id[0]] is
    read before the [try] and raises on the empty string.  Every failure
    of [session.post] or [raise_for_status] is a [RequestException]. *)
Definition fetch_report (E : Env) (grower_id : string) (season : Z) (st : St)
    : PyResult (option Report) * St :=
  match grower_id with
  | EmptyString => (Raise IndexError, st)
  | String _ _ =>
      let st := log_post grower_id season (inc_requests_made st) in
      match portal E grower_id season 0 with
      | Failed _ => (Ok None, inc_failed_requests st)
      | Body text =>
          let report_data := parse_report E text in
          (Ok report_data,
           match report_data with
           | Some _ => inc_successful_requests st
           | None => inc_failed_requests st
           end)
      end
  end.

(** The [for year in range(2018, 2026)] loop of
    [discover_grower_first_season]. *)
Fixpoint discover_loop (E : Env) (grower_id : string) (years : list Z) (st : St)
    : PyResult (option (string * Z * Report)) * St :=
  match years with
  | [] => (Ok None, st)
  | year :: rest =>
      let '(report_data, st) := fetch_report E grower_id year st in
      match report_data with
      | Raise e => (Raise e, st)
      | Ok (Some report) =>
          if has_name report
          then (Ok (Some (grower_id, year, report)), inc_growers_discovered st)
          else discover_loop E grower_id rest st
      | Ok None => discover_loop E grower_id rest st
      end
  end.

Definition discover_grower_first_season (E : Env) (grower_id : string) (st : St)
    : PyResult (option (string * Z * Report)) * St :=
  discover_loop E grower_id (range 2018 2026) st.

(** [discover_growers_threaded].  The pool completes the tasks in an order
    of its own; they are run here in submission order, so the result list
    is one of the orders [as_completed] can give.  An exception of a task
    is printed by the [except Exception] arm and the loop goes on. *)
Fixpoint discover_growers_threaded (E : Env) (grower_ids : list string) (st : St)
    : list (string * Z * Report) * St :=
  match grower_ids with
  | [] => ([], st)
  | gid :: rest =>
      let '(result, st) := discover_grower_first_season E gid st in
      let '(found, st) := discover_growers_threaded E rest st in
      (match result with Ok (Some r) => r :: found | _ => found end, st)
  end.

(** [fetch_multiple_reports_threaded].  As in [discover_growers_threaded]
    the tasks are run in submission order, so the result list is one of
    the orders [as_completed] can give: nothing is stated about the order
    of its items. *)
Fixpoint fetch_multiple_reports_threaded (E : Env)
    (grower_season_pairs : list (string * Z)) (st : St)
    : list (string * Z * Report) * St :=
  match grower_season_pairs with
  | [] => ([], st)
  | (gid, season) :: rest =>
      let '(report_data, st) := fetch_report E gid season st in
      let '(fetched, st) := fetch_multiple_reports_threaded E rest st in
      (match report_data with
       | Ok (Some report) => (gid, season, report) :: fetched
       | _ => fetched
       end, st)
  end.

Definition login_payload (username password : string) : list (string * string) :=
  [("name", username); ("password", password); ("login", "Login")].

Definition login (E : Env) (username password : string) : bool :=
  match login_page E username password with
  | Failed _ => false
  | Body text => str_contains "Welcome" text && negb (str_contains "Not logged in" text)
  end.

End Threaded.

(* ================================================================== *)
(** * [scraper.py]: [TIMBScraper] *)
(* ================================================================== *)

Module Sequential.

Definition parse_report (E : Env) (html_content : string) : option Report :=
  if str_contains absent_marker html_content then None
  else Some (extract_sections E html_content).

(** [fetch_report]: no counters here; [grower_id[0]] raises on the empty
    string, and a [RequestException] is turned into [None]. *)
Definition fetch_report (E : Env) (grower_id : string) (season : Z) (st : St)
    : PyResult (option Report) * St :=
  match grower_id with
  | EmptyString => (Raise IndexError, st)
  | String _ _ =>
      let st := log_post grower_id season st in
      match portal E grower_id season 0 with
      | Failed _ => (Ok None, st)
      | Body text => (Ok (parse_report E text), st)
      end
  end.

Definition login_payload (username password : string) : list (string * string) :=
  [("name", username); ("password", password); ("login", "Login")].

Definition login (E : Env) (username password : string) : bool :=
  match login_page E username password with
  | Failed _ => false
  | Body text => str_contains "Welcome" text && negb (str_contains "Not logged in" text)
  end.

End Sequential.

(* ================================================================== *)
(** * [models.py]: the persisted store *)
(* ================================================================== *)

Module Models.

Record Grower : Type := {
  grower_number : string;       (* primary key *)
  name : string;
  surname : string;
  national_id : string;         (* unique *)
  farming_province : string;
  farm_name : string;
  address : string;
  first_sales_year : option Z   (* PositiveIntegerField, null *) }.

(** [unique_together = ('grower', 'season_year')]: the pair is a key, and
    the rows of [GradeAnalysis] and [CreditorRecovery] name their
    [seasonal_report] by it. *)
Record SeasonalReport : Type := {
  grower : string;              (* foreign key to [Grower] *)
  season_year : Z;              (* PositiveIntegerField *)
  contractor : option string;   (* foreign key to [Contractor], null *)
  total_bales : option Z;       (* PositiveIntegerField, null *)
  total_mass_kg : option decimal;
  total_value_usd : option decimal;
  average_price_usd : option decimal }.

Record GradeAnalysis : Type := {
  ga_seasonal_report : string * Z;
  ga_grade_name : string;
  ga_mass_kg : decimal;          (* the three amounts are NOT NULL *)
  ga_value_usd : decimal;
  ga_average_price_usd : decimal }.

Record CreditorRecovery : Type := {
  cr_seasonal_report : string * Z;
  cr_creditor : string;         (* foreign key to [Creditor] *)
  cr_total_owed_usd : option decimal;
  cr_total_paid_usd : option decimal;
  cr_recovery_percentage : option decimal }.

(** The tables.  [Contractor] and [Creditor] rows are their unique
    [name].  Of the declared constraints the keys, [unique], NOT NULL and
    the sign check of [PositiveIntegerField] are enforced; column widths
    and decimal precision are not. *)
Record Db : Type := {
  growers : list Grower;
  contractors : list string;
  creditors : list string;
  seasonal_reports : list SeasonalReport;
  grade_analyses : list GradeAnalysis;
  creditor_recovery_rows : list CreditorRecovery }.

Definition empty_db : Db := Build_Db [] [] [] [] [] [].

Definition nonneg (v : option Z) : bool :=
  match v with Some n => 0 <=? n | None => true end.

(** [Grower.objects.filter(grower_number=pk).exists()] *)
Definition Grower_exists (db : Db) (pk : string) : bool :=
  existsb (fun g => String.eqb (grower_number g) pk) (growers db).

(** [Grower.objects.get(grower_number=pk)], [None] for [DoesNotExist] *)
Definition Grower_get (db : Db) (pk : string) : option Grower :=
  find (fun g => String.eqb (grower_number g) pk) (growers db).

(** [Grower.objects.create] with the fields of [row] *)
Definition Grower_create (row : Grower) (db : Db) : PyResult Grower * Db :=
  if existsb (fun g => String.eqb (grower_number g) (grower_number row)
                       || String.eqb (national_id g) (national_id row))
             (growers db)
     || negb (nonneg (first_sales_year row))
  then (Raise IntegrityError, db)
  else (Ok row,
        Build_Db (growers db ++ [row]) (contractors db) (creditors db)
          (seasonal_reports db) (grade_analyses db) (creditor_recovery_rows db)).

(** [Grower.objects.get_or_create(grower_number=pk, defaults=...)]; a
    [None] key matches no row and cannot be inserted. *)
Definition Grower_get_or_create (pk : option string) (defaults : string -> Grower)
    (db : Db) : PyResult Grower * Db :=
  match pk with
  | None => (Raise IntegrityError, db)
  | Some n =>
      match Grower_get db n with
      | Some g => (Ok g, db)
      | None => Grower_create (defaults n) db
      end
  end.

(** [Contractor.objects.get_or_create(name=n)] *)
Definition Contractor_get_or_create (n : string) (db : Db) : Db :=
  if bool_decide (n ∈ contractors db) then db
  else Build_Db (growers db) (contractors db ++ [n]) (creditors db)
         (seasonal_reports db) (grade_analyses db) (creditor_recovery_rows db).

(** [Creditor.objects.get_or_create(name=n)] *)
Definition Creditor_get_or_create (n : string) (db : Db) : Db :=
  if bool_decide (n ∈ creditors db) then db
  else Build_Db (growers db) (contractors db) (creditors db ++ [n])
         (seasonal_reports db) (grade_analyses db) (creditor_recovery_rows db).

(** [SeasonalReport.objects.filter(grower=g, season_year=season).exists()] *)
Definition SeasonalReport_exists (db : Db) (g : string) (season : Z) : bool :=
  existsb (fun r => String.eqb (grower r) g && (season_year r =? season))
          (seasonal_reports db).

(** [SeasonalReport.objects.create] with the fields of [row] *)
Definition SeasonalReport_create (row : SeasonalReport) (db : Db)
    : PyResult unit * Db :=
  if SeasonalReport_exists db (grower row) (season_year row)
     || negb (0 <=? season_year row)
     || negb (nonneg (total_bales row))
  then (Raise IntegrityError, db)
  else (Ok tt,
        Build_Db (growers db) (contractors db) (creditors db)
          (seasonal_reports db ++ [row]) (grade_analyses db)
          (creditor_recovery_rows db)).

(** [GradeAnalysis.objects.create] with [seasonal_report=key] and the
    entries of [item] *)
Definition GradeAnalysis_create (key : string * Z) (item : GradeItem) (db : Db)
    : PyResult unit * Db :=
  match mass_kg item, value_usd item, grade_average_price_usd item with
  | Some m, Some v, Some a =>
      (Ok tt,
       Build_Db (growers db) (contractors db) (creditors db)
         (seasonal_reports db)
         (grade_analyses db ++ [Build_GradeAnalysis key (grade_name item) m v a])
         (creditor_recovery_rows db))
  | _, _, _ => (Raise IntegrityError, db)
  end.

(** [CreditorRecovery.objects.create(...)] *)
Definition CreditorRecovery_create (row : CreditorRecovery) (db : Db) : Db :=
  Build_Db (growers db) (contractors db) (creditors db) (seasonal_reports db)
    (grade_analyses db) (creditor_recovery_rows db ++ [row]).

(** [SeasonalReport.objects.filter(grower__grower_number=gid)
      .values_list('season_year', flat=True)] *)
Definition seasons_of (db : Db) (gid : string) : list Z :=
  map season_year
      (filter (fun r => grower r = gid) (seasonal_reports db)).

(** [with transaction.atomic(): body]: an exception rolls the block back
    and goes on to the caller. *)
Definition atomic {A} (body : Db -> PyResult A * Db) (db : Db) : PyResult A * Db :=
  match body db with
  | (Ok a, db') => (Ok a, db')
  | (Raise e, _) => (Raise e, db)
  end.

End Models.

(** The scraper's state and the database, side by side. *)
Record World : Type := {
  db : Models.Db;
  st : St }.

(** [range(start, stop, step)]; a zero step raises. *)
Definition range_step (start stop step : Z) : PyResult (list Z) :=
  if step =? 0 then Raise ValueError
  else
    let n := if 0 <? step then (stop - start + step - 1) / step
             else (start - stop - step - 1) / (- step) in
    Ok (map (fun i => start + i * step) (seqZ 0 n)).

(** [[f"V{i}" for i in range(start_id, end_id + 1)]] *)
Definition grower_ids_of (start_id end_id : Z) : list string :=
  map (fun i => "V" +:+ pretty i) (range start_id (end_id + 1)).

(** How a command ends. *)
Inductive Outcome : Type :=
| LoginFailed
| Crashed (e : PyExn)
| Completed (total_discovered total_reports_saved : Z).

(* ================================================================== *)
(** * [async-discover-growers.py] *)
(* ================================================================== *)

Module AsyncCommand.

(** [_safe_int_convert] *)
Definition _safe_int_convert (E : Env) (value : option string)
    : PyResult (option Z) :=
  match value with
  | None => Ok None
  | Some v =>
      if negb (str_truthy v) then Ok None
      else try_except_value_type
             (result_map Some (py_int (int_max_str_digits E) v)) None
  end.

(** [get_or_create_grower] *)
Definition get_or_create_grower (E : Env) (report_data : Report) (d : Models.Db)
    : PyResult Models.Grower * Models.Db :=
  let info := grower_info report_data in
  let must_know := must_know_info report_data in
  let number := default EmptyString (info !! "grower_number") in
  match _safe_int_convert E (must_know !! "first_sales_record_found") with
  | Raise e => (Raise e, d)
  | Ok first_sales =>
      Models.Grower_get_or_create (Some number)
        (fun pk =>
           {| Models.grower_number := pk;
              Models.name := default EmptyString (info !! "name");
              Models.surname := default EmptyString (info !! "surname");
              Models.national_id := default EmptyString (info !! "national_id");
              Models.farming_province := default EmptyString (info !! "farming_province");
              Models.farm_name := default EmptyString (info !! "farm_name");
              Models.address := default EmptyString (info !! "address");
              Models.first_sales_year := first_sales |})
        d
  end.

(** [_get_or_create_contractor] *)
Definition _get_or_create_contractor (report_data : Report) (season : Z) (d : Models.Db)
    : option string * Models.Db :=
  let must_know := must_know_info report_data in
  let contractor_name :=
    match must_know !! (pretty season +:+ "_contractor") with
    | Some n => if str_truthy n then Some n else must_know !! "contractor"
    | None => must_know !! "contractor"
    end in
  match contractor_name with
  | Some n =>
      if str_truthy n && str_truthy (strip n)
      then (Some (strip n), Models.Contractor_get_or_create (strip n) d)
      else (None, d)
  | None => (None, d)
  end.

(** The loop over [report_data.get('grade_analysis', [])]. *)
Fixpoint create_grade_items (key : string * Z) (items : list GradeItem) (d : Models.Db)
    : PyResult unit * Models.Db :=
  match items with
  | [] => (Ok tt, d)
  | item :: rest =>
      match Models.GradeAnalysis_create key item d with
      | (Raise e, d) => (Raise e, d)
      | (Ok _, d) => create_grade_items key rest d
      end
  end.

(** The loop over [report_data.get('creditor_recoveries', [])]. *)
Fixpoint create_creditor_items (key : string * Z) (items : list CreditorItem)
    (d : Models.Db) : Models.Db :=
  match items with
  | [] => d
  | item :: rest =>
      let creditor := strip (creditor_name item) in
      if str_truthy creditor
      then
        let d := Models.Creditor_get_or_create creditor d in
        let d := Models.CreditorRecovery_create
                   {| Models.cr_seasonal_report := key;
                      Models.cr_creditor := creditor;
                      Models.cr_total_owed_usd := total_owed_usd item;
                      Models.cr_total_paid_usd := total_paid_usd item;
                      Models.cr_recovery_percentage := recovery_percentage item |} d in
        create_creditor_items key rest d
      else create_creditor_items key rest d
  end.

(** [create_seasonal_data]: the whole body runs in one
    [transaction.atomic()] block. *)
Definition create_seasonal_data (g : Models.Grower) (season : Z) (report_data : Report)
    (d : Models.Db) : PyResult unit * Models.Db :=
  Models.atomic (fun d =>
    if Models.SeasonalReport_exists d (Models.grower_number g) season then (Ok tt, d)
    else
      let '(contractor, d) := _get_or_create_contractor report_data season d in
      let summary := sales_summary report_data in
      match Models.SeasonalReport_create
              {| Models.grower := Models.grower_number g;
                 Models.season_year := season;
                 Models.contractor := contractor;
                 Models.total_bales := summary ≫= total_bales;
                 Models.total_mass_kg := summary ≫= total_mass_kg;
                 Models.total_value_usd := summary ≫= total_value_usd;
                 Models.average_price_usd := summary ≫= average_price_usd |} d with
      | (Raise e, d) => (Raise e, d)
      | (Ok _, d) =>
          let key := (Models.grower_number g, season) in
          match create_grade_items key (grade_analysis report_data) d with
          | (Raise e, d) => (Raise e, d)
          | (Ok _, d) =>
              (Ok tt, create_creditor_items key (creditor_recoveries report_data) d)
          end
      end) d.

(** [save_discovered_growers]: an exception of either call is caught,
    reported, and the loop goes on. *)
Fixpoint save_discovered_growers (E : Env)
    (discovery_results : list Async.GrowerDiscoveryResult) (d : Models.Db) : Models.Db :=
  match discovery_results with
  | [] => d
  | result :: rest =>
      let d :=
        match get_or_create_grower E (Async.first_report_data result) d with
        | (Raise _, d) => d
        | (Ok g, d) =>
            (create_seasonal_data g (Async.first_season result)
               (Async.first_report_data result) d).2
        end in
      save_discovered_growers E rest d
  end.

(** The seasons still to fetch for one discovered grower:
    [range(first_season + 1, 2026)] without the seasons already stored. *)
Definition seasons_to_fetch (first_season : Z) (existing_seasons : list Z) : list Z :=
  filter (fun season => season ∉ existing_seasons) (range (first_season + 1) 2026).

(** The saving loop over [seasonal_results]; the count goes up whenever
    [create_seasonal_data] returns. *)
Fixpoint save_seasonal_results (g : Models.Grower)
    (seasonal_results : list (string * Z * Report)) (d : Models.Db) : Z * Models.Db :=
  match seasonal_results with
  | [] => (0, d)
  | (_, season, report_data) :: rest =>
      match create_seasonal_data g season report_data d with
      | (Ok _, d) =>
          let '(saved, d) := save_seasonal_results g rest d in (1 + saved, d)
      | (Raise _, d) => save_seasonal_results g rest d
      end
  end.

(** [get_existing_seasons_for_grower] *)
Definition get_existing_seasons_for_grower (d : Models.Db) (grower_id : string)
    : list Z :=
  Models.seasons_of d grower_id.

(** [get_grower_by_id] *)
Definition get_grower_by_id (d : Models.Db) (grower_id : string)
    : option Models.Grower :=
  Models.Grower_get d grower_id.

(** One turn of the loop of [fetch_all_seasons_for_discovered_growers]. *)
Definition fetch_all_seasons_for_one (E : Env) (config : Async.ScrapingConfig)
    (result : Async.GrowerDiscoveryResult) (w : World) : Z * World :=
  let gid := Async.grower_id result in
  let existing_seasons := get_existing_seasons_for_grower (db w) gid in
  let missing := seasons_to_fetch (Async.first_season result) existing_seasons in
  match missing with
  | [] => (0, w)
  | _ =>
      let grower_season_pairs := map (pair gid) missing in
      let '(seasonal_results, s) :=
        Async.fetch_multiple_reports E config grower_season_pairs (st w) in
      match get_grower_by_id (db w) gid with
      | Some g =>
          let '(saved, d) := save_seasonal_results g seasonal_results (db w) in
          (saved, {| db := d; st := s |})
      | None => (0, {| db := db w; st := s |})
      end
  end.

(** [fetch_all_seasons_for_discovered_growers] *)
Fixpoint fetch_all_seasons_for_discovered_growers (E : Env)
    (config : Async.ScrapingConfig)
    (discovery_results : list Async.GrowerDiscoveryResult) (w : World)
    : Z * World :=
  match discovery_results with
  | [] => (0, w)
  | result :: rest =>
      let '(saved, w) := fetch_all_seasons_for_one E config result w in
      let '(total, w) :=
        fetch_all_seasons_for_discovered_growers E config rest w in
      (saved + total, w)
  end.

(** [get_existing_grower_ids] *)
Definition get_existing_grower_ids (d : Models.Db) (grower_ids : list string) : list string :=
  filter (fun n => n ∈ grower_ids) (map Models.grower_number (Models.growers d)).

(** [process_batch] *)
Definition process_batch (E : Env) (config : Async.ScrapingConfig)
    (start_id end_id : Z) (discover_only resume : bool) (w : World)
    : (Z * Z) * World :=
  let grower_ids := grower_ids_of start_id end_id in
  let grower_ids :=
    if resume
    then let existing_growers := get_existing_grower_ids (db w) grower_ids in
         filter (fun gid => gid ∉ existing_growers) grower_ids
    else grower_ids in
  match grower_ids with
  | [] => ((0, 0), w)
  | _ =>
      let '(discovery_results, s) :=
        Async.discover_growers_batch E config grower_ids (st w) in
      match discovery_results with
      | [] => ((0, 0), {| db := db w; st := s |})
      | _ =>
          let d := save_discovered_growers E discovery_results (db w) in
          let w := {| db := d; st := s |} in
          if discover_only
          then ((Z.of_nat (length discovery_results), 0), w)
          else
            let '(reports_saved, w) :=
              fetch_all_seasons_for_discovered_growers E config
                discovery_results w in
            ((Z.of_nat (length discovery_results), reports_saved), w)
      end
  end.

(** The options of the command line. *)
Record Options : Type := {
  opt_start : Z;
  opt_end : Z;
  opt_batch_size : Z;
  opt_concurrent : Z;
  opt_discover_only : bool;
  opt_resume : bool }.

(** The configuration built by [handle]. *)
Definition config_of (o : Options) : Async.ScrapingConfig :=
  {| Async.max_concurrent_requests := opt_concurrent o; Async.max_retries := 2 |}.

(** The batch loop of [async_main], over the batch starts still to run. *)
Fixpoint run_batches (E : Env) (o : Options) (batch_starts : list Z)
    (w : World) : (Z * Z) * World :=
  match batch_starts with
  | [] => ((0, 0), w)
  | batch_start :: rest =>
      let batch_end := Z.min (batch_start + opt_batch_size o - 1) (opt_end o) in
      let '((discovered, reports_saved), w) :=
        process_batch E (config_of o) batch_start batch_end
          (opt_discover_only o) (opt_resume o) w in
      let '((total_discovered, total_reports_saved), w) :=
        run_batches E o rest w in
      ((discovered + total_discovered, reports_saved + total_reports_saved), w)
  end.

(** [handle] with [async_main]: the credentials are the two lines typed at
    the prompts. *)
Definition handle (E : Env) (o : Options) (username password : string)
    (w : World) : Outcome * World :=
  if negb (Async.login E username password) then (LoginFailed, w)
  else
    match range_step (opt_start o) (opt_end o + 1) (opt_batch_size o) with
    | Raise e => (Crashed e, w)
    | Ok batch_starts =>
        let '((total_discovered, total_reports_saved), w) :=
          run_batches E o batch_starts w in
        (Completed total_discovered total_reports_saved, w)
    end.

(** The form [handle] submits to the portal. *)
Definition submitted_login (username password : string) : list (string * string) :=
  Async.login_payload username password.

End AsyncCommand.

(* ================================================================== *)
(** * [threaded-discover-growers.py] *)
(* ================================================================== *)

Module ThreadedCommand.

(** [create_grower_from_report]: [int(...)] is not guarded here. *)
Definition create_grower_from_report (E : Env) (report_data : Report)
    (d : Models.Db) : PyResult Models.Grower * Models.Db :=
  let info := grower_info report_data in
  let must_know := must_know_info report_data in
  let first_sales :=
    match must_know !! "first_sales_record_found" with
    | Some v =>
        if str_truthy v
        then result_map Some (py_int (int_max_str_digits E) v)
        else Ok None
    | None => Ok None
    end in
  match first_sales with
  | Raise e => (Raise e, d)
  | Ok first_sales =>
      Models.Grower_get_or_create (info !! "grower_number")
        (fun pk =>
           {| Models.grower_number := pk;
              Models.name := default EmptyString (info !! "name");
              Models.surname := default EmptyString (info !! "surname");
              Models.national_id := default EmptyString (info !! "national_id");
              Models.farming_province := default EmptyString (info !! "farming_province");
              Models.farm_name := default EmptyString (info !! "farm_name");
              Models.address := default EmptyString (info !! "address");
              Models.first_sales_year := first_sales |})
        d
  end.

(** The loop over [report_data.get('grade_analysis', [])]. *)
Fixpoint create_grade_items (key : string * Z) (items : list GradeItem)
    (d : Models.Db) : PyResult unit * Models.Db :=
  match items with
  | [] => (Ok tt, d)
  | item :: rest =>
      match Models.GradeAnalysis_create key item d with
      | (Raise e, d) => (Raise e, d)
      | (Ok _, d) => create_grade_items key rest d
      end
  end.

(** The loop over [report_data.get('creditor_recoveries', [])]. *)
Fixpoint create_creditor_items (key : string * Z) (items : list CreditorItem)
    (d : Models.Db) : Models.Db :=
  match items with
  | [] => d
  | item :: rest =>
      let creditor := strip (creditor_name item) in
      if str_truthy creditor
      then
        let d := Models.Creditor_get_or_create creditor d in
        let d := Models.CreditorRecovery_create
                   {| Models.cr_seasonal_report := key;
                      Models.cr_creditor := creditor;
                      Models.cr_total_owed_usd := total_owed_usd item;
                      Models.cr_total_paid_usd := total_paid_usd item;
                      Models.cr_recovery_percentage := recovery_percentage item |} d in
        create_creditor_items key rest d
      else create_creditor_items key rest d
  end.

(** [create_seasonal_data]: the callers open the transaction. *)
Definition create_seasonal_data (g : Models.Grower) (season : Z)
    (report_data : Report) (d : Models.Db) : PyResult unit * Models.Db :=
  if Models.SeasonalReport_exists d (Models.grower_number g) season then (Ok tt, d)
  else
    let must_know := must_know_info report_data in
    let contractor_name :=
      match must_know !! (pretty season +:+ "_contractor") with
      | Some n => if str_truthy n then Some n else must_know !! "contractor"
      | None => must_know !! "contractor"
      end in
    let '(contractor, d) :=
      match contractor_name with
      | Some n =>
          if str_truthy n && str_truthy (strip n)
          then (Some (strip n), Models.Contractor_get_or_create (strip n) d)
          else (None, d)
      | None => (None, d)
      end in
    let summary := sales_summary report_data in
    match Models.SeasonalReport_create
            {| Models.grower := Models.grower_number g;
               Models.season_year := season;
               Models.contractor := contractor;
               Models.total_bales := summary ≫= total_bales;
               Models.total_mass_kg := summary ≫= total_mass_kg;
               Models.total_value_usd := summary ≫= total_value_usd;
               Models.average_price_usd := summary ≫= average_price_usd |} d with
    | (Raise e, d) => (Raise e, d)
    | (Ok _, d) =>
        let key := (Models.grower_number g, season) in
        match create_grade_items key (grade_analysis report_data) d with
        | (Raise e, d) => (Raise e, d)
        | (Ok _, d) =>
            (Ok tt, create_creditor_items key (creditor_recoveries report_data) d)
        end
    end.

(** [save_discovered_growers]: grower and first season in one
    transaction; an exception is caught and the loop goes on. *)
Fixpoint save_discovered_growers (E : Env)
    (discovered_growers : list (string * Z * Report)) (d : Models.Db) : Models.Db :=
  match discovered_growers with
  | [] => d
  | (_, first_season, report_data) :: rest =>
      let d :=
        (Models.atomic (fun d =>
           match create_grower_from_report E report_data d with
           | (Raise e, d) => (Raise e, d)
           | (Ok g, d) => create_seasonal_data g first_season report_data d
           end) d).2 in
      save_discovered_growers E rest d
  end.

(** The missing seasons of one discovered grower. *)
Definition missing_seasons (first_season : Z) (existing_seasons : list Z) : list Z :=
  filter (fun season => season ∉ existing_seasons) (range (first_season + 1) 2026).

(** The saving loop over [results]. *)
Fixpoint save_results (g : Models.Grower) (results : list (string * Z * Report))
    (d : Models.Db) : Z * Models.Db :=
  match results with
  | [] => (0, d)
  | (_, season, report_data) :: rest =>
      match Models.atomic (create_seasonal_data g season report_data) d with
      | (Ok _, d) => let '(saved, d) := save_results g rest d in (1 + saved, d)
      | (Raise _, d) => save_results g rest d
      end
  end.

(** [get_existing_seasons_for_grower] *)
Definition get_existing_seasons_for_grower (d : Models.Db) (grower_id : string)
    : list Z :=
  Models.seasons_of d grower_id.

(** [get_grower_by_id] *)
Definition get_grower_by_id (d : Models.Db) (grower_id : string)
    : option Models.Grower :=
  Models.Grower_get d grower_id.

(** One turn of the loop of [fetch_remaining_seasons]. *)
Definition fetch_remaining_seasons_for_one (E : Env)
    (discovered : string * Z * Report) (w : World) : Z * World :=
  let '(gid, first_season, _) := discovered in
  let existing_seasons := get_existing_seasons_for_grower (db w) gid in
  let missing := missing_seasons first_season existing_seasons in
  match missing with
  | [] => (0, w)
  | _ =>
      let grower_season_pairs := map (pair gid) missing in
      let '(results, s) :=
        Threaded.fetch_multiple_reports_threaded E grower_season_pairs (st w) in
      match get_grower_by_id (db w) gid with
      | Some g =>
          let '(saved, d) := save_results g results (db w) in
          (saved, {| db := d; st := s |})
      | None => (0, {| db := db w; st := s |})
      end
  end.

(** [fetch_remaining_seasons] *)
Fixpoint fetch_remaining_seasons (E : Env)
    (discovered_growers : list (string * Z * Report)) (w : World) : Z * World :=
  match discovered_growers with
  | [] => (0, w)
  | discovered :: rest =>
      let '(saved, w) := fetch_remaining_seasons_for_one E discovered w in
      let '(total, w) := fetch_remaining_seasons E rest w in
      (saved + total, w)
  end.

(** [get_existing_grower_ids] *)
Definition get_existing_grower_ids (d : Models.Db) (grower_ids : list string)
    : list string :=
  filter (fun n => n ∈ grower_ids) (map Models.grower_number (Models.growers d)).

(** [process_batch] *)
Definition process_batch (E : Env) (start_id end_id : Z)
    (discover_only resume : bool) (w : World) : (Z * Z) * World :=
  let grower_ids := grower_ids_of start_id end_id in
  let grower_ids :=
    if resume
    then let existing_growers := get_existing_grower_ids (db w) grower_ids in
         filter (fun gid => gid ∉ existing_growers) grower_ids
    else grower_ids in
  match grower_ids with
  | [] => ((0, 0), w)
  | _ =>
      let '(discovered_growers, s) :=
        Threaded.discover_growers_threaded E grower_ids (st w) in
      match discovered_growers with
      | [] => ((0, 0), {| db := db w; st := s |})
      | _ =>
          let d := save_discovered_growers E discovered_growers (db w) in
          let w := {| db := d; st := s |} in
          if discover_only
          then ((Z.of_nat (length discovered_growers), 0), w)
          else
            let '(reports_saved, w) :=
              fetch_remaining_seasons E discovered_growers w in
            ((Z.of_nat (length discovered_growers), reports_saved), w)
      end
  end.

Record Options : Type := {
  opt_start : Z;
  opt_end : Z;
  opt_batch_size : Z;
  opt_workers : Z;
  opt_discover_only : bool;
  opt_resume : bool }.

Fixpoint run_batches (E : Env) (o : Options) (batch_starts : list Z) (w : World)
    : (Z * Z) * World :=
  match batch_starts with
  | [] => ((0, 0), w)
  | batch_start :: rest =>
      let batch_end := Z.min (batch_start + opt_batch_size o - 1) (opt_end o) in
      let '((discovered, reports_saved), w) :=
        process_batch E batch_start batch_end
          (opt_discover_only o) (opt_resume o) w in
      let '((total_discovered, total_reports_saved), w) :=
        run_batches E o rest w in
      ((discovered + total_discovered, reports_saved + total_reports_saved), w)
  end.

(** The credentials [handle] gives the scraper.  The two prompts are
    commented out in the source and two literals stand in their place. *)
Definition handle_username : string := "DSAMAKANDE".
Definition handle_password : string := "D@654321s".

(** [handle].  [typed_username] and [typed_password] are what the operator
    has to give at run start; the command never reads them. *)
Definition handle (E : Env) (o : Options) (typed_username typed_password : string)
    (w : World) : Outcome * World :=
  let username := handle_username in
  let password := handle_password in
  if negb (Threaded.login E username password) then (LoginFailed, w)
  else
    match range_step (opt_start o) (opt_end o + 1) (opt_batch_size o) with
    | Raise e => (Crashed e, w)
    | Ok batch_starts =>
        let '((total_discovered, total_reports_saved), w) :=
          run_batches E o batch_starts w in
        (Completed total_discovered total_reports_saved, w)
    end.

(** The form [handle] submits to the portal. *)
Definition submitted_login (typed_username typed_password : string)
    : list (string * string) :=
  let username := handle_username in
  let password := handle_password in
  Threaded.login_payload username password.

End ThreadedCommand.

(* ================================================================== *)
(** * [discover-growers.py] *)
(* ================================================================== *)

Module SequentialCommand.

Definition GROWER_ID_START : Z := 100000.
Definition GROWER_ID_END : Z := 400000.
Definition SEASONS : list Z := [2024; 2023; 2022; 2021; 2020; 2019; 2018; 2025].

(** The [for season in SEASONS] probe of [handle].  [last] is the value
    [report_data] holds when the loop is entered; the result is the value
    it holds when the loop is left.  The test subscripts [report_data]:
    [None] raises [TypeError], a report without a name raises [KeyError]. *)
Fixpoint probe (E : Env) (grower_id : string) (seasons : list Z)
    (last : option Report) (st : St) : PyResult (option Report) * St :=
  match seasons with
  | [] => (Ok last, st)
  | season :: rest =>
      match Sequential.fetch_report E grower_id season st with
      | (Raise e, st) => (Raise e, st)
      | (Ok None, st) => (Raise TypeError, st)
      | (Ok (Some report), st) =>
          match grower_info report !! "name" with
          | None => (Raise KeyError, st)
          | Some n =>
              if str_truthy n then (Ok (Some report), st)
              else probe E grower_id rest (Some report) st
          end
      end
  end.

(** [create_grower_from_report] *)
Definition create_grower_from_report (E : Env) (report_data : Report)
    (d : Models.Db) : PyResult Models.Grower * Models.Db :=
  let info := grower_info report_data in
  let must_know := must_know_info report_data in
  let first_sales :=
    match must_know !! "first_sales_record_found" with
    | Some v =>
        if str_truthy v
        then result_map Some (py_int (int_max_str_digits E) v)
        else Ok None
    | None => Ok None
    end in
  match first_sales with
  | Raise e => (Raise e, d)
  | Ok first_sales =>
      Models.Grower_get_or_create (info !! "grower_number")
        (fun pk =>
           {| Models.grower_number := pk;
              Models.name := default EmptyString (info !! "name");
              Models.surname := default EmptyString (info !! "surname");
              Models.national_id := default EmptyString (info !! "national_id");
              Models.farming_province := default EmptyString (info !! "farming_province");
              Models.farm_name := default EmptyString (info !! "farm_name");
              Models.address := default EmptyString (info !! "address");
              Models.first_sales_year := first_sales |})
        d
  end.

Fixpoint create_grade_items (key : string * Z) (items : list GradeItem)
    (d : Models.Db) : PyResult unit * Models.Db :=
  match items with
  | [] => (Ok tt, d)
  | item :: rest =>
      match Models.GradeAnalysis_create key item d with
      | (Raise e, d) => (Raise e, d)
      | (Ok _, d) => create_grade_items key rest d
      end
  end.

Fixpoint create_creditor_items (key : string * Z) (items : list CreditorItem)
    (d : Models.Db) : Models.Db :=
  match items with
  | [] => d
  | item :: rest =>
      if str_truthy (creditor_name item) && str_truthy (strip (creditor_name item))
      then
        let creditor := strip (creditor_name item) in
        let d := Models.Creditor_get_or_create creditor d in
        let d := Models.CreditorRecovery_create
                   {| Models.cr_seasonal_report := key;
                      Models.cr_creditor := creditor;
                      Models.cr_total_owed_usd := total_owed_usd item;
                      Models.cr_total_paid_usd := total_paid_usd item;
                      Models.cr_recovery_percentage := recovery_percentage item |} d in
        create_creditor_items key rest d
      else create_creditor_items key rest d
  end.

(** [create_seasonal_data]: no look-up before the insert here; the
    callers test for the row. *)
Definition create_seasonal_data (g : Models.Grower) (season : Z)
    (report_data : Report) (d : Models.Db) : PyResult unit * Models.Db :=
  let must_know := must_know_info report_data in
  let contractor_name :=
    match must_know !! (pretty season +:+ "_contractor") with
    | Some n => if str_truthy n then Some n else must_know !! "contractor"
    | None => must_know !! "contractor"
    end in
  let '(contractor, d) :=
    match contractor_name with
    | Some n =>
        if str_truthy n && str_truthy (strip n)
        then (Some (strip n), Models.Contractor_get_or_create (strip n) d)
        else (None, d)
    | None => (None, d)
    end in
  let summary := sales_summary report_data in
  match Models.SeasonalReport_create
          {| Models.grower := Models.grower_number g;
             Models.season_year := season;
             Models.contractor := contractor;
             Models.total_bales := summary ≫= total_bales;
             Models.total_mass_kg := summary ≫= total_mass_kg;
             Models.total_value_usd := summary ≫= total_value_usd;
             Models.average_price_usd := summary ≫= average_price_usd |} d with
  | (Raise e, d) => (Raise e, d)
  | (Ok _, d) =>
      let key := (Models.grower_number g, season) in
      match create_grade_items key (grade_analysis report_data) d with
      | (Raise e, d) => (Raise e, d)
      | (Ok _, d) =>
          (Ok tt, create_creditor_items key (creditor_recoveries report_data) d)
      end
  end.

(** [scrape_all_seasons_for_grower], over the seasons still to visit. *)
Fixpoint scrape_all_seasons_for_grower (E : Env) (g : Models.Grower)
    (seasons : list Z) (w : World) : PyResult unit * World :=
  match seasons with
  | [] => (Ok tt, w)
  | season :: rest =>
      if Models.SeasonalReport_exists (db w) (Models.grower_number g) season
      then scrape_all_seasons_for_grower E g rest w
      else
        match Sequential.fetch_report E (Models.grower_number g) season (st w) with
        | (Raise e, s) => (Raise e, {| db := db w; st := s |})
        | (Ok None, s) =>
            scrape_all_seasons_for_grower E g rest {| db := db w; st := s |}
        | (Ok (Some report_data), s) =>
            match Models.atomic (create_seasonal_data g season report_data) (db w) with
            | (Raise e, d) => (Raise e, {| db := d; st := s |})
            | (Ok _, d) =>
                scrape_all_seasons_for_grower E g rest {| db := d; st := s |}
            end
        end
  end.

(** The [for i in range(...)] loop of [handle], over the numbers still to
    visit: [None] when the loop runs to its end, the exception that ends
    the command otherwise. *)
Fixpoint discover (E : Env) (numbers : list Z) (w : World) : option PyExn * World :=
  match numbers with
  | [] => (None, w)
  | i :: rest =>
      let grower_id := "V" +:+ pretty i in
      match Models.Grower_get (db w) grower_id with
      | Some g =>
          match scrape_all_seasons_for_grower E g SEASONS w with
          | (Raise e, w) => (Some e, w)
          | (Ok _, w) => discover E rest w
          end
      | None =>
          match probe E grower_id SEASONS None (st w) with
          | (Raise e, s) => (Some e, {| db := db w; st := s |})
          | (Ok None, s) => discover E rest {| db := db w; st := s |}
          | (Ok (Some report_data), s) =>
              match Models.atomic (create_grower_from_report E report_data) (db w) with
              | (Raise e, d) => (Some e, {| db := d; st := s |})
              | (Ok g, d) =>
                  match scrape_all_seasons_for_grower E g SEASONS
                          {| db := d; st := s |} with
                  | (Raise e, w) => (Some e, w)
                  | (Ok _, w) => discover E rest w
                  end
              end
          end
      end
  end.

(** [handle] *)
Definition handle (E : Env) (username password : string) (w : World)
    : Outcome * World :=
  if negb (Sequential.login E username password) then (LoginFailed, w)
  else
    match discover E (range GROWER_ID_START (GROWER_ID_END + 1)) w with
    | (Some e, w) => (Crashed e, w)
    | (None, w) => (Completed 0 0, w)
    end.

(** The form [handle] submits to the portal. *)
Definition submitted_login (username password : string) : list (string * string) :=
  Sequential.login_payload username password.

End SequentialCommand.

(* ================================================================== *)
(** * Scheduling: the semaphore and the thread pool *)
(* ================================================================== *)

(** [sum(1 for x in l if p(x))] *)
Fixpoint count_if {A} (p : A -> bool) (l : list A) : Z :=
  match l with
  | [] => 0
  | x :: l' => (if p x then 1 else 0) + count_if p l'
  end.

(** The coroutines of the async scraper, each at a point of
    [_fetch_single_report], interleaved by the event loop.  A coroutine
    yields at its [await]s only, so a step is what one coroutine does
    between two of them. *)
Module EventLoop.

Inductive Pc : Type :=
| AtAcquire   (* at [async with self.semaphore], not yet in *)
| AtDelay     (* in the block, in [await asyncio.sleep(request_delay)] *)
| AtPost      (* in the block, the request posted, awaiting the response *)
| Returned.   (* out of the block, by [return] or by a re-raised exception *)

(** [self.semaphore._value] and the coroutines. *)
Record Loop : Type := {
  permits : Z;
  tasks : list Pc }.

(** [asyncio.Semaphore(self.config.max_concurrent_requests)], no
    coroutine started yet. *)
Definition init (config : Async.ScrapingConfig) : Loop :=
  {| permits := Async.max_concurrent_requests config; tasks := [] |}.

Inductive step : Loop -> Loop -> Prop :=
| step_spawn s :
    (* [gather] starts one more coroutine; it calls [_fetch_single_report] *)
    step s {| permits := permits s; tasks := tasks s ++ [AtAcquire] |}
| step_acquire s i :
    (* [__aenter__]: the semaphore lets a coroutine in while its value
       is positive, and counts it down *)
    tasks s !! i = Some AtAcquire ->
    0 < permits s ->
    step s {| permits := permits s - 1; tasks := <[i := AtDelay]> (tasks s) |}
| step_post s i :
    (* the delay is over: [requests_made += 1], [session.post] *)
    tasks s !! i = Some AtDelay ->
    step s {| permits := permits s; tasks := <[i := AtPost]> (tasks s) |}
| step_cancelled s i :
    (* the sleep raises: [__aexit__] releases *)
    tasks s !! i = Some AtDelay ->
    step s {| permits := permits s + 1; tasks := <[i := Returned]> (tasks s) |}
| step_response s i :
    (* the response, or the exception of the request, arrives:
       [__aexit__] releases *)
    tasks s !! i = Some AtPost ->
    step s {| permits := permits s + 1; tasks := <[i := Returned]> (tasks s) |}
| step_again s i :
    (* the retry loop, or the next year of discovery, calls
       [_fetch_single_report] again *)
    tasks s !! i = Some Returned ->
    step s {| permits := permits s; tasks := <[i := AtAcquire]> (tasks s) |}.

Definition is_posting (pc : Pc) : bool :=
  match pc with AtPost => true | _ => false end.

Definition is_inside (pc : Pc) : bool :=
  match pc with AtDelay | AtPost => true | _ => false end.

(** Requests dispatched and not yet completed. *)
Definition in_flight (s : Loop) : Z := count_if is_posting (tasks s).

Definition reachable (config : Async.ScrapingConfig) (s : Loop) : Prop :=
  rtc step (init config) s.

End EventLoop.

(** The worker threads of [ThreadPoolExecutor(max_workers=...)], each
    idle or at a point of [fetch_report] inside the task it runs. *)
Module ThreadPool.

Inductive Worker : Type :=
| Waiting    (* blocked on the work queue *)
| Sleeping   (* in a task, in [time.sleep(self.request_delay)] *)
| Posting.   (* in a task, in [self.session.post] *)

Record Pool : Type := {
  max_workers : Z;
  queue : Z;                (* work items submitted and not yet taken *)
  workers : list Worker }.

Definition init (max_workers : Z) : Pool :=
  {| max_workers := max_workers; queue := 0; workers := [] |}.

Inductive step : Pool -> Pool -> Prop :=
| step_submit p :
    (* [executor.submit] *)
    step p {| max_workers := max_workers p; queue := queue p + 1;
              workers := workers p |}
| step_spawn p :
    (* [_adjust_thread_count]: one more thread while there are fewer
       than [max_workers] *)
    Z.of_nat (length (workers p)) < max_workers p ->
    step p {| max_workers := max_workers p; queue := queue p;
              workers := workers p ++ [Waiting] |}
| step_take p i :
    (* a waiting worker takes a work item and enters [fetch_report] *)
    workers p !! i = Some Waiting ->
    0 < queue p ->
    step p {| max_workers := max_workers p; queue := queue p - 1;
              workers := <[i := Sleeping]> (workers p) |}
| step_post p i :
    workers p !! i = Some Sleeping ->
    step p {| max_workers := max_workers p; queue := queue p;
              workers := <[i := Posting]> (workers p) |}
| step_next p i :
    (* the request is over and the task goes on to its next
       [fetch_report] (the next year of discovery) *)
    workers p !! i = Some Posting ->
    step p {| max_workers := max_workers p; queue := queue p;
              workers := <[i := Sleeping]> (workers p) |}
| step_done p i :
    (* the request is over and the task returns or raises *)
    workers p !! i = Some Posting ->
    step p {| max_workers := max_workers p; queue := queue p;
              workers := <[i := Waiting]> (workers p) |}.

Definition is_posting (w : Worker) : bool :=
  match w with Posting => true | _ => false end.

Definition in_flight (p : Pool) : Z := count_if is_posting (workers p).

Definition reachable (n : Z) (p : Pool) : Prop := rtc step (init n) p.

End ThreadPool.
(* ================================================================== *)
(** * The section parsers of [parse_report] *)
(* ================================================================== *)

(** [c.lower()] on one character (code points below 256). *)
Definition lower_char (c : ascii) : ascii :=
  let n := N_of_ascii c in
  if ((65 <=? n) && (n <=? 90)
      || (192 <=? n) && (n <=? 222) && negb (n =? 215))%N
  then ascii_of_N (n + 32) else c.

(** [s.lower()] *)
Fixpoint lower (s : string) : string :=
  match s with
  | EmptyString => EmptyString
  | String c s' => String (lower_char c) (lower s')
  end.

Definition result_bind {A B} (r : PyResult A) (f : A -> PyResult B) : PyResult B :=
  match r with Ok a => f a | Raise e => Raise e end.

(** Truth value of an optional float: [None] and [0.0] are false. *)
Definition float_truthy (v : option decimal) : bool :=
  match v with
  | Some x => negb (dec_digits x =? 0)%N
  | None => false
  end.

(** What BeautifulSoup hands to the parsers. *)
Module Soup.

(** A [td]: its text as the three calls of the parsers render it. *)
Record Cell : Type := {
  get_text : string;            (* [cell.get_text()] *)
  get_text_strip : string;      (* [cell.get_text(strip=True)] *)
  get_text_sep_strip : string   (* [cell.get_text(separator=' ', strip=True)] *) }.

(** A [tr]: [row.find_all('td')] and [row.text]. *)
Record Row : Type := {
  cells : list Cell;
  text : string }.

(** The selections made on a page: the rows of
    [soup.select('td[valign="top"] table tr')], and for each accordion
    section the [find_all('tr')] of its table, [None] when the head, its
    content or the table is not found. *)
Record Page : Type := {
  info_rows : list Row;
  sales_table : option (list Row);
  grade_table : option (list Row);
  creditor_table : option (list Row) }.

End Soup.

Module Sections.

(** [_clean_text] of the async scraper; the other two scrapers have no
    guard for the empty text, which changes nothing on a [str]. *)
Definition _clean_text (text : string) : string :=
  if negb (str_truthy text) then EmptyString
  else strip (str_replace_char "013"%char EmptyString
                (str_replace_char "010"%char " " text)).

(** The key made of a label.  The async scraper also drops [':']. *)
Definition info_key (drop_colon : bool) (label : string) : string :=
  let key := str_replace_char ")"%char EmptyString
               (str_replace_char "("%char EmptyString
                  (str_replace_char " "%char "_" (lower label))) in
  if drop_colon then str_replace_char ":"%char EmptyString key else key.

Inductive InfoSection : Type := grower_info_section | must_know_info_section.

(** The loop of [_parse_info_sections] over [info_rows]; [data] is the
    pair of [data['grower_info']] and [data['must_know_info']]. *)
Fixpoint _parse_info_sections (drop_colon : bool) (info_rows : list Soup.Row)
    (current_section : InfoSection)
    (data : gmap string string * gmap string string)
    : gmap string string * gmap string string :=
  match info_rows with
  | [] => data
  | row :: rest =>
      match Soup.cells row with
      | c0 :: c1 :: _ =>
          let label := _clean_text (Soup.get_text c0) in
          let value := _clean_text (Soup.get_text_sep_strip c1) in
          let data :=
            if str_truthy label
            then let key := info_key drop_colon label in
                 match current_section with
                 | grower_info_section => (<[key := value]> data.1, data.2)
                 | must_know_info_section => (data.1, <[key := value]> data.2)
                 end
            else data in
          _parse_info_sections drop_colon rest current_section data
      | _ =>
          let current_section :=
            if str_contains "Must know information" (Soup.text row)
            then must_know_info_section else current_section in
          _parse_info_sections drop_colon rest current_section data
      end
  end.

(** [_parse_sales_summary]: [None] stands for the empty dict that
    [data['sales_summary']] starts as. *)
Definition _parse_sales_summary (limit : N) (sales_table : option (list Soup.Row))
    : PyResult (option SalesSummary) :=
  match sales_table with
  | Some (_ :: row :: _) =>
      match Soup.cells row with
      | c0 :: c1 :: c2 :: c3 :: _ =>
          result_bind (_parse_int limit (Soup.get_text_strip c0)) (fun bales =>
          result_bind (_parse_value (Soup.get_text c1)) (fun mass =>
          result_bind (_parse_value (Soup.get_text c2)) (fun value =>
          result_bind (_parse_value (Soup.get_text c3)) (fun price =>
          Ok (Some {| total_bales := bales; total_mass_kg := mass;
                      total_value_usd := value; average_price_usd := price |})))))
      | _ => Ok None
      end
  | _ => Ok None
  end.

(** The loop of [_parse_grade_analysis] over the rows after the header. *)
Fixpoint grade_rows (rows : list Soup.Row) : PyResult (list GradeItem) :=
  match rows with
  | [] => Ok []
  | row :: rest =>
      match Soup.cells row with
      | c0 :: c1 :: c2 :: c3 :: _ =>
          result_bind (_parse_value (Soup.get_text c1)) (fun mass =>
          result_bind (_parse_value (Soup.get_text c2)) (fun value =>
          result_bind (_parse_value (Soup.get_text c3)) (fun price =>
          result_bind (grade_rows rest) (fun items =>
          Ok ({| grade_name := _clean_text (Soup.get_text c0);
                 mass_kg := mass; value_usd := value;
                 grade_average_price_usd := price |} :: items)))))
      | _ => grade_rows rest
      end
  end.

(** [_parse_grade_analysis] *)
Definition _parse_grade_analysis (grade_table : option (list Soup.Row))
    : PyResult (list GradeItem) :=
  match grade_table with
  | Some rows => grade_rows (tail rows)
  | None => Ok []
  end.

(** The loop of [_parse_creditor_recoveries] over the rows after the
    header. *)
Fixpoint creditor_rows (rows : list Soup.Row) : PyResult (list CreditorItem) :=
  match rows with
  | [] => Ok []
  | row :: rest =>
      match Soup.cells row with
      | _ :: c1 :: c2 :: c3 :: c4 :: _ =>
          let recovery_text := Soup.get_text_strip c4 in
          result_bind (_parse_value (Soup.get_text c2)) (fun owed =>
          result_bind (_parse_value (Soup.get_text c3)) (fun paid =>
          result_bind (_parse_value recovery_text) (fun percentage =>
          result_bind (_parse_value recovery_text) (fun again =>
          result_bind (creditor_rows rest) (fun items =>
          Ok ({| creditor_name := _clean_text (Soup.get_text c1);
                 total_owed_usd := owed; total_paid_usd := paid;
                 recovery_percentage := percentage;
                 notes := if negb (float_truthy again) then recovery_text
                          else EmptyString |} :: items))))))
      | _ => creditor_rows rest
      end
  end.

(** [_parse_creditor_recoveries] *)
Definition _parse_creditor_recoveries (creditor_table : option (list Soup.Row))
    : PyResult (list CreditorItem) :=
  match creditor_table with
  | Some rows => creditor_rows (tail rows)
  | None => Ok []
  end.

(** The body of [parse_report] after the soup is made. *)
Definition parse_sections (drop_colon : bool) (limit : N) (page : Soup.Page)
    : PyResult Report :=
  let info := _parse_info_sections drop_colon (Soup.info_rows page)
                grower_info_section (∅, ∅) in
  result_bind (_parse_sales_summary limit (Soup.sales_table page)) (fun summary =>
  result_bind (_parse_grade_analysis (Soup.grade_table page)) (fun grades =>
  result_bind (_parse_creditor_recoveries (Soup.creditor_table page)) (fun creditors =>
  Ok {| grower_info := info.1; must_know_info := info.2;
        sales_summary := summary; grade_analysis := grades;
        creditor_recoveries := creditors |}))).

End Sections.

(* ================================================================== *)
(** * [views.py] *)
(* ================================================================== *)

Module Views.

(** What a view gives back: the 404 of [get_object_or_404], a server
    error for an exception that nothing catches, or the context handed to
    the template. *)
Inductive HttpResult (A : Type) : Type :=
| Http404
| ServerError
| Rendered (context : A).
Arguments Http404 {A}.
Arguments ServerError {A}.
Arguments Rendered {A} context.

(** [Model.objects.get(...)] by the number of rows that match. *)
Inductive GetResult (A : Type) : Type :=
| DoesNotExist
| Got (row : A)
| MultipleObjectsReturned.
Arguments DoesNotExist {A}.
Arguments Got {A} row.
Arguments MultipleObjectsReturned {A}.

(** The entry of one year in [reports]: the report and its two related
    sets, which have no declared ordering and come in table order. *)
Record YearTab : Type := {
  report : Models.SeasonalReport;
  grade_analysis : list Models.GradeAnalysis;
  creditor_recoveries : list Models.CreditorRecovery }.

(** The context of [grower_detail]; [reports] in the order its keys were
    set. *)
Record Context : Type := {
  ctx_grower : Models.Grower;
  ctx_reports : list (Z * option YearTab);
  ctx_years : list Z;
  ctx_active_year : Z;
  ctx_active_report : option YearTab }.

(** [years = range(2018, 2027)] *)
Definition years : list Z := range 2018 2027.

(** [SeasonalReport.objects.get(grower=grower, season_year=year)] *)
Definition SeasonalReport_get (d : Models.Db) (pk : string) (year : Z)
    : GetResult Models.SeasonalReport :=
  match List.filter (fun r => String.eqb (Models.grower r) pk
                              && (Models.season_year r =? year))
                    (Models.seasonal_reports d) with
  | [] => DoesNotExist
  | [r] => Got r
  | _ => MultipleObjectsReturned
  end.

(** [report.grade_analysis_items.all()] *)
Definition grade_analysis_items (d : Models.Db) (r : Models.SeasonalReport)
    : list Models.GradeAnalysis :=
  List.filter (fun row => String.eqb (Models.ga_seasonal_report row).1 (Models.grower r)
                          && ((Models.ga_seasonal_report row).2 =? Models.season_year r))
              (Models.grade_analyses d).

(** [report.creditor_recoveries.all()] *)
Definition creditor_recoveries_of (d : Models.Db) (r : Models.SeasonalReport)
    : list Models.CreditorRecovery :=
  List.filter (fun row => String.eqb (Models.cr_seasonal_report row).1 (Models.grower r)
                          && ((Models.cr_seasonal_report row).2 =? Models.season_year r))
              (Models.creditor_recovery_rows d).

(** The loop that fills [reports]; [None] when [get] finds several rows,
    which only [DoesNotExist] is caught for. *)
Fixpoint build_reports (d : Models.Db) (pk : string) (ys : list Z)
    : option (list (Z * option YearTab)) :=
  match ys with
  | [] => Some []
  | year :: rest =>
      match SeasonalReport_get d pk year with
      | MultipleObjectsReturned => None
      | DoesNotExist => cons (year, None) <$> build_reports d pk rest
      | Got r =>
          cons (year, Some {| report := r;
                              grade_analysis := grade_analysis_items d r;
                              creditor_recoveries := creditor_recoveries_of d r |})
            <$> build_reports d pk rest
      end
  end.

(** [reports.get(year)]: a missing key and a stored [None] both give
    [None]. *)
Fixpoint reports_get (reports : list (Z * option YearTab)) (year : Z)
    : option YearTab :=
  match reports with
  | [] => None
  | (y, tab) :: rest => if y =? year then tab else reports_get rest year
  end.

(** The year asked for by the query string, when it is one of [years]. *)
Definition requested_year (E : Env) (year_param : option string)
    : PyResult (option Z) :=
  match year_param with
  | None => Ok None
  | Some s =>
      if str_truthy s
      then match py_int (int_max_str_digits E) s with
           | Ok n => Ok (if bool_decide (n ∈ years) then Some n else None)
           | Raise ValueError => Ok None
           | Raise e => Raise e
           end
      else Ok None
  end.

(** [grower_detail(request, grower_number)] with
    [year_param = request.GET.get('year')] *)
Definition grower_detail (E : Env) (d : Models.Db) (grower_number : string)
    (year_param : option string) : HttpResult Context :=
  match Models.Grower_get d grower_number with
  | None => Http404
  | Some grower =>
      match build_reports d (Models.grower_number grower) years with
      | None => ServerError
      | Some reports =>
          match requested_year E year_param with
          | Raise _ => ServerError
          | Ok requested =>
              let active_year :=
                match requested with
                | Some year => year
                | None =>
                    match find (fun year => bool_decide (is_Some (reports_get reports year)))
                               (rev years) with
                    | Some year => year
                    | None => 2024
                    end
                end in
              Rendered {| ctx_grower := grower;
                          ctx_reports := reports;
                          ctx_years := years;
                          ctx_active_year := active_year;
                          ctx_active_report := reports_get reports active_year |}
          end
      end
  end.

End Views.

(* ================================================================== *)
(** * [fetch_all_seasons_for_grower] of the two concurrent scrapers *)
(* ================================================================== *)

Module AsyncAllSeasons.

(** [fetch_all_seasons_for_grower]: the same gather and filter as
    [fetch_multiple_reports], over [range(start_season, current_year + 1)]. *)
Definition fetch_all_seasons_for_grower (E : Env) (config : Async.ScrapingConfig)
    (grower_id : string) (start_season : Z) (st : St)
    : list (string * Z * Report) * St :=
  let seasons_to_fetch := range start_season (current_year + 1) in
  Async.fetch_multiple_reports E config (map (pair grower_id) seasons_to_fetch) st.

End AsyncAllSeasons.

Module ThreadedAllSeasons.

(** The tasks submitted by [fetch_all_seasons_for_grower]: one
    [fetch_report] per season, each future kept with its season.  The
    tasks are run here in submission order, which is one of the schedules
    of the pool; what a task returns does not depend on the others. *)
Fixpoint submit (E : Env) (grower_id : string) (seasons : list Z) (st : St)
    : list (Z * PyResult (option Report)) * St :=
  match seasons with
  | [] => ([], st)
  | season :: rest =>
      let '(report_data, st) := Threaded.fetch_report E grower_id season st in
      let '(futures, st) := submit E grower_id rest st in
      ((season, report_data) :: futures, st)
  end.

(** [fetch_all_seasons_for_grower].  [as_completed] hands the futures
    over in the order they complete, which need not be the order they
    were submitted in: it is a parameter here, some rearrangement of the
    futures.  A future that raised is reported and left out. *)
Definition fetch_all_seasons_for_grower (E : Env)
    (as_completed : list (Z * PyResult (option Report))
                    -> list (Z * PyResult (option Report)))
    (grower_id : string) (start_season : Z) (st : St)
    : list (string * Z * Report) * St :=
  let seasons_to_fetch := range start_season 2026 in
  let '(future_to_season, st) := submit E grower_id seasons_to_fetch st in
  (omap (fun future : Z * PyResult (option Report) =>
           match future.2 with
           | Ok (Some report_data) => Some (grower_id, future.1, report_data)
           | _ => None
           end)
        (as_completed future_to_season),
   st).

End ThreadedAllSeasons.

(* ================================================================== *)
(** * Vocabulary of the statements *)
(* ================================================================== *)

(** The state [st] after [n] more analysis requests for [(gid, season)],
    [r] more retries, [f] more failed and [s] more successful lookups. *)
Definition advanced (gid : string) (season : Z) (st : St) (n r f s : Z) : St :=
  {| stats := {| requests_made := requests_made (stats st) + n;
                 successful_requests := successful_requests (stats st) + s;
                 failed_requests := failed_requests (stats st) + f;
                 retries := retries (stats st) + r;
                 growers_discovered := growers_discovered (stats st) |};
     posts := posts st ++ replicate (Z.to_nat n) (gid, season) |}.

(** [st] followed by the effects [d] of a run that started from [st0]. *)
Definition st_add (st d : St) : St :=
  {| stats := {| requests_made := requests_made (stats st) + requests_made (stats d);
                 successful_requests :=
                   successful_requests (stats st) + successful_requests (stats d);
                 failed_requests := failed_requests (stats st) + failed_requests (stats d);
                 retries := retries (stats st) + retries (stats d);
                 growers_discovered :=
                   growers_discovered (stats st) + growers_discovered (stats d) |};
     posts := posts st ++ posts d |}.

(** The outcome of one logical lookup, and the number of physical requests
    it takes, in each scraper. *)
Definition async_lookup (E : Env) (config : Async.ScrapingConfig)
    (gid : string) (season : Z) : option Report :=
  (Async.fetch_report_with_retry E config gid season st0).1.

Definition async_attempts (E : Env) (config : Async.ScrapingConfig)
    (gid : string) (season : Z) : nat :=
  length (posts (Async.fetch_report_with_retry E config gid season st0).2).

Definition threaded_lookup (E : Env) (gid : string) (season : Z) : option Report :=
  match (Threaded.fetch_report E gid season st0).1 with
  | Ok report_data => report_data
  | Raise _ => None
  end.

(** [p] is the smallest period of the discovery range whose lookup yields
    a report with a non-empty name. *)
Definition first_present (look : Z -> option Report) (p : Z) : Prop :=
  start_year <= p <= current_year
  /\ present (look p) = true
  /\ forall q, start_year <= q < p -> present (look q) = false.

Definition never_present (look : Z -> option Report) : Prop :=
  forall q, start_year <= q <= current_year -> present (look q) = false.

(** What discovery returns for an identifier, whatever the state. *)
Definition async_discovery (E : Env) (config : Async.ScrapingConfig)
    (gid : string) : option Async.GrowerDiscoveryResult :=
  (Async.discover_grower_first_season E config gid st0).1.

(** Every report with a grower name that the portal serves for an
    identifier carries that identifier as its grower number.  Pages
    without a name, which discovery passes over, may carry anything. *)
Definition portal_echoes_identifier (E : Env) : Prop :=
  forall gid season attempt html report,
    portal E gid season attempt = Body html ->
    Async.parse_report E html = Some report ->
    has_name report = true ->
    grower_info report !! "grower_number" = Some gid.

(** At most one [SeasonalReport] per (grower, season). *)
Definition report_key (r : Models.SeasonalReport) : string * Z :=
  (Models.grower r, Models.season_year r).

Definition unique_reports (d : Models.Db) : Prop :=
  NoDup (map report_key (Models.seasonal_reports d)).

(** A discovery result is settled in a store when a later resume run has
    nothing to do for it: its identifier is a stored grower, or creating
    its grower is refused. *)
Definition settled (E : Env) (d : Models.Db) (r : Async.GrowerDiscoveryResult) : Prop :=
  Models.Grower_exists d (Async.grower_id r) = true
  \/ exists e, AsyncCommand.get_or_create_grower E (Async.first_report_data r) d
               = (Raise e, d).

(** Two stores with the same growers and the same seasonal reports. *)
Definition same_core (d d' : Models.Db) : Prop :=
  Models.growers d' = Models.growers d
  /\ Models.seasonal_reports d' = Models.seasonal_reports d.


(** Every identifier of the batch [start_id..end_id] that discovery finds
    is settled in the store. *)
Definition batch_settled (E : Env) (config : Async.ScrapingConfig)
    (d : Models.Db) (start_id end_id : Z) : Prop :=
  forall gid r, gid ∈ grower_ids_of start_id end_id ->
    async_discovery E config gid = Some r -> settled E d r.

(** The last identifier of the batch that starts at [batch_start]. *)
Definition batch_end_of (o : AsyncCommand.Options) (batch_start : Z) : Z :=
  Z.min (batch_start + AsyncCommand.opt_batch_size o - 1) (AsyncCommand.opt_end o).

(** [st'] is [st] with more requests logged, each for an identifier that
    satisfies [allowed]. *)
Definition posts_within (allowed : string -> Prop) (st st' : St) : Prop :=
  exists delta,
    posts st' = posts st ++ delta /\ Forall (fun p => allowed p.1) delta.

(** Between two states every request was counted once, as a success or
    as a failure, nothing was retried, and every counted request is one
    logged post. *)
Definition accounted (st st' : St) : Prop :=
  requests_made (stats st') - requests_made (stats st)
  = (successful_requests (stats st') - successful_requests (stats st))
    + (failed_requests (stats st') - failed_requests (stats st))
  /\ retries (stats st') = retries (stats st)
  /\ requests_made (stats st') - requests_made (stats st)
     = Z.of_nat (length (posts st')) - Z.of_nat (length (posts st)).

(** The counters of the async scraper: a request is followed by a retry
    or ends its lookup; a lookup that ends in failure is counted once or
    twice. *)
Definition bounded (s : Stats) : Prop :=
  retries s + successful_requests s <= requests_made s
  /\ requests_made s <= retries s + successful_requests s + failed_requests s.

(** [season] is a true first season of [gid] for the lookup [look]: it
    lies in the discovery range, its report has a name, and no earlier
    season of the range has one. *)
Definition true_first_season (look : Z -> option Report) (season : Z)
    (report : Report) : Prop :=
  start_year <= season <= current_year
  /\ look season = Some report
  /\ has_name report = true
  /\ forall q, start_year <= q < season -> present (look q) = false.

(** Every stored grower has at least one stored season. *)
Definition every_grower_has_a_season (d : Models.Db) : Prop :=
  forall g, g ∈ Models.growers d ->
    exists season, Models.SeasonalReport_exists d (Models.grower_number g) season = true.

(** A grade entry lacks one of its three amounts. *)
Definition incomplete_grade (item : GradeItem) : Prop :=
  mass_kg item = None \/ value_usd item = None
  \/ grade_average_price_usd item = None.

(** The query string asks for year [n]: its [year] parameter reads as the
    integer [n], and [n] is one of the tabs. *)
Definition valid_year_param (E : Env) (year_param : option string) (n : Z) : Prop :=
  exists s, year_param = Some s
            /\ py_int (int_max_str_digits E) s = Ok n /\ 2018 <= n <= 2026.

(** The tab of one year, when the store has one report for it. *)
Definition year_tab (d : Models.Db) (pk : string) (year : Z) : option Views.YearTab :=
  match Views.SeasonalReport_get d pk year with
  | Views.Got r =>
      Some {| Views.report := r;
              Views.grade_analysis := Views.grade_analysis_items d r;
              Views.creditor_recoveries := Views.creditor_recoveries_of d r |}
  | _ => None
  end.

(** The keys and references the models declare hold in a store: grower
    numbers, national ids, contractor names, creditor names and
    (grower, season) pairs are keys; a seasonal report names a stored
    grower and, if any, a stored contractor; a grade row and a creditor
    row name a stored seasonal report, and a creditor row a stored
    creditor. *)
Definition store_consistent (d : Models.Db) : Prop :=
  NoDup (map Models.grower_number (Models.growers d))
  /\ NoDup (map Models.national_id (Models.growers d))
  /\ NoDup (Models.contractors d)
  /\ NoDup (Models.creditors d)
  /\ NoDup (map report_key (Models.seasonal_reports d))
  /\ Forall (fun r => Models.grower r ∈ map Models.grower_number (Models.growers d)
                      /\ forall c, Models.contractor r = Some c ->
                                   c ∈ Models.contractors d)
            (Models.seasonal_reports d)
  /\ Forall (fun row => Models.ga_seasonal_report row
                        ∈ map report_key (Models.seasonal_reports d))
            (Models.grade_analyses d)
  /\ Forall (fun row => Models.cr_seasonal_report row
                        ∈ map report_key (Models.seasonal_reports d)
                        /\ Models.cr_creditor row ∈ Models.creditors d)
            (Models.creditor_recovery_rows d).

(** A key of [grower_info] or [must_know_info] in normal form: no upper
    case letter, no space, no parenthesis, and for the async scraper no
    colon. *)
Definition normal_key (drop_colon : bool) (key : string) : Prop :=
  str_exists (fun c => negb (Ascii.eqb (lower_char c) c)) key = false
  /\ str_exists (fun c => Ascii.eqb c " "%char) key = false
  /\ str_exists (fun c => Ascii.eqb c "("%char) key = false
  /\ str_exists (fun c => Ascii.eqb c ")"%char) key = false
  /\ (drop_colon = true -> str_exists (fun c => Ascii.eqb c ":"%char) key = false).

(** The row that opens the second section: fewer than two cells, and the
    heading in its text. *)
Definition is_section_header (row : Soup.Row) : bool :=
  match Soup.cells row with
  | _ :: _ :: _ => false
  | _ => str_contains "Must know information" (Soup.text row)
  end.

(** The rows of a table that make an entry: those with at least [n]
    cells. *)
Definition has_cells (n : nat) (row : Soup.Row) : bool :=
  (n <=? length (Soup.cells row))%nat.

(** What the sequential scraper reads for an identifier and a season. *)
Definition sequential_lookup (E : Env) (gid : string) (season : Z) : option Report :=
  match portal E gid season 0 with
  | Failed _ => None
  | Body text => Sequential.parse_report E text
  end.

(** The number of seasonal reports in a store. *)
Definition report_rows (d : Models.Db) : Z :=
  Z.of_nat (length (Models.seasonal_reports d)).

(** The first year of a list whose lookup gives a report with a name,
    with that report. *)
Fixpoint first_named (look : Z -> option Report) (years : list Z)
    : option (Z * Report) :=
  match years with
  | [] => None
  | year :: rest =>
      match look year with
      | Some report =>
          if has_name report then Some (year, report) else first_named look rest
      | None => first_named look rest
      end
  end.

(** The portal answers a lookup alike at every attempt, and never with an
    empty page. *)
Definition stable_portal (E : Env) : Prop :=
  (forall gid season attempt, portal E gid season attempt = portal E gid season 0)
  /\ forall gid season, portal E gid season 0 <> Body EmptyString.

(** Two scrapers look at the same portal, each reading a page with its
    own [parse_report]. *)
Definition same_portal (Ea Et : Env) : Prop :=
  forall gid season attempt,
    portal Et gid season attempt = portal Ea gid season attempt.

(** The two readings find a grower name on the same pages.  A page whose
    label is [Name:] is not such a page: the async scraper files it under
    [name], the threaded scraper under [name:]. *)
Definition same_names (Ea Et : Env) : Prop :=
  forall html,
    has_name (extract_sections Et html) = has_name (extract_sections Ea html).

(** The identifiers a batch looks up: those of the batch, without the
    stored growers when resuming (the first lines of [process_batch] in
    both concurrent commands). *)
Definition async_batch_ids (d : Models.Db) (start_id end_id : Z) (resume : bool)
    : list string :=
  let grower_ids := grower_ids_of start_id end_id in
  if resume
  then let existing_growers := AsyncCommand.get_existing_grower_ids d grower_ids in
       filter (fun gid => gid ∉ existing_growers) grower_ids
  else grower_ids.

Definition threaded_batch_ids (d : Models.Db) (start_id end_id : Z) (resume : bool)
    : list string :=
  let grower_ids := grower_ids_of start_id end_id in
  if resume
  then let existing_growers := ThreadedCommand.get_existing_grower_ids d grower_ids in
       filter (fun gid => gid ∉ existing_growers) grower_ids
  else grower_ids.

(** A grade entry is what its row says: the cleaned text of the first
    cell and the amounts read from the next three. *)
Definition grade_entry_of (row : Soup.Row) (item : GradeItem) : Prop :=
  exists c0 c1 c2 c3 more,
    Soup.cells row = c0 :: c1 :: c2 :: c3 :: more
    /\ grade_name item = Sections._clean_text (Soup.get_text c0)
    /\ _parse_value (Soup.get_text c1) = Ok (mass_kg item)
    /\ _parse_value (Soup.get_text c2) = Ok (value_usd item)
    /\ _parse_value (Soup.get_text c3) = Ok (grade_average_price_usd item).

(** A creditor entry is what its row says: the cleaned text of the second
    cell, the amounts read from the third and fourth, the percentage read
    from the stripped text of the fifth, and as note that stripped text
    itself unless the percentage is a non-zero number. *)
Definition creditor_entry_of (row : Soup.Row) (item : CreditorItem) : Prop :=
  exists c0 c1 c2 c3 c4 more,
    Soup.cells row = c0 :: c1 :: c2 :: c3 :: c4 :: more
    /\ creditor_name item = Sections._clean_text (Soup.get_text c1)
    /\ _parse_value (Soup.get_text c2) = Ok (total_owed_usd item)
    /\ _parse_value (Soup.get_text c3) = Ok (total_paid_usd item)
    /\ _parse_value (Soup.get_text_strip c4) = Ok (recovery_percentage item)
    /\ notes item = if float_truthy (recovery_percentage item)
                    then EmptyString else Soup.get_text_strip c4.

(** A sales summary is what the second row of its table says. *)
Definition sales_entry_of (limit : N) (row : Soup.Row) (summary : SalesSummary)
    : Prop :=
  exists c0 c1 c2 c3 more,
    Soup.cells row = c0 :: c1 :: c2 :: c3 :: more
    /\ _parse_int limit (Soup.get_text_strip c0) = Ok (total_bales summary)
    /\ _parse_value (Soup.get_text c1) = Ok (total_mass_kg summary)
    /\ _parse_value (Soup.get_text c2) = Ok (total_value_usd summary)
    /\ _parse_value (Soup.get_text c3) = Ok (average_price_usd summary).

(* ================================================================== *)
(** * Fixtures *)
(* ================================================================== *)

(** A page is its grower number; every grower is called Tendai. *)
Definition fx_report (grower_number : string) : Report :=
  {| grower_info := <["grower_number" := grower_number]> (<["name" := "Tendai"]> ∅);
     must_know_info := ∅;
     sales_summary := None;
     grade_analysis := [];
     creditor_recoveries := [] |}.

Definition fx_absent_page : string := "<p>Please specify the grower number</p>".

Definition fx_env (portal : string -> Z -> Z -> Response) : Env :=
  {| portal := portal;
     login_page := fun _ _ => Body "Welcome";
     extract_sections := fx_report;
     int_max_str_digits := 4300 |}.

(** Two timeouts, then the page. *)
Definition fx_flaky : Env :=
  fx_env (fun gid _ attempt => if attempt <? 2 then Failed Timeout else Body gid).

(** The portal is unreachable. *)
Definition fx_down : Env := fx_env (fun _ _ _ => Failed NetworkError).

(** No identifier has a record. *)
Definition fx_empty : Env := fx_env (fun _ _ _ => Body fx_absent_page).

(** [V3] has data in 2019 only (section 8 of the specification). *)
Definition fx_v3 : Env :=
  fx_env (fun gid season _ =>
            if String.eqb gid "V3" && (season =? 2019) then Body gid
            else Body fx_absent_page).

(** The configuration the async command builds: [max_retries=2]. *)
Definition fx_config : Async.ScrapingConfig :=
  {| Async.max_concurrent_requests := 6; Async.max_retries := 2 |}.

(** The command line of a resume run over [V1..V5]. *)
Definition fx_options : AsyncCommand.Options :=
  {| AsyncCommand.opt_start := 1; AsyncCommand.opt_end := 5;
     AsyncCommand.opt_batch_size := 10; AsyncCommand.opt_concurrent := 6;
     AsyncCommand.opt_discover_only := false; AsyncCommand.opt_resume := true |}.

Definition fx_world0 : World := {| db := Models.empty_db; st := st0 |}.

(** A portal that answers [V1] (from 2018) and [V2] (from 2019) with the
    report of one and the same grower [X], under two national ids; a page
    is its national id. *)
Definition fx_twin_report (national_id : string) : Report :=
  {| grower_info := <["grower_number" := "X"]>
                      (<["name" := "Tendai"]> (<["national_id" := national_id]> ∅));
     must_know_info := ∅;
     sales_summary := None;
     grade_analysis := [];
     creditor_recoveries := [] |}.

Definition fx_twins : Env :=
  {| portal := fun gid season _ =>
       if String.eqb gid "V1" && (season =? 2018) then Body "N1"
       else if String.eqb gid "V2" && (season =? 2019) then Body "N2"
       else Body fx_absent_page;
     login_page := fun _ _ => Body "Welcome";
     extract_sections := fx_twin_report;
     int_max_str_digits := 4300 |}.

Definition fx_twins_options : AsyncCommand.Options :=
  {| AsyncCommand.opt_start := 1; AsyncCommand.opt_end := 2;
     AsyncCommand.opt_batch_size := 10; AsyncCommand.opt_concurrent := 6;
     AsyncCommand.opt_discover_only := true; AsyncCommand.opt_resume := true |}.

(** A store that already holds a grower with national id [N1]. *)
Definition fx_twins_world : World :=
  {| db := {| Models.growers :=
                [ {| Models.grower_number := "V0"; Models.name := "Rudo";
                     Models.surname := ""; Models.national_id := "N1";
                     Models.farming_province := ""; Models.farm_name := "";
                     Models.address := ""; Models.first_sales_year := None |} ];
              Models.contractors := []; Models.creditors := [];
              Models.seasonal_reports := []; Models.grade_analyses := [];
              Models.creditor_recovery_rows := [] |};
     st := st0 |}.

(** A portal that lets in one account only and has no record of anyone. *)
Definition fx_members_only : Env :=
  {| portal := fun _ _ _ => Body fx_absent_page;
     login_page := fun username password =>
       if String.eqb username "alice" && String.eqb password "wonderland"
       then Body "Welcome alice" else Body "Not logged in";
     extract_sections := fx_report;
     int_max_str_digits := 4300 |}.

Definition fx_one_id : AsyncCommand.Options :=
  {| AsyncCommand.opt_start := 1; AsyncCommand.opt_end := 1;
     AsyncCommand.opt_batch_size := 10; AsyncCommand.opt_concurrent := 6;
     AsyncCommand.opt_discover_only := true; AsyncCommand.opt_resume := false |}.

Definition fx_one_id_threaded : ThreadedCommand.Options :=
  {| ThreadedCommand.opt_start := 1; ThreadedCommand.opt_end := 1;
     ThreadedCommand.opt_batch_size := 10; ThreadedCommand.opt_workers := 6;
     ThreadedCommand.opt_discover_only := true;
     ThreadedCommand.opt_resume := false |}.

(** [V3], discovered in 2019, with 2021 and 2023 stored already. *)
Definition fx_v3_result : Async.GrowerDiscoveryResult :=
  {| Async.grower_id := "V3"; Async.first_season := 2019;
     Async.first_report_data := fx_report "V3" |}.

Definition fx_stored_report (gid : string) (season : Z) : Models.SeasonalReport :=
  {| Models.grower := gid; Models.season_year := season;
     Models.contractor := None; Models.total_bales := None;
     Models.total_mass_kg := None; Models.total_value_usd := None;
     Models.average_price_usd := None |}.

Definition fx_v3_world : World :=
  {| db := {| Models.growers := []; Models.contractors := [];
              Models.creditors := [];
              Models.seasonal_reports :=
                [fx_stored_report "V3" 2019; fx_stored_report "V3" 2021;
                 fx_stored_report "V3" 2023; fx_stored_report "V4" 2020];
              Models.grade_analyses := []; Models.creditor_recovery_rows := [] |};
     st := st0 |}.

(** A limit of two, with three coroutines of which two are awaiting a
    response, and with two workers both posting and one item queued. *)
Definition fx_limit_two : Async.ScrapingConfig :=
  {| Async.max_concurrent_requests := 2; Async.max_retries := 2 |}.

Definition fx_loop_full : EventLoop.Loop :=
  {| EventLoop.permits := 0;
     EventLoop.tasks := [EventLoop.AtPost; EventLoop.AtPost; EventLoop.AtAcquire] |}.

Definition fx_pool_full : ThreadPool.Pool :=
  {| ThreadPool.max_workers := 2; ThreadPool.queue := 1;
     ThreadPool.workers := [ThreadPool.Posting; ThreadPool.Posting] |}.

(** A store with grower [V3] and its reports of 2019, 2021 and 2023. *)
Definition fx_detail_db : Models.Db :=
  {| Models.growers :=
       [{| Models.grower_number := "V3"; Models.name := "Tendai";
           Models.surname := ""; Models.national_id := "";
           Models.farming_province := ""; Models.farm_name := "";
           Models.address := ""; Models.first_sales_year := None |}];
     Models.contractors := []; Models.creditors := [];
     Models.seasonal_reports :=
       [fx_stored_report "V3" 2019; fx_stored_report "V3" 2021;
        fx_stored_report "V3" 2023];
     Models.grade_analyses := []; Models.creditor_recovery_rows := [] |}.

(** A portal that lets in the account the threaded command logs in with
    and knows [V3] from 2019 on. *)
Definition fx_threaded_v3 : Env :=
  {| portal := fun gid season _ =>
       if String.eqb gid "V3" && (2019 <=? season) then Body gid
       else Body fx_absent_page;
     login_page := fun _ _ => Body "Welcome back";
     extract_sections := fx_report;
     int_max_str_digits := 4300 |}.

Definition fx_threaded_options : ThreadedCommand.Options :=
  {| ThreadedCommand.opt_start := 1; ThreadedCommand.opt_end := 5;
     ThreadedCommand.opt_batch_size := 2; ThreadedCommand.opt_workers := 6;
     ThreadedCommand.opt_discover_only := false;
     ThreadedCommand.opt_resume := true |}.

(** A first-season report of [V7] whose only grade line has no price. *)
Definition fx_pricey_result : Async.GrowerDiscoveryResult :=
  {| Async.grower_id := "V7"; Async.first_season := 2020;
     Async.first_report_data :=
       {| grower_info := <["grower_number" := "V7"]> (<["name" := "Chipo"]> ∅);
          must_know_info := ∅;
          sales_summary := None;
          grade_analysis :=
            [{| grade_name := "L1O"; mass_kg := Some (Decimal 120 0);
                value_usd := Some (Decimal 300 0);
                grade_average_price_usd := None |}];
          creditor_recoveries := [] |} |}.

(** A page whose grade table has, after the header, one row with a dash
    for the mass. *)
Definition fx_cell (text : string) : Soup.Cell :=
  {| Soup.get_text := text; Soup.get_text_strip := text;
     Soup.get_text_sep_strip := text |}.

Definition fx_dash_row : Soup.Row :=
  {| Soup.cells := [fx_cell "L1O"; fx_cell "-"; fx_cell "300.00"; fx_cell "2.50"];
     Soup.text := "L1O - 300.00 2.50" |}.

Definition fx_dash_page : Soup.Page :=
  {| Soup.info_rows :=
       [{| Soup.cells := [fx_cell "Grower Number"; fx_cell "V7"];
           Soup.text := "Grower Number V7" |}];
     Soup.sales_table := None;
     Soup.grade_table :=
       Some [{| Soup.cells := []; Soup.text := "Grade Mass Value Price" |};
             fx_dash_row];
     Soup.creditor_table := None |}.

Definition fx_grower_v7 : Models.Grower :=
  {| Models.grower_number := "V7"; Models.name := "Chipo";
     Models.surname := ""; Models.national_id := "";
     Models.farming_province := ""; Models.farm_name := "";
     Models.address := ""; Models.first_sales_year := None |}.

(** A first report whose first sales year is not a number. *)
Definition fx_unknown_year_report : Report :=
  {| grower_info := <["grower_number" := "V8"]> (<["name" := "Farai"]> ∅);
     must_know_info := <["first_sales_record_found" := "n/a"]> ∅;
     sales_summary := None;
     grade_analysis := [];
     creditor_recoveries := [] |}.

(** A portal that answers the 2018 lookup of every identifier with a page
    that carries no grower at all, and knows [V3] in 2019. *)
Definition fx_blank_report : Report :=
  {| grower_info := ∅; must_know_info := ∅; sales_summary := None;
     grade_analysis := []; creditor_recoveries := [] |}.

Definition fx_blank_before_v3 : Env :=
  {| portal := fun gid season _ =>
       if String.eqb gid "V3" && (season =? 2019) then Body gid
       else if season =? 2018 then Body "blank"
       else Body fx_absent_page;
     login_page := fun _ _ => Body "Welcome";
     extract_sections := fun html =>
       if String.eqb html "blank" then fx_blank_report else fx_report html;
     int_max_str_digits := 4300 |}.

(** The page of a grower as the selectors see it: three labelled rows,
    the last with a colon in its label. *)
Definition fx_info_row (label value : string) : Soup.Row :=
  {| Soup.cells := [fx_cell label; fx_cell value]; Soup.text := label +:+ value |}.

Definition fx_dom (grower_number : string) : Soup.Page :=
  {| Soup.info_rows := [fx_info_row "Grower Number" grower_number;
                        fx_info_row "Name" "Tendai";
                        fx_info_row "District:" "Mazowe"];
     Soup.sales_table := None;
     Soup.grade_table := None;
     Soup.creditor_table := None |}.

(** [V3] has data in 2019 only; a page is read by [parse_sections] with
    or without the colon of a label. *)
Definition fx_v3_read (drop_colon : bool) : Env :=
  {| portal := portal fx_v3;
     login_page := login_page fx_v3;
     extract_sections := fun html =>
       match Sections.parse_sections drop_colon 4300 (fx_dom html) with
       | Ok report => report
       | Raise _ => fx_blank_report
       end;
     int_max_str_digits := 4300 |}.
(* ================================================================== *)
(** * Properties *)
(* ================================================================== *)

Example parse_value_examples :
  _parse_value "$1,234.50" = Ok (Some (Decimal 123450 2))
  /\ _parse_value "1.2.3" = Ok None
  /\ _parse_value " . " = Ok None
  /\ _parse_value "12." = Ok (Some (Decimal 12 0))
  /\ _parse_int 4300 " 1 024 bales" = Ok (Some 1024)
  /\ _parse_int 2 "123" = Ok None
  /\ py_int 0 " -1_000 " = Ok (-1000)
  /\ py_int 0 "1__0" = Raise ValueError
  /\ strip "  a b  " = "a b".
Proof. repeat split; reflexivity. Qed.

(* ------------------------------------------------------------------ *)
(** ** The numeric parsing helpers *)

Lemma lstrip_all_space (s : string) :
  str_forall isspace s = true -> lstrip s = EmptyString.
Proof.
  induction s as [|c s IH]; cbn; [done|].
  intros [Hc Hs]%andb_true_iff. rewrite Hc. auto.
Qed.

Lemma strip_all_space (s : string) :
  str_forall isspace s = true -> strip s = EmptyString.
Proof. intros H. unfold strip. by rewrite (lstrip_all_space s H). Qed.

Lemma str_filter_none (p : ascii -> bool) (s : string) :
  str_exists p s = false -> str_filter p s = EmptyString.
Proof.
  induction s as [|c s IH]; cbn; [done|].
  intros [Hc Hs]%orb_false_iff. rewrite Hc. auto.
Qed.

Lemma str_exists_filter (p q : ascii -> bool) (s : string) :
  str_exists p s = false -> str_exists p (str_filter q s) = false.
Proof.
  induction s as [|c s IH]; cbn; [done|].
  intros [Hc Hs]%orb_false_iff. destruct (q c); cbn; rewrite ?Hc; auto.
Qed.

Lemma space_is_not_decimal (c : ascii) : isspace c = true -> isdecimal c = false.
Proof.
  unfold isspace, isdecimal. generalize (N_of_ascii c); intros n H.
  apply andb_false_iff.
  destruct (N.leb_spec 48 n); [right | by left].
  apply N.leb_gt.
  repeat (apply orb_true_iff in H as [H|H]);
    repeat (apply andb_true_iff in H as [? H]);
    rewrite ?N.leb_le, ?N.eqb_eq in *; lia.
Qed.

Lemma all_space_no_digit (s : string) :
  str_forall isspace s = true -> str_exists isdecimal s = false.
Proof.
  induction s as [|c s IH]; cbn; [done|].
  intros [Hc Hs]%andb_true_iff. by rewrite (space_is_not_decimal c Hc), IH.
Qed.

(** [float] raises nothing but [ValueError]. *)
Lemma py_float_raises (s : string) (e : PyExn) :
  py_float s = Raise e -> e = ValueError.
Proof.
  unfold py_float.
  repeat (match goal with
          | |- context [if ?b then _ else _] => destruct b
          | |- context [match split_dot ?x with _ => _ end] =>
              destruct (split_dot x) as [? []]
          end); congruence.
Qed.

(** [int] raises nothing but [ValueError]. *)
Lemma py_int_raises (limit : N) (s : string) (e : PyExn) :
  py_int limit s = Raise e -> e = ValueError.
Proof.
  unfold py_int.
  destruct (match strip s with
            | String "-"%char r => (true, r)
            | String "+"%char r => (false, r)
            | _ => (false, strip s)
            end) as [neg rest].
  destruct (int_digits false rest); [|congruence].
  destruct (_ && _)%bool; congruence.
Qed.

Lemma only_dots_empty (s : string) :
  str_forall (fun c => isdecimal c || Ascii.eqb c "."%char) s = true ->
  str_exists isdecimal s = false ->
  str_exists (fun c => Ascii.eqb c "."%char) s = false ->
  s = EmptyString.
Proof.
  destruct s as [|c s]; cbn; [done|].
  intros [Hc _]%andb_true_iff [Hd _]%orb_false_iff [Hp _]%orb_false_iff.
  by rewrite Hd, Hp in Hc.
Qed.

(** Without a digit there is nothing for [float] to read. *)
Lemma py_float_no_digit (s : string) :
  str_exists isdecimal s = false -> py_float s = Raise ValueError.
Proof.
  intros Hnd. unfold py_float.
  destruct (str_forall _ s) eqn:Hall; cbn [negb]; [|done].
  destruct s as [|c s]; [done|].
  cbn in Hall, Hnd. apply andb_true_iff in Hall as [Hc Hall].
  apply orb_false_iff in Hnd as [Hd Hnd]. rewrite Hd in Hc. cbn in Hc.
  cbn [split_dot]. rewrite Hc.
  destruct (str_exists (fun c => Ascii.eqb c "."%char) s) eqn:Hdot; [done|].
  by rewrite (only_dots_empty s Hall Hnd Hdot).
Qed.

(** What [_parse_value] hands to [float] is made of digits and dots. *)
Lemma cleaned_is_digits_and_dots (text : string) :
  let keep c := isdecimal c || Ascii.eqb c "."%char in
  str_forall keep (str_filter keep text) = true.
Proof.
  cbv zeta. induction text as [|c s IH]; cbn; [done|].
  destruct (isdecimal c || Ascii.eqb c "."%char) eqn:Hc; cbn; [|done].
  by rewrite Hc, IH.
Qed.

Lemma parse_value_total (text : string) : exists v, _parse_value text = Ok v.
Proof.
  unfold _parse_value.
  destruct (_ || _)%bool; [by eexists|].
  destruct (negb _); [by eexists|].
  destruct (py_float _) as [d|e] eqn:Hf; cbn; [by eexists|].
  rewrite (py_float_raises _ _ Hf). by eexists.
Qed.

Lemma parse_int_total (limit : N) (text : string) :
  exists n, _parse_int limit text = Ok n.
Proof.
  unfold _parse_int.
  destruct (_ || _)%bool; [by eexists|].
  destruct (negb _); [by eexists|].
  destruct (py_int _ _) as [d|e] eqn:Hf; cbn; [by eexists|].
  rewrite (py_int_raises _ _ _ Hf). by eexists.
Qed.

Lemma parse_value_no_digit (text : string) :
  str_exists isdecimal text = false -> _parse_value text = Ok None.
Proof.
  intros Hnd. unfold _parse_value.
  destruct (_ || _)%bool; [done|].
  destruct (negb _); [done|].
  by rewrite py_float_no_digit by by apply str_exists_filter.
Qed.

Lemma parse_int_no_digit (limit : N) (text : string) :
  str_exists isdecimal text = false -> _parse_int limit text = Ok None.
Proof.
  intros Hnd. unfold _parse_int.
  destruct (_ || _)%bool; [done|].
  by rewrite str_filter_none.
Qed.

(** C10.  [_parse_value] and [_parse_int] return on every string, with
    [None] or a number and never an exception, and they return [None] when
    the string is empty, all whitespace, or has no digit. *)
Theorem parse_helpers_total (limit : N) (text : string) :
  (exists v, _parse_value text = Ok v)
  /\ (exists n, _parse_int limit text = Ok n)
  /\ (text = EmptyString
      \/ str_forall isspace text = true
      \/ str_exists isdecimal text = false ->
      _parse_value text = Ok None /\ _parse_int limit text = Ok None).
Proof.
  split; [apply parse_value_total|].
  split; [apply parse_int_total|].
  intros H.
  assert (Hnd : str_exists isdecimal text = false).
  { destruct H as [->|[H|H]]; [done| |done]. by apply all_space_no_digit. }
  split; [by apply parse_value_no_digit | by apply parse_int_no_digit].
Qed.

Lemma parse_helpers_total_witness :
  _parse_value "n/a ." = Ok None /\ _parse_int 4300 "n/a ." = Ok None.
Proof.
  apply (parse_helpers_total 4300 "n/a .").
  right; right. reflexivity.
Defined.

(* ------------------------------------------------------------------ *)
(** ** The retry loop of the async scraper *)

Section RetryLoop.
Variables (E : Env) (config : Async.ScrapingConfig) (gid : string) (season : Z).

Let m := Async.max_retries config.

Lemma advanced_0 st : advanced gid season st 0 0 0 0 = st.
Proof.
  destruct st as [[]]; unfold advanced; cbn.
  rewrite app_nil_r. f_equal. f_equal; lia.
Qed.

(** Two states are equal when their counters agree and their logs are
    replicas of the same length. *)
Ltac same_state :=
  cbn; repeat first [lia | reflexivity | f_equal].

Lemma replicate_snoc_Z (n : Z) (x : string * Z) :
  0 <= n -> replicate (Z.to_nat n) x ++ [x] = replicate (Z.to_nat (n + 1)) x.
Proof.
  intros Hn. replace (Z.to_nat (n + 1)) with (S (Z.to_nat n)) by lia.
  induction (Z.to_nat n) as [|k IH]; cbn; [done|]. by rewrite IH.
Qed.

Lemma replicate_cons_Z (n : Z) (x : string * Z) :
  0 <= n -> x :: replicate (Z.to_nat n) x = replicate (Z.to_nat (1 + n)) x.
Proof. intros Hn. by replace (Z.to_nat (1 + n)) with (S (Z.to_nat n)) by lia. Qed.

(** One request followed by a retry, then the state [advanced] from
    there. *)
Lemma advanced_after_retry st n r f s :
  0 <= n ->
  advanced gid season (inc_retries (log_post gid season (inc_requests_made st))) n r f s
  = advanced gid season st (1 + n) (1 + r) f s.
Proof.
  intros Hn. destruct st as [[]]; unfold advanced, inc_retries, with_stats,
    log_post, inc_requests_made; cbn.
  rewrite <- app_assoc; cbn. rewrite replicate_cons_Z by done.
  f_equal. f_equal; lia.
Qed.

(** Attempts [a], [a+1], ..., [m] all raise: [m - a] retries are counted
    and the failure is counted twice, once in the [except] arm of the
    last attempt and once after the loop. *)
Lemma retry_loop_all_raise (n : nat) : forall a st,
  a + Z.of_nat n = m + 1 -> 0 < Z.of_nat n ->
  (forall i, a <= i <= m -> exists e, portal E gid season i = Failed e) ->
  Async.retry_loop E config gid season (seqZ a (Z.of_nat n)) st
  = (None, advanced gid season st (Z.of_nat n) (Z.of_nat n - 1) 2 0).
Proof.
  induction n as [|n IH]; intros a st Ha Hn Hfail; [lia|].
  rewrite seqZ_cons by lia. cbn [Async.retry_loop].
  destruct (Hfail a ltac:(lia)) as [e He]. rewrite He.
  replace (Z.pred (Z.of_nat (S n))) with (Z.of_nat n) by lia.
  assert (Hres : exists x, Async._fetch_single_report E gid season (Failed e) st
                 = (Raise x, log_post gid season (inc_requests_made st))).
  { destruct e; eexists; reflexivity. }
  destruct Hres as [x ->].
  destruct n as [|n'].
  - assert (a = m) as -> by lia. fold m. rewrite Z.ltb_irrefl.
    rewrite seqZ_nil by lia. cbn [Async.retry_loop]. f_equal.
    destruct st as [[]]; unfold advanced, inc_failed_requests, with_stats,
      log_post, inc_requests_made; same_state.
  - fold m. replace (a <? m) with true by (symmetry; apply Z.ltb_lt; lia).
    rewrite (IH (Z.succ a)); [|lia|lia|intros; apply Hfail; lia].
    f_equal. rewrite advanced_after_retry by lia. f_equal; lia.
Qed.

(** Attempts [a], ..., [m] all get a page that parses to [None]:
    [m - a] retries are counted and the failure once, after the loop. *)
Lemma retry_loop_all_absent (n : nat) : forall a st,
  a + Z.of_nat n = m + 1 -> 0 < Z.of_nat n ->
  (forall i, a <= i <= m -> exists html,
      portal E gid season i = Body html /\ Async.parse_report E html = None) ->
  Async.retry_loop E config gid season (seqZ a (Z.of_nat n)) st
  = (None, advanced gid season st (Z.of_nat n) (Z.of_nat n - 1) 1 0).
Proof.
  induction n as [|n IH]; intros a st Ha Hn Habs; [lia|].
  rewrite seqZ_cons by lia. cbn [Async.retry_loop].
  destruct (Habs a ltac:(lia)) as (html & He & Hp). rewrite He.
  replace (Z.pred (Z.of_nat (S n))) with (Z.of_nat n) by lia.
  unfold Async._fetch_single_report. rewrite Hp.
  destruct n as [|n'].
  - assert (a = m) as -> by lia. fold m. rewrite Z.ltb_irrefl.
    rewrite seqZ_nil by lia. cbn [Async.retry_loop]. f_equal.
    destruct st as [[]]; unfold advanced, inc_failed_requests, with_stats,
      log_post, inc_requests_made; same_state.
  - fold m. replace (a <? m) with true by (symmetry; apply Z.ltb_lt; lia).
    rewrite (IH (Z.succ a)); [|lia|lia|intros; apply Habs; lia].
    f_equal. rewrite advanced_after_retry by lia. f_equal; lia.
Qed.

(** [j] attempts from [a] on raise and attempt [a + j <= m] gets a
    report: [j] retries, one success, nothing counted as failed. *)
Lemma retry_loop_raise_then_report (j : nat) : forall a n st html report,
  a + Z.of_nat j <= m -> a + Z.of_nat j < a + n ->
  (forall i, a <= i < a + Z.of_nat j -> exists e, portal E gid season i = Failed e) ->
  portal E gid season (a + Z.of_nat j) = Body html ->
  Async.parse_report E html = Some report ->
  Async.retry_loop E config gid season (seqZ a n) st
  = (Some report, advanced gid season st (Z.of_nat j + 1) (Z.of_nat j) 0 1).
Proof.
  induction j as [|j IH]; intros a n st html report Hm Hn Hfail Hbody Hparse.
  - rewrite seqZ_cons by lia. cbn [Async.retry_loop].
    rewrite Z.add_0_r in Hbody. rewrite Hbody.
    unfold Async._fetch_single_report. rewrite Hparse. f_equal.
    destruct st as [[]]; unfold advanced, inc_successful_requests, with_stats,
      log_post, inc_requests_made; same_state.
  - rewrite seqZ_cons by lia. cbn [Async.retry_loop].
    destruct (Hfail a ltac:(lia)) as [e He]. rewrite He.
    assert (Hres : exists x, Async._fetch_single_report E gid season (Failed e) st
                   = (Raise x, log_post gid season (inc_requests_made st))).
    { destruct e; eexists; reflexivity. }
    destruct Hres as [x ->].
    fold m. replace (a <? m) with true by (symmetry; apply Z.ltb_lt; lia).
    rewrite (IH (Z.succ a) (Z.pred n) _ html report);
      [|lia|lia|intros; apply Hfail; lia
       |by replace (Z.succ a + Z.of_nat j) with (a + Z.of_nat (S j)) by lia|done].
    f_equal. rewrite advanced_after_retry by lia. f_equal; lia.
Qed.
End RetryLoop.

(** C3.  A lookup that fails transiently [k <= max_retries] times and then
    gets a report returns that report after [k + 1] physical requests with
    the retry counter raised by exactly [k]; a lookup whose every attempt
    fails transiently makes exactly [max_retries + 1] physical requests and
    returns [None]. *)
Theorem fetch_with_retry_transient (E : Env) (config : Async.ScrapingConfig)
    (gid : string) (season : Z) (st : St) :
  let res := Async.fetch_report_with_retry E config gid season st in
  (forall k html report,
      0 <= k <= Async.max_retries config ->
      (forall i, 0 <= i < k -> exists e, portal E gid season i = Failed e) ->
      portal E gid season k = Body html ->
      Async.parse_report E html = Some report ->
      res.1 = Some report
      /\ retries (stats res.2) = retries (stats st) + k
      /\ requests_made (stats res.2) = requests_made (stats st) + (k + 1)
      /\ posts res.2 = posts st ++ replicate (Z.to_nat (k + 1)) (gid, season)
      /\ successful_requests (stats res.2) = successful_requests (stats st) + 1
      /\ failed_requests (stats res.2) = failed_requests (stats st))
  /\ (0 <= Async.max_retries config ->
      (forall i, 0 <= i <= Async.max_retries config ->
                 exists e, portal E gid season i = Failed e) ->
      res.1 = None
      /\ requests_made (stats res.2)
         = requests_made (stats st) + (Async.max_retries config + 1)
      /\ posts res.2
         = posts st ++ replicate (Z.to_nat (Async.max_retries config + 1)) (gid, season)
      /\ retries (stats res.2) = retries (stats st) + Async.max_retries config
      /\ successful_requests (stats res.2) = successful_requests (stats st)).
Proof.
  intros res; subst res; unfold Async.fetch_report_with_retry, range. split.
  - intros k html report Hk Hfail Hbody Hparse.
    rewrite (retry_loop_raise_then_report E config gid season (Z.to_nat k)
               0 _ st html report); rewrite ?Z2Nat.id by lia;
      [|lia|lia|intros; apply Hfail; lia|done|done].
    cbn. repeat split; lia.
  - intros Hm Hfail.
    replace (Async.max_retries config + 1 - 0)
      with (Z.of_nat (Z.to_nat (Async.max_retries config + 1))) by lia.
    rewrite retry_loop_all_raise; [|lia|lia|done].
    cbn. rewrite Z2Nat.id by lia. repeat split; lia.
Qed.

Lemma fetch_with_retry_transient_witness :
  let res := Async.fetch_report_with_retry fx_flaky fx_config "V1" 2018 st0 in
  (res.1 = Some (fx_report "V1")
   /\ retries (stats res.2) = 2
   /\ requests_made (stats res.2) = 3)
  /\ (Async.fetch_report_with_retry fx_down fx_config "V1" 2018 st0).1 = None.
Proof.
  split.
  - destruct (fetch_with_retry_transient fx_flaky fx_config "V1" 2018 st0) as [H _].
    destruct (H 2 "V1" (fx_report "V1")) as (H1 & H2 & H3 & _).
    + cbn; lia.
    + intros i Hi. exists Timeout. cbn.
      destruct (Z.ltb_spec i 2); [done | lia].
    + reflexivity.
    + reflexivity.
    + auto.
  - destruct (fetch_with_retry_transient fx_down fx_config "V1" 2018 st0) as [_ H].
    apply H.
    + cbn; lia.
    + intros i _. by exists NetworkError.
Defined.

(** Every attempt of a lookup raising: the failure is counted twice. *)
Lemma exhausted_by_errors_counts_twice (E : Env) (config : Async.ScrapingConfig)
    (gid : string) (season : Z) (st : St) :
  0 <= Async.max_retries config ->
  (forall i, 0 <= i <= Async.max_retries config ->
             exists e, portal E gid season i = Failed e) ->
  failed_requests (stats (Async.fetch_report_with_retry E config gid season st).2)
  = failed_requests (stats st) + 2.
Proof.
  intros Hm Hfail. unfold Async.fetch_report_with_retry, range.
  replace (Async.max_retries config + 1 - 0)
    with (Z.of_nat (Z.to_nat (Async.max_retries config + 1))) by lia.
  by rewrite retry_loop_all_raise; [|lia|lia|done].
Qed.

(** C4.  With [max_retries = 2] and a portal that cannot be reached, one
    logical lookup makes three physical requests, counts two retries and
    returns [None], and leaves [failed_requests] at 2, not at 1: the
    [except] arm of the last attempt and the statement after the loop both
    count it. *)
Theorem exhausted_budget_counts_failure_twice :
  Async.fetch_report_with_retry fx_down fx_config "V1" 2018 st0
  = (None,
     {| stats := {| requests_made := 3; successful_requests := 0;
                    failed_requests := 2; retries := 2;
                    growers_discovered := 0 |};
        posts := [("V1", 2018); ("V1", 2018); ("V1", 2018)] |}).
Proof. reflexivity. Qed.

(** C2, as stated, fails: with [max_retries = 2] a lookup that the portal
    answers with the absent page every time is requested three times and
    two retries are counted. *)
Lemma absent_lookup_single_attempt_cex :
  ~ (forall (E : Env) (config : Async.ScrapingConfig) (gid : string)
            (season : Z) (st : St),
        (forall i, exists html, portal E gid season i = Body html
                                /\ Async.parse_report E html = None) ->
        let res := Async.fetch_report_with_retry E config gid season st in
        requests_made (stats res.2) = requests_made (stats st) + 1
        /\ retries (stats res.2) = retries (stats st)).
Proof.
  intros H.
  destruct (H fx_empty fx_config "V1" 2018 st0) as [Hreq _].
  - intros i. by exists fx_absent_page.
  - vm_compute in Hreq. discriminate.
Qed.

(** C2, amended.  A lookup that the portal answers with the absent page on
    every attempt is retried like a transient failure: [max_retries + 1]
    physical requests are made, [max_retries] retries are counted, the
    result is [None], the lookup is counted once as failed and never as
    successful. *)
Theorem absent_lookup_exhausts_retries (E : Env) (config : Async.ScrapingConfig)
    (gid : string) (season : Z) (st : St) :
  0 <= Async.max_retries config ->
  (forall i, 0 <= i <= Async.max_retries config ->
             exists html, portal E gid season i = Body html
                          /\ Async.parse_report E html = None) ->
  let res := Async.fetch_report_with_retry E config gid season st in
  res.1 = None
  /\ requests_made (stats res.2)
     = requests_made (stats st) + (Async.max_retries config + 1)
  /\ posts res.2
     = posts st ++ replicate (Z.to_nat (Async.max_retries config + 1)) (gid, season)
  /\ retries (stats res.2) = retries (stats st) + Async.max_retries config
  /\ failed_requests (stats res.2) = failed_requests (stats st) + 1
  /\ successful_requests (stats res.2) = successful_requests (stats st).
Proof.
  intros Hm Habs res; subst res. unfold Async.fetch_report_with_retry, range.
  replace (Async.max_retries config + 1 - 0)
    with (Z.of_nat (Z.to_nat (Async.max_retries config + 1))) by lia.
  rewrite retry_loop_all_absent; [|lia|lia|done].
  cbn. rewrite Z2Nat.id by lia. repeat split; lia.
Qed.

Lemma absent_lookup_exhausts_retries_witness :
  let res := Async.fetch_report_with_retry fx_empty fx_config "V1" 2018 st0 in
  res.1 = None
  /\ requests_made (stats res.2) = 3
  /\ posts res.2 = [("V1", 2018); ("V1", 2018); ("V1", 2018)]
  /\ retries (stats res.2) = 2
  /\ failed_requests (stats res.2) = 1
  /\ successful_requests (stats res.2) = 0.
Proof.
  apply (absent_lookup_exhausts_retries fx_empty fx_config "V1" 2018 st0).
  - cbn; lia.
  - intros i _. by exists fx_absent_page.
Defined.

(* ------------------------------------------------------------------ *)
(** ** Effects compose: the counters and the log only grow *)

Lemma st_add_st0 (st : St) : st_add st st0 = st.
Proof.
  destruct st as [[]]; unfold st_add; cbn. rewrite app_nil_r.
  f_equal. f_equal; lia.
Qed.

Lemma st0_st_add (st : St) : st_add st0 st = st.
Proof. by destruct st as [[]]. Qed.

Lemma st_add_assoc (a b c : St) : st_add (st_add a b) c = st_add a (st_add b c).
Proof.
  unfold st_add; cbn. rewrite app_assoc. f_equal. f_equal; lia.
Qed.

Lemma posts_st_add (st d : St) : posts (st_add st d) = posts st ++ posts d.
Proof. done. Qed.

Ltac frame_op :=
  intros; unfold st_add, log_post, inc_requests_made,
    inc_successful_requests, inc_failed_requests, inc_retries,
    inc_growers_discovered, with_stats; cbn; rewrite <- ?app_assoc;
  repeat first [lia | reflexivity | f_equal].

Lemma inc_requests_made_add st d :
  inc_requests_made (st_add st d) = st_add st (inc_requests_made d).
Proof. frame_op. Qed.
Lemma inc_successful_requests_add st d :
  inc_successful_requests (st_add st d) = st_add st (inc_successful_requests d).
Proof. frame_op. Qed.
Lemma inc_failed_requests_add st d :
  inc_failed_requests (st_add st d) = st_add st (inc_failed_requests d).
Proof. frame_op. Qed.
Lemma inc_retries_add st d :
  inc_retries (st_add st d) = st_add st (inc_retries d).
Proof. frame_op. Qed.
Lemma inc_growers_discovered_add st d :
  inc_growers_discovered (st_add st d) = st_add st (inc_growers_discovered d).
Proof. frame_op. Qed.
Lemma log_post_add gid season st d :
  log_post gid season (st_add st d) = st_add st (log_post gid season d).
Proof. frame_op. Qed.

Create Rewrite HintDb frame.
#[local] Hint Rewrite inc_requests_made_add inc_successful_requests_add
  inc_failed_requests_add inc_retries_add inc_growers_discovered_add
  log_post_add : frame.

Lemma async_retry_loop_frame E config gid season attempts : forall st d,
  Async.retry_loop E config gid season attempts (st_add st d)
  = let r := Async.retry_loop E config gid season attempts d in
    (r.1, st_add st r.2).
Proof.
  induction attempts as [|a l IH]; intros st d; cbn.
  - by autorewrite with frame.
  - unfold Async._fetch_single_report. autorewrite with frame.
    destruct (portal E gid season a) as [[]|html]; cbn;
      try destruct (Async.parse_report E html); cbn;
      destruct (a <? Async.max_retries config);
      autorewrite with frame; try apply IH; done.
Qed.

(** A logical lookup gives the same result from every state and adds the
    same effects. *)
Lemma async_fetch_frame E config gid season st :
  Async.fetch_report_with_retry E config gid season st
  = (async_lookup E config gid season,
     st_add st (Async.fetch_report_with_retry E config gid season st0).2).
Proof.
  unfold async_lookup, Async.fetch_report_with_retry.
  rewrite <- (st_add_st0 st) at 1. by rewrite async_retry_loop_frame.
Qed.

Lemma async_retry_loop_posts E config gid season attempts : forall st,
  exists k, posts (Async.retry_loop E config gid season attempts st).2
            = posts st ++ replicate k (gid, season).
Proof.
  induction attempts as [|a l IH]; intros st; cbn.
  - exists 0%nat. by rewrite app_nil_r.
  - unfold Async._fetch_single_report.
    set (st1 := log_post gid season (inc_requests_made st)).
    assert (Hst1 : posts st1 = posts st ++ [(gid, season)]) by done.
    assert (Hrec : forall st2, posts st2 = posts st1 ->
              exists k, posts (Async.retry_loop E config gid season l st2).2
                        = posts st ++ replicate k (gid, season)).
    { intros st2 H2. destruct (IH st2) as [k Hk]. exists (S k).
      rewrite Hk, H2, Hst1, <- app_assoc. done. }
    destruct (portal E gid season a) as [[]|html]; cbn;
      try destruct (Async.parse_report E html); cbn;
      try (destruct (a <? Async.max_retries config); by apply Hrec).
    exists 1%nat. done.
Qed.

Lemma async_fetch_posts E config gid season st :
  posts (Async.fetch_report_with_retry E config gid season st).2
  = posts st ++ replicate (async_attempts E config gid season) (gid, season).
Proof.
  rewrite async_fetch_frame. cbn. f_equal. unfold async_attempts.
  destruct (async_retry_loop_posts E config gid season
              (range 0 (Async.max_retries config + 1)) st0) as [k Hk].
  unfold Async.fetch_report_with_retry. rewrite Hk. cbn.
  by rewrite length_replicate.
Qed.

Lemma threaded_fetch_frame_add E gid season st d :
  Threaded.fetch_report E gid season (st_add st d)
  = let r := Threaded.fetch_report E gid season d in (r.1, st_add st r.2).
Proof.
  unfold Threaded.fetch_report. cbv zeta. destruct gid as [|c gid']; [done|].
  destruct (portal E _ season 0) as [e|text].
  - by autorewrite with frame.
  - destruct (Threaded.parse_report E text); by autorewrite with frame.
Qed.

(** On a non-empty identifier the threaded lookup never raises. *)
Lemma threaded_fetch_frame E gid season st :
  gid <> EmptyString ->
  Threaded.fetch_report E gid season st
  = (Ok (threaded_lookup E gid season),
     st_add st (Threaded.fetch_report E gid season st0).2).
Proof.
  intros Hgid. unfold threaded_lookup.
  rewrite <- (st_add_st0 st) at 1. rewrite threaded_fetch_frame_add. cbv zeta.
  f_equal. unfold Threaded.fetch_report. destruct gid as [|c gid']; [done|].
  destruct (portal E _ season 0); done.
Qed.

Lemma threaded_fetch_posts E gid season st :
  gid <> EmptyString ->
  posts (Threaded.fetch_report E gid season st).2 = posts st ++ [(gid, season)].
Proof.
  intros Hgid. unfold Threaded.fetch_report. destruct gid as [|c gid']; [done|].
  destruct (portal E _ season 0) as [e|text]; [done|].
  by destruct (Threaded.parse_report E text).
Qed.

(* ------------------------------------------------------------------ *)
(** ** Discovery of the first season *)

Section DiscoveryAsync.
Variables (E : Env) (config : Async.ScrapingConfig) (gid : string).

Let look := async_lookup E config gid.
Let block (y : Z) := replicate (async_attempts E config gid y) (gid, y).

Lemma async_discover_none (n : nat) : forall a st,
  (forall q, a <= q < a + Z.of_nat n -> present (look q) = false) ->
  let res := Async.discover_loop E config gid (seqZ a (Z.of_nat n)) st in
  res.1 = None
  /\ posts res.2 = posts st ++ flat_map block (seqZ a (Z.of_nat n)).
Proof.
  induction n as [|n IH]; intros a st Hnone; cbn zeta.
  - rewrite seqZ_nil by lia. cbn. by rewrite app_nil_r.
  - rewrite seqZ_cons by lia. cbn [Async.discover_loop flat_map].
    replace (Z.pred (Z.of_nat (S n))) with (Z.of_nat n) by lia.
    pose proof (Hnone a ltac:(lia)) as Ha.
    pose proof (async_fetch_posts E config gid a st) as Hposts.
    rewrite async_fetch_frame in Hposts |- *. cbn [snd] in Hposts.
    set (st1 := st_add st _) in *.
    destruct (IH (Z.succ a) st1 ltac:(intros; apply Hnone; lia)) as [H1 H2].
    assert (Hgoal :
      (Async.discover_loop E config gid (seqZ (Z.succ a) (Z.of_nat n)) st1).1 = None
      /\ posts (Async.discover_loop E config gid (seqZ (Z.succ a) (Z.of_nat n)) st1).2
         = posts st ++ block a ++ flat_map block (seqZ (Z.succ a) (Z.of_nat n))).
    { split; [done|]. by rewrite H2, Hposts, <- app_assoc. }
    fold look in Ha. unfold present in Ha. fold look.
    destruct (look a) as [report|]; [|done]. by rewrite Ha.
Qed.

Lemma async_discover_found (j : nat) : forall a n st,
  a + Z.of_nat j < a + n ->
  (forall q, a <= q < a + Z.of_nat j -> present (look q) = false) ->
  present (look (a + Z.of_nat j)) = true ->
  let res := Async.discover_loop E config gid (seqZ a n) st in
  exists report,
    look (a + Z.of_nat j) = Some report
    /\ res.1 = Some {| Async.grower_id := gid;
                       Async.first_season := a + Z.of_nat j;
                       Async.first_report_data := report |}
    /\ posts res.2 = posts st ++ flat_map block (seqZ a (Z.of_nat j + 1)).
Proof.
  induction j as [|j IH]; intros a n st Hn Hbefore Hat; cbn zeta.
  - rewrite Z.add_0_r in *. rewrite (seqZ_cons a n) by lia.
    cbn [Async.discover_loop].
    pose proof (async_fetch_posts E config gid a st) as Hposts.
    rewrite async_fetch_frame in Hposts |- *. cbn [snd] in Hposts.
    fold look in Hat |- *. unfold present in Hat.
    destruct (look a) as [report|]; [|done]. rewrite Hat.
    exists report. repeat split. cbn.
    rewrite seqZ_cons, seqZ_nil by lia. cbn. by rewrite app_nil_r.
  - rewrite (seqZ_cons a n) by lia. cbn [Async.discover_loop].
    pose proof (Hbefore a ltac:(lia)) as Ha.
    pose proof (async_fetch_posts E config gid a st) as Hposts.
    rewrite async_fetch_frame in Hposts |- *. cbn [snd] in Hposts.
    set (st1 := st_add st _) in *.
    destruct (IH (Z.succ a) (Z.pred n) st1) as (report & Hr & H1 & H2).
    { lia. }
    { intros; apply Hbefore; lia. }
    { by replace (Z.succ a + Z.of_nat j) with (a + Z.of_nat (S j)) by lia. }
    replace (Z.succ a + Z.of_nat j) with (a + Z.of_nat (S j)) in * by lia.
    assert (Hgoal : exists report,
      look (a + Z.of_nat (S j)) = Some report
      /\ (Async.discover_loop E config gid (seqZ (Z.succ a) (Z.pred n)) st1).1
         = Some {| Async.grower_id := gid;
                   Async.first_season := a + Z.of_nat (S j);
                   Async.first_report_data := report |}
      /\ posts (Async.discover_loop E config gid (seqZ (Z.succ a) (Z.pred n)) st1).2
         = posts st ++ flat_map block (seqZ a (Z.of_nat (S j) + 1))).
    { exists report. repeat split; [done..|].
      rewrite H2, Hposts, <- app_assoc.
      rewrite (seqZ_cons a (Z.of_nat (S j) + 1)) by lia. cbn [flat_map].
      by replace (Z.pred (Z.of_nat (S j) + 1)) with (Z.of_nat j + 1) by lia. }
    fold look in Ha |- *. unfold present in Ha.
    destruct (look a) as [r|]; [|done]. by rewrite Ha.
Qed.
End DiscoveryAsync.

Section DiscoveryThreaded.
Variables (E : Env) (gid : string).
Hypothesis gid_not_empty : gid <> EmptyString.

Let look := threaded_lookup E gid.

Lemma threaded_discover_none (n : nat) : forall a st,
  (forall q, a <= q < a + Z.of_nat n -> present (look q) = false) ->
  let res := Threaded.discover_loop E gid (seqZ a (Z.of_nat n)) st in
  res.1 = Ok None
  /\ posts res.2 = posts st ++ map (pair gid) (seqZ a (Z.of_nat n)).
Proof.
  induction n as [|n IH]; intros a st Hnone; cbn zeta.
  - rewrite seqZ_nil by lia. cbn. by rewrite app_nil_r.
  - rewrite seqZ_cons by lia. cbn [Threaded.discover_loop map].
    replace (Z.pred (Z.of_nat (S n))) with (Z.of_nat n) by lia.
    pose proof (Hnone a ltac:(lia)) as Ha.
    pose proof (threaded_fetch_posts E gid a st gid_not_empty) as Hposts.
    rewrite threaded_fetch_frame in Hposts |- * by done. cbn [snd] in Hposts.
    set (st1 := st_add st _) in *.
    destruct (IH (Z.succ a) st1 ltac:(intros; apply Hnone; lia)) as [H1 H2].
    assert (Hgoal :
      (Threaded.discover_loop E gid (seqZ (Z.succ a) (Z.of_nat n)) st1).1 = Ok None
      /\ posts (Threaded.discover_loop E gid (seqZ (Z.succ a) (Z.of_nat n)) st1).2
         = posts st ++ (gid, a) :: map (pair gid) (seqZ (Z.succ a) (Z.of_nat n))).
    { split; [done|]. by rewrite H2, Hposts, <- app_assoc. }
    fold look in Ha. unfold present in Ha. fold look.
    destruct (look a) as [report|]; [|done]. by rewrite Ha.
Qed.

Lemma threaded_discover_found (j : nat) : forall a n st,
  a + Z.of_nat j < a + n ->
  (forall q, a <= q < a + Z.of_nat j -> present (look q) = false) ->
  present (look (a + Z.of_nat j)) = true ->
  let res := Threaded.discover_loop E gid (seqZ a n) st in
  exists report,
    look (a + Z.of_nat j) = Some report
    /\ res.1 = Ok (Some (gid, a + Z.of_nat j, report))
    /\ posts res.2 = posts st ++ map (pair gid) (seqZ a (Z.of_nat j + 1)).
Proof.
  induction j as [|j IH]; intros a n st Hn Hbefore Hat; cbn zeta.
  - rewrite Z.add_0_r in *. rewrite (seqZ_cons a n) by lia.
    cbn [Threaded.discover_loop].
    pose proof (threaded_fetch_posts E gid a st gid_not_empty) as Hposts.
    rewrite threaded_fetch_frame in Hposts |- * by done. cbn [snd] in Hposts.
    fold look in Hat |- *. unfold present in Hat.
    destruct (look a) as [report|]; [|done]. rewrite Hat.
    exists report. repeat split. cbn.
    by rewrite seqZ_cons, seqZ_nil by lia.
  - rewrite (seqZ_cons a n) by lia. cbn [Threaded.discover_loop].
    pose proof (Hbefore a ltac:(lia)) as Ha.
    pose proof (threaded_fetch_posts E gid a st gid_not_empty) as Hposts.
    rewrite threaded_fetch_frame in Hposts |- * by done. cbn [snd] in Hposts.
    set (st1 := st_add st _) in *.
    destruct (IH (Z.succ a) (Z.pred n) st1) as (report & Hr & H1 & H2).
    { lia. }
    { intros; apply Hbefore; lia. }
    { by replace (Z.succ a + Z.of_nat j) with (a + Z.of_nat (S j)) by lia. }
    replace (Z.succ a + Z.of_nat j) with (a + Z.of_nat (S j)) in * by lia.
    assert (Hgoal : exists report,
      look (a + Z.of_nat (S j)) = Some report
      /\ (Threaded.discover_loop E gid (seqZ (Z.succ a) (Z.pred n)) st1).1
         = Ok (Some (gid, a + Z.of_nat (S j), report))
      /\ posts (Threaded.discover_loop E gid (seqZ (Z.succ a) (Z.pred n)) st1).2
         = posts st ++ map (pair gid) (seqZ a (Z.of_nat (S j) + 1))).
    { exists report. repeat split; [done..|].
      rewrite H2, Hposts, <- app_assoc.
      rewrite (seqZ_cons a (Z.of_nat (S j) + 1)) by lia. cbn [map app].
      by replace (Z.pred (Z.of_nat (S j) + 1)) with (Z.of_nat j + 1) by lia. }
    fold look in Ha |- *. unfold present in Ha.
    destruct (look a) as [r|]; [|done]. by rewrite Ha.
Qed.
End DiscoveryThreaded.



(* ------------------------------------------------------------------ *)
(** ** The store *)

Lemma existsb_mono {A} (f : A -> bool) (l l' : list A) :
  l ⊆ l' -> existsb f l = true -> existsb f l' = true.
Proof.
  intros Hsub (x & Hx & Hf)%existsb_exists. apply existsb_exists.
  exists x. split; [|done]. apply list_elem_of_In, Hsub, list_elem_of_In, Hx.
Qed.

Lemma Grower_get_exists d pk :
  Models.Grower_exists d pk = true <-> is_Some (Models.Grower_get d pk).
Proof.
  unfold Models.Grower_exists, Models.Grower_get.
  induction (Models.growers d) as [|g l IH]; cbn.
  - split; [done | by intros [? ?]].
  - destruct (String.eqb (Models.grower_number g) pk); cbn; [|done].
    split; [by eexists | done].
Qed.

Lemma Grower_get_none d pk :
  Models.Grower_exists d pk = false -> Models.Grower_get d pk = None.
Proof.
  intros H. destruct (Models.Grower_get d pk) eqn:Hg; [|done].
  assert (Models.Grower_exists d pk = true) by (apply Grower_get_exists; eauto).
  congruence.
Qed.

Lemma Grower_get_number d pk g :
  Models.Grower_get d pk = Some g -> Models.grower_number g = pk.
Proof.
  unfold Models.Grower_get. intros [_ H]%find_some. by apply String.eqb_eq.
Qed.

Lemma Grower_exists_mono d d' pk :
  Models.growers d ⊆ Models.growers d' ->
  Models.Grower_exists d pk = true -> Models.Grower_exists d' pk = true.
Proof. apply existsb_mono. Qed.

(** What [Grower_get_or_create] can do to the store. *)
Lemma Grower_get_or_create_spec pk defaults d :
  let r := Models.Grower_get_or_create (Some pk) defaults d in
  match r.1 with
  | Raise e =>
      r.2 = d /\ Models.Grower_exists d pk = false
      /\ (existsb (fun g => String.eqb (Models.grower_number g)
                              (Models.grower_number (defaults pk))
                            || String.eqb (Models.national_id g)
                                 (Models.national_id (defaults pk)))
            (Models.growers d)
          || negb (Models.nonneg (Models.first_sales_year (defaults pk)))) = true
  | Ok g =>
      Models.Grower_exists r.2 (Models.grower_number g) = true
      /\ (Models.Grower_exists d pk = true -> r.2 = d /\ Models.grower_number g = pk)
      /\ (Models.Grower_exists d pk = false -> g = defaults pk)
      /\ Models.growers d ⊆ Models.growers r.2
      /\ Models.contractors r.2 = Models.contractors d
      /\ Models.creditors r.2 = Models.creditors d
      /\ Models.seasonal_reports r.2 = Models.seasonal_reports d
      /\ Models.grade_analyses r.2 = Models.grade_analyses d
      /\ Models.creditor_recovery_rows r.2 = Models.creditor_recovery_rows d
  end.
Proof.
  cbv zeta. unfold Models.Grower_get_or_create.
  destruct (Models.Grower_get d pk) as [g|] eqn:Hget; cbn.
  - assert (Hex : Models.Grower_exists d pk = true)
      by (apply Grower_get_exists; eauto).
    pose proof (Grower_get_number _ _ _ Hget) as Hnum.
    repeat split; try done; try congruence.
  - assert (Hex : Models.Grower_exists d pk = false).
    { destruct (Models.Grower_exists d pk) eqn:Hex; [|done].
      apply Grower_get_exists in Hex as [? ?]. congruence. }
    unfold Models.Grower_create.
    destruct (_ || _)%bool eqn:Hblocked; cbn; [done|].
    repeat split; try done; try congruence.
    + unfold Models.Grower_exists. cbn. rewrite existsb_app. cbn.
      rewrite String.eqb_refl. by rewrite orb_true_r.
    + intros g Hg. cbn. apply elem_of_app. by left.
Qed.

Lemma same_core_refl d : same_core d d.
Proof. done. Qed.

Lemma same_core_trans d1 d2 d3 : same_core d1 d2 -> same_core d2 d3 -> same_core d1 d3.
Proof. intros [? ?] [? ?]. split; congruence. Qed.

Lemma contractor_same_core report season d :
  same_core d (AsyncCommand._get_or_create_contractor report season d).2.
Proof.
  unfold AsyncCommand._get_or_create_contractor.
  assert (Hadd : forall n, same_core d (Models.Contractor_get_or_create n d)).
  { intros n. unfold Models.Contractor_get_or_create. by case_bool_decide. }
  repeat (match goal with
          | |- context [match ?x with _ => _ end] => destruct x
          end; cbn; try apply same_core_refl; try apply Hadd).
Qed.

Lemma grade_items_same_core key items : forall d,
  same_core d (AsyncCommand.create_grade_items key items d).2.
Proof.
  induction items as [|item rest IH]; intros d; cbn; [done|].
  unfold Models.GradeAnalysis_create.
  destruct (mass_kg item), (value_usd item), (grade_average_price_usd item);
    cbn; try done.
  eapply same_core_trans; [|apply IH]. done.
Qed.

Lemma creditor_items_same_core key items : forall d,
  same_core d (AsyncCommand.create_creditor_items key items d).
Proof.
  induction items as [|item rest IH]; intros d; cbn; [done|].
  destruct (str_truthy _); [|apply IH].
  eapply same_core_trans; [|apply IH].
  unfold Models.CreditorRecovery_create, Models.Creditor_get_or_create.
  by case_bool_decide.
Qed.

(** What [create_seasonal_data] can do to the store: nothing when the
    pair is stored already or when it raises, and otherwise one new row
    under a key that was free. *)
Lemma create_seasonal_data_spec g season report d :
  let r := AsyncCommand.create_seasonal_data g season report d in
  Models.growers r.2 = Models.growers d
  /\ (Models.SeasonalReport_exists d (Models.grower_number g) season = true ->
      r = (Ok tt, d))
  /\ (forall e, r.1 = Raise e -> r.2 = d)
  /\ (Models.seasonal_reports r.2 = Models.seasonal_reports d
      \/ exists row,
           report_key row = (Models.grower_number g, season)
           /\ Models.SeasonalReport_exists d (Models.grower_number g) season = false
           /\ Models.seasonal_reports r.2 = Models.seasonal_reports d ++ [row]).
Proof.
  cbv zeta. unfold AsyncCommand.create_seasonal_data, Models.atomic.
  destruct (Models.SeasonalReport_exists d (Models.grower_number g) season) eqn:Hex.
  { cbn. repeat split; auto. }
  destruct (AsyncCommand._get_or_create_contractor report season d)
    as [c d1] eqn:Hc.
  pose proof (contractor_same_core report season d) as [Hg1 Hr1].
  rewrite Hc in Hg1, Hr1. cbn in Hg1, Hr1.
  unfold Models.SeasonalReport_create. cbn [Models.grower Models.season_year].
  assert (Hex1 : Models.SeasonalReport_exists d1 (Models.grower_number g) season = false).
  { unfold Models.SeasonalReport_exists in *. by rewrite Hr1. }
  rewrite Hex1. cbn [orb].
  destruct (_ || _)%bool; cbn; [repeat split; auto; done|].
  set (row := Models.Build_SeasonalReport _ _ _ _ _ _ _).
  set (d2 := Models.Build_Db _ _ _ _ _ _).
  destruct (AsyncCommand.create_grade_items _ _ d2) as [[[]|e] d3] eqn:Hgr;
    cbn; [|repeat split; auto; done].
  pose proof (grade_items_same_core (Models.grower_number g, season)
                (grade_analysis report) d2) as [Hg3 Hr3].
  rewrite Hgr in Hg3, Hr3. cbn in Hg3, Hr3.
  pose proof (creditor_items_same_core (Models.grower_number g, season)
                (creditor_recoveries report) d3) as [Hg4 Hr4].
  repeat split.
  - congruence.
  - done.
  - done.
  - right. exists row. repeat split. rewrite Hr4, Hr3. cbn. by rewrite Hr1.
Qed.

Lemma SeasonalReport_exists_key d g season :
  Models.SeasonalReport_exists d g season = true
  <-> (g, season) ∈ map report_key (Models.seasonal_reports d).
Proof.
  unfold Models.SeasonalReport_exists. rewrite existsb_exists. split.
  - intros (r & Hin & [Hg Hs]%andb_true_iff).
    apply String.eqb_eq in Hg. apply Z.eqb_eq in Hs. subst.
    apply list_elem_of_fmap. exists r. split; [done|]. by apply list_elem_of_In.
  - intros (r & Hk & Hin)%list_elem_of_fmap. exists r.
    split; [by apply list_elem_of_In|]. unfold report_key in Hk.
    injection Hk as -> ->. by rewrite String.eqb_refl, Z.eqb_refl.
Qed.

Lemma create_seasonal_data_unique g season report d :
  unique_reports d ->
  unique_reports (AsyncCommand.create_seasonal_data g season report d).2.
Proof.
  intros Hu. unfold unique_reports in *.
  destruct (create_seasonal_data_spec g season report d)
    as (_ & _ & _ & [-> | (row & Hkey & Hfree & ->)]); [done|].
  rewrite map_app. cbn. apply NoDup_app. split; [done|].
  split; [|apply NoDup_singleton].
  intros k Hk ->%list_elem_of_singleton. rewrite Hkey in Hk.
  apply SeasonalReport_exists_key in Hk. congruence.
Qed.

(* ------------------------------------------------------------------ *)
(** ** Discovery and fetching do not depend on the counters *)

Lemma async_discover_loop_frame E config gid years : forall st d,
  Async.discover_loop E config gid years (st_add st d)
  = let r := Async.discover_loop E config gid years d in (r.1, st_add st r.2).
Proof.
  induction years as [|y l IH]; intros st d; cbn [Async.discover_loop]; [done|].
  unfold Async.fetch_report_with_retry. rewrite async_retry_loop_frame. cbv zeta.
  destruct (Async.retry_loop E config gid y _ d) as [[report|] d1]; cbn [fst snd].
  - destruct (has_name report); [|apply IH]. by autorewrite with frame.
  - apply IH.
Qed.

Lemma async_discovery_frame E config gid st :
  Async.discover_grower_first_season E config gid st
  = (async_discovery E config gid,
     st_add st (Async.discover_grower_first_season E config gid st0).2).
Proof.
  unfold async_discovery, Async.discover_grower_first_season.
  rewrite <- (st_add_st0 st) at 1. by rewrite async_discover_loop_frame.
Qed.

(** The batch finds exactly the identifiers discovery finds, in order. *)
Lemma discover_growers_batch_results E config ids : forall st,
  (Async.discover_growers_batch E config ids st).1
  = omap (async_discovery E config) ids.
Proof.
  induction ids as [|gid rest IH]; intros st; cbn; [done|].
  rewrite async_discovery_frame.
  specialize (IH (st_add st (Async.discover_grower_first_season E config gid st0).2)).
  destruct (Async.discover_growers_batch E config rest _) as [found st2].
  cbn in IH |- *. rewrite <- IH. by destruct (async_discovery E config gid).
Qed.

(** A lookup that returns a report got it from a page of the portal. *)
Lemma async_retry_loop_source E config gid season attempts : forall st report,
  (Async.retry_loop E config gid season attempts st).1 = Some report ->
  exists attempt html,
    portal E gid season attempt = Body html
    /\ Async.parse_report E html = Some report.
Proof.
  induction attempts as [|a l IH]; intros st report; cbn; [done|].
  unfold Async._fetch_single_report.
  destruct (portal E gid season a) as [[]|html] eqn:Hp; cbn; try apply IH.
  destruct (Async.parse_report E html) as [r|] eqn:Hparse; cbn; [|apply IH].
  intros [= ->]. eauto.
Qed.

Lemma async_discover_loop_source E config gid years : forall st r,
  (Async.discover_loop E config gid years st).1 = Some r ->
  Async.grower_id r = gid
  /\ exists season attempt html,
       portal E gid season attempt = Body html
       /\ Async.parse_report E html = Some (Async.first_report_data r).
Proof.
  induction years as [|y l IH]; intros st r; cbn [Async.discover_loop]; [done|].
  destruct (Async.fetch_report_with_retry E config gid y st) as [[report|] st1] eqn:Hf;
    [|apply IH].
  destruct (has_name report); [|apply IH].
  cbn. intros [= <-]. split; [done|]. cbn.
  assert (Hsrc : (Async.fetch_report_with_retry E config gid y st).1 = Some report)
    by by rewrite Hf.
  apply async_retry_loop_source in Hsrc as (attempt & html & ? & ?). eauto.
Qed.

Lemma async_discovery_source E config gid r :
  async_discovery E config gid = Some r ->
  Async.grower_id r = gid
  /\ exists season attempt html,
       portal E gid season attempt = Body html
       /\ Async.parse_report E html = Some (Async.first_report_data r).
Proof. apply async_discover_loop_source. Qed.

(** Discovery only returns a report that carries a grower name. *)
Lemma async_discover_loop_named E config gid years : forall st r,
  (Async.discover_loop E config gid years st).1 = Some r ->
  has_name (Async.first_report_data r) = true.
Proof.
  induction years as [|y l IH]; intros st r; cbn [Async.discover_loop]; [done|].
  destruct (Async.fetch_report_with_retry E config gid y st) as [[report|] st1];
    [|apply IH].
  destruct (has_name report) eqn:Hname; [|apply IH].
  cbn. by intros [= <-].
Qed.

Lemma async_discovery_echo E config gid r :
  portal_echoes_identifier E ->
  async_discovery E config gid = Some r ->
  Async.grower_id r = gid
  /\ grower_info (Async.first_report_data r) !! "grower_number" = Some gid.
Proof.
  intros Hecho Hdisc.
  pose proof (async_discover_loop_named E config gid _ _ _ Hdisc) as Hname.
  apply async_discovery_source in Hdisc
    as [Hid (season & attempt & html & Hp & Hparse)].
  split; [done|]. eapply Hecho; eauto.
Qed.

(* ------------------------------------------------------------------ *)
(** ** Saving the discovered growers *)

Lemma Grower_exists_elem d pk :
  Models.Grower_exists d pk = true
  <-> pk ∈ map Models.grower_number (Models.growers d).
Proof.
  unfold Models.Grower_exists. rewrite existsb_exists. split.
  - intros (g & Hin & Heq%String.eqb_eq). subst pk.
    apply list_elem_of_fmap. exists g. split; [done|]. by apply list_elem_of_In.
  - intros (g & -> & Hin)%list_elem_of_fmap. exists g.
    split; [by apply list_elem_of_In | apply String.eqb_refl].
Qed.

Lemma Grower_exists_same d d' pk :
  Models.growers d' = Models.growers d ->
  Models.Grower_exists d' pk = Models.Grower_exists d pk.
Proof. unfold Models.Grower_exists. by intros ->. Qed.

Lemma safe_int_convert_ok E value : exists v, AsyncCommand._safe_int_convert E value = Ok v.
Proof.
  unfold AsyncCommand._safe_int_convert. destruct value as [v|]; [|by eexists].
  destruct (negb _); [by eexists|].
  destruct (py_int _ v) as [n|e] eqn:Hi; cbn; [by eexists|].
  rewrite (py_int_raises _ _ _ Hi). by eexists.
Qed.

Lemma get_or_create_grower_spec E report d :
  let r := AsyncCommand.get_or_create_grower E report d in
  let number := default EmptyString (grower_info report !! "grower_number") in
  match r.1 with
  | Raise e => r.2 = d /\ Models.Grower_exists d number = false
  | Ok g =>
      Models.Grower_exists r.2 number = true
      /\ Models.grower_number g = number
      /\ Models.growers d ⊆ Models.growers r.2
      /\ Models.seasonal_reports r.2 = Models.seasonal_reports d
      /\ (Models.Grower_exists d number = true -> r.2 = d)
  end.
Proof.
  cbv zeta. unfold AsyncCommand.get_or_create_grower.
  destruct (safe_int_convert_ok E (must_know_info report !! "first_sales_record_found"))
    as [fsy ->].
  match goal with
  | |- context [Models.Grower_get_or_create (Some ?pk) ?defaults d] =>
      pose proof (Grower_get_or_create_spec pk defaults d) as Hspec;
      cbv zeta in Hspec;
      destruct (Models.Grower_get_or_create (Some pk) defaults d) as [[g|e] d1]
  end; cbn [fst snd] in *.
  - destruct Hspec as (Hex & Hold & Hnew & Hsub & _ & _ & Hrep & _).
    assert (Hnum : Models.grower_number g
                   = default EmptyString (grower_info report !! "grower_number")).
    { destruct (Models.Grower_exists d
                  (default EmptyString (grower_info report !! "grower_number")))
        eqn:Hb.
      - by destruct (Hold eq_refl).
      - by rewrite (Hnew eq_refl). }
    rewrite Hnum in Hex. repeat split; try done.
    intros Hb. by destruct (Hold Hb).
  - by destruct Hspec as (Hd & Hno & _).
Qed.

(** Once settled, always settled: the grower table only grows. *)
Lemma settled_mono E d d' r :
  grower_info (Async.first_report_data r) !! "grower_number"
    = Some (Async.grower_id r) ->
  Models.growers d ⊆ Models.growers d' ->
  settled E d r -> settled E d' r.
Proof.
  intros Hecho Hsub [Hex | [e Hraise]].
  { left. by eapply Grower_exists_mono. }
  destruct (Models.Grower_exists d' (Async.grower_id r)) eqn:Hex'; [by left|].
  right. revert Hraise. unfold AsyncCommand.get_or_create_grower.
  destruct (safe_int_convert_ok E
              (must_know_info (Async.first_report_data r) !! "first_sales_record_found"))
    as [fsy ->].
  rewrite Hecho. simpl (default _ (Some _)).
  match goal with
  | |- Models.Grower_get_or_create (Some ?pk) ?defaults d = _ -> _ =>
      pose proof (Grower_get_or_create_spec pk defaults d) as Hspec;
      cbv zeta in Hspec
  end.
  intros Hraise. rewrite Hraise in Hspec. cbn [fst snd] in Hspec.
  destruct Hspec as (_ & _ & Hblocked).
  unfold Models.Grower_get_or_create, Models.Grower_create.
  rewrite (Grower_get_none _ _ Hex').
  apply orb_true_iff in Hblocked as [Hb | Hb].
  - rewrite (existsb_mono _ _ _ Hsub Hb). cbn. eauto.
  - rewrite Hb, orb_true_r. eauto.
Qed.

Lemma save_discovered_growers_spec E results : forall d,
  (forall r, r ∈ results ->
     grower_info (Async.first_report_data r) !! "grower_number"
       = Some (Async.grower_id r)) ->
  let d' := AsyncCommand.save_discovered_growers E results d in
  Models.growers d ⊆ Models.growers d'
  /\ (forall r, r ∈ results -> settled E d' r).
Proof.
  induction results as [|r rest IH]; intros d Hecho; cbn zeta.
  { split; [done|]. intros r Hr. by apply elem_of_nil in Hr. }
  cbn [AsyncCommand.save_discovered_growers].
  pose proof (get_or_create_grower_spec E (Async.first_report_data r) d) as Hspec.
  cbv zeta in Hspec. rewrite (Hecho r) in Hspec by apply list_elem_of_here.
  simpl (default _ (Some _)) in Hspec.
  destruct (AsyncCommand.get_or_create_grower E (Async.first_report_data r) d)
    as [[g|e] d1] eqn:Hgc; cbn [fst snd] in Hspec.
  - destruct Hspec as (Hex & Hnum & Hsub & _).
    pose proof (create_seasonal_data_spec g (Async.first_season r)
                  (Async.first_report_data r) d1) as (Hg2 & _).
    set (d2 := (AsyncCommand.create_seasonal_data g _ _ d1).2) in *.
    destruct (IH d2) as [Hsub2 Hset].
    { intros x Hx. apply Hecho. by apply list_elem_of_further. }
    split.
    + intros x Hx. apply Hsub2. rewrite Hg2. by apply Hsub.
    + intros x [->|Hx]%elem_of_cons; [|by apply Hset].
      apply (settled_mono E d2); [apply Hecho, list_elem_of_here | done |].
      left. by rewrite (Grower_exists_same d1 d2).
  - destruct Hspec as [-> Hno].
    destruct (IH d) as [Hsub2 Hset].
    { intros x Hx. apply Hecho. by apply list_elem_of_further. }
    split; [done|].
    intros x [->|Hx]%elem_of_cons; [|by apply Hset].
    apply (settled_mono E d); [apply Hecho, list_elem_of_here | done |].
    right. eauto.
Qed.

Lemma save_discovered_growers_unique E results : forall d,
  unique_reports d ->
  unique_reports (AsyncCommand.save_discovered_growers E results d).
Proof.
  induction results as [|r rest IH]; intros d Hu; cbn; [done|].
  apply IH.
  pose proof (get_or_create_grower_spec E (Async.first_report_data r) d) as Hspec.
  cbv zeta in Hspec.
  destruct (AsyncCommand.get_or_create_grower E (Async.first_report_data r) d)
    as [[g|e] d1]; cbn [fst snd] in Hspec.
  - apply create_seasonal_data_unique. unfold unique_reports in *.
    destruct Hspec as (_ & _ & _ & -> & _). done.
  - destruct Hspec as [-> _]. done.
Qed.

(** Nothing is written when every grower is refused. *)
Lemma save_discovered_growers_idle E results d :
  (forall r, r ∈ results ->
     exists e, AsyncCommand.get_or_create_grower E (Async.first_report_data r) d
               = (Raise e, d)) ->
  AsyncCommand.save_discovered_growers E results d = d.
Proof.
  induction results as [|r rest IH]; intros Hall; cbn; [done|].
  destruct (Hall r) as [e ->]; [apply list_elem_of_here|].
  apply IH. intros x Hx. apply Hall. by apply list_elem_of_further.
Qed.

(* ------------------------------------------------------------------ *)
(** ** Fetching the later seasons *)

Lemma save_seasonal_results_spec g results : forall d,
  let r := AsyncCommand.save_seasonal_results g results d in
  Models.growers r.2 = Models.growers d
  /\ (unique_reports d -> unique_reports r.2).
Proof.
  induction results as [|[[gid season] report] rest IH]; intros d; cbn zeta;
    [done|].
  cbn [AsyncCommand.save_seasonal_results].
  pose proof (create_seasonal_data_spec g season report d) as (Hg & _).
  pose proof (create_seasonal_data_unique g season report d) as Hu.
  destruct (AsyncCommand.create_seasonal_data g season report d) as [[[]|e] d1];
    cbn [fst snd] in *.
  - destruct (IH d1) as [Hg1 Hu1].
    destruct (AsyncCommand.save_seasonal_results g rest d1) as [saved d2].
    cbn [fst snd] in *. split; [congruence | auto].
  - destruct (IH d1) as [Hg1 Hu1]. split; [congruence | auto].
Qed.

Lemma fetch_all_seasons_for_one_spec E config result w :
  let r := AsyncCommand.fetch_all_seasons_for_one E config result w in
  Models.growers (db r.2) = Models.growers (db w)
  /\ (unique_reports (db w) -> unique_reports (db r.2))
  /\ (Models.Grower_exists (db w) (Async.grower_id result) = false ->
      db r.2 = db w /\ r.1 = 0).
Proof.
  cbv zeta. unfold AsyncCommand.fetch_all_seasons_for_one,
    AsyncCommand.get_grower_by_id, AsyncCommand.get_existing_seasons_for_grower.
  destruct (AsyncCommand.seasons_to_fetch _ _) as [|season missing]; [done|].
  destruct (Async.fetch_multiple_reports E config _ (st w)) as [results s].
  destruct (Models.Grower_get (db w) (Async.grower_id result)) as [g|] eqn:Hget.
  - pose proof (save_seasonal_results_spec g results (db w)) as [Hg Hu].
    destruct (AsyncCommand.save_seasonal_results g results (db w)) as [saved d].
    cbn [fst snd db] in *. split; [done|]. split; [done|]. intros Hno.
    assert (Models.Grower_exists (db w) (Async.grower_id result) = true)
      by (apply Grower_get_exists; eauto).
    congruence.
  - done.
Qed.

Lemma fetch_all_seasons_spec E config results : forall w,
  let r := AsyncCommand.fetch_all_seasons_for_discovered_growers E config results w in
  Models.growers (db r.2) = Models.growers (db w)
  /\ (unique_reports (db w) -> unique_reports (db r.2))
  /\ ((forall x, x ∈ results ->
         Models.Grower_exists (db w) (Async.grower_id x) = false) ->
      db r.2 = db w /\ r.1 = 0).
Proof.
  induction results as [|x rest IH]; intros w; cbn zeta; [done|].
  cbn [AsyncCommand.fetch_all_seasons_for_discovered_growers].
  pose proof (fetch_all_seasons_for_one_spec E config x w) as (Hg & Hu & Hidle).
  destruct (AsyncCommand.fetch_all_seasons_for_one E config x w) as [saved w1].
  destruct (IH w1) as (Hg1 & Hu1 & Hidle1).
  destruct (AsyncCommand.fetch_all_seasons_for_discovered_growers E config rest w1)
    as [total w2].
  cbn [fst snd] in *. split; [congruence|]. split; [auto|].
  intros Hno. destruct (Hidle (Hno x (list_elem_of_here _ _))) as [Hd ->].
  destruct Hidle1 as [Hd1 ->].
  { intros y Hy. rewrite Hd. apply Hno. by apply list_elem_of_further. }
  split; [congruence | done].
Qed.

(* ------------------------------------------------------------------ *)
(** ** One batch, and a run *)

Lemma resume_filter_kept d ids gid :
  gid ∈ filter (fun x => x ∉ AsyncCommand.get_existing_grower_ids d ids) ids ->
  gid ∈ ids /\ Models.Grower_exists d gid = false.
Proof.
  intros [Hnot Hin]%list_elem_of_filter. split; [done|].
  destruct (Models.Grower_exists d gid) eqn:Hex; [|done].
  exfalso. apply Hnot. unfold AsyncCommand.get_existing_grower_ids.
  apply list_elem_of_filter. split; [done|]. by apply Grower_exists_elem.
Qed.

Lemma resume_filter_dropped d ids gid :
  gid ∈ ids ->
  gid ∉ filter (fun x => x ∉ AsyncCommand.get_existing_grower_ids d ids) ids ->
  Models.Grower_exists d gid = true.
Proof.
  intros Hin Hnot.
  destruct (decide (gid ∈ AsyncCommand.get_existing_grower_ids d ids)) as [Hex|Hex].
  - apply list_elem_of_filter in Hex as [_ Hex]. by apply Grower_exists_elem.
  - exfalso. apply Hnot. by apply list_elem_of_filter.
Qed.

Section Batch.
Variables (E : Env) (config : Async.ScrapingConfig).
Hypothesis echo : portal_echoes_identifier E.

Lemma batch_settled_mono d d' a b :
  Models.growers d ⊆ Models.growers d' ->
  batch_settled E config d a b -> batch_settled E config d' a b.
Proof.
  intros Hsub Hset gid r Hin Hdisc.
  apply (settled_mono E d); [|done|by eapply Hset].
  destruct (async_discovery_echo E config gid r echo Hdisc) as [-> ?]. done.
Qed.

Lemma process_batch_settles a b discover_only resume w :
  let r := AsyncCommand.process_batch E config a b discover_only resume w in
  Models.growers (db w) ⊆ Models.growers (db r.2)
  /\ batch_settled E config (db r.2) a b.
Proof.
  cbv zeta. unfold AsyncCommand.process_batch.
  set (ids0 := grower_ids_of a b).
  set (ids := if resume then _ else ids0).
  assert (Hdropped : forall gid r, gid ∈ ids0 -> gid ∉ ids ->
            async_discovery E config gid = Some r ->
            Models.Grower_exists (db w) (Async.grower_id r) = true).
  { intros gid r Hin Hnot Hdisc.
    destruct (async_discovery_echo E config gid r echo Hdisc) as [-> _].
    subst ids. destruct resume; [|done]. by eapply resume_filter_dropped. }
  destruct ids as [|gid0 ids'] eqn:Hids.
  { split; [reflexivity|]. intros gid r Hin Hdisc. left.
    apply (Hdropped gid r Hin); [apply not_elem_of_nil | done]. }
  rewrite <- Hids in *. clear Hids gid0 ids'.
  pose proof (discover_growers_batch_results E config ids (st w)) as Hres.
  destruct (Async.discover_growers_batch E config ids (st w)) as [results s].
  cbn [fst] in Hres. subst results.
  assert (Hfound : forall gid r, gid ∈ ids0 ->
            async_discovery E config gid = Some r ->
            Models.Grower_exists (db w) (Async.grower_id r) = true
            \/ r ∈ omap (async_discovery E config) ids).
  { intros gid r Hin Hdisc. destruct (decide (gid ∈ ids)) as [Hi|Hi].
    - right. apply list_elem_of_omap. eauto.
    - left. by apply (Hdropped gid). }
  assert (Hechoes : forall r, r ∈ omap (async_discovery E config) ids ->
            grower_info (Async.first_report_data r) !! "grower_number"
              = Some (Async.grower_id r)).
  { intros r (gid & _ & Hdisc)%list_elem_of_omap.
    destruct (async_discovery_echo E config gid r echo Hdisc) as [-> ?]. done. }
  destruct (omap (async_discovery E config) ids) as [|r0 results'] eqn:Hres.
  { cbn. split; [reflexivity|]. intros gid r Hin Hdisc.
    destruct (Hfound gid r Hin Hdisc) as [Hex | Hr]; [by left|].
    by apply elem_of_nil in Hr. }
  rewrite <- Hres in *. clear Hres r0 results'.
  pose proof (save_discovered_growers_spec E _ (db w) Hechoes) as [Hsub Hset].
  set (d1 := AsyncCommand.save_discovered_growers E _ (db w)) in *.
  assert (Hd1 : batch_settled E config d1 a b).
  { intros gid r Hin Hdisc.
    destruct (Hfound gid r Hin Hdisc) as [Hex | Hr]; [|by apply Hset].
    left. by eapply Grower_exists_mono. }
  destruct discover_only; [done|].
  pose proof (fetch_all_seasons_spec E config
                (omap (async_discovery E config) ids) {| db := d1; st := s |})
    as (Hg & _).
  destruct (AsyncCommand.fetch_all_seasons_for_discovered_growers E config _ _)
    as [saved w2].
  cbn [fst snd db] in *. split.
  - intros x Hx. rewrite Hg. by apply Hsub.
  - apply (batch_settled_mono d1); [|done]. by rewrite Hg.
Qed.

(** In resume mode a settled batch writes nothing. *)
Lemma process_batch_idle a b discover_only w :
  batch_settled E config (db w) a b ->
  let r := AsyncCommand.process_batch E config a b discover_only true w in
  db r.2 = db w /\ r.1.2 = 0.
Proof.
  intros Hset. cbv zeta. unfold AsyncCommand.process_batch.
  set (ids0 := grower_ids_of a b).
  set (ids := filter _ ids0).
  assert (Hkept : forall gid, gid ∈ ids ->
            gid ∈ ids0 /\ Models.Grower_exists (db w) gid = false).
  { intros gid Hin. by apply resume_filter_kept. }
  destruct ids as [|gid0 ids'] eqn:Hids; [done|].
  rewrite <- Hids in *. clear Hids gid0 ids'.
  pose proof (discover_growers_batch_results E config ids (st w)) as Hres.
  destruct (Async.discover_growers_batch E config ids (st w)) as [results s].
  cbn [fst] in Hres. subst results.
  assert (Hrefused : forall r, r ∈ omap (async_discovery E config) ids ->
            Models.Grower_exists (db w) (Async.grower_id r) = false
            /\ exists e, AsyncCommand.get_or_create_grower E
                           (Async.first_report_data r) (db w)
                         = (Raise e, db w)).
  { intros r (gid & Hin & Hdisc)%list_elem_of_omap.
    destruct (Hkept gid Hin) as [Hin0 Hno].
    destruct (async_discovery_echo E config gid r echo Hdisc) as [Hid _].
    rewrite Hid. split; [done|].
    destruct (Hset gid r Hin0 Hdisc) as [Hex | Hr]; [|done].
    rewrite Hid in Hex. congruence. }
  destruct (omap (async_discovery E config) ids) as [|r0 results'] eqn:Hres;
    [done|].
  rewrite <- Hres in *. clear Hres r0 results'.
  rewrite save_discovered_growers_idle by (intros r Hr; by apply Hrefused).
  destruct discover_only; [done|].
  pose proof (fetch_all_seasons_spec E config
                (omap (async_discovery E config) ids) {| db := db w; st := s |})
    as (_ & _ & Hidle).
  destruct (AsyncCommand.fetch_all_seasons_for_discovered_growers E config _ _)
    as [saved w2].
  cbn [fst snd db] in *. apply Hidle. intros r Hr. by apply Hrefused.
Qed.
End Batch.

Lemma process_batch_unique E config a b discover_only resume w :
  unique_reports (db w) ->
  unique_reports (db (AsyncCommand.process_batch E config a b discover_only resume w).2).
Proof.
  intros Hu. unfold AsyncCommand.process_batch.
  destruct (if resume then _ else _) as [|gid ids]; [done|].
  destruct (Async.discover_growers_batch E config _ (st w)) as [[|r results] s];
    [done|].
  pose proof (save_discovered_growers_unique E (r :: results) (db w) Hu) as Hu1.
  destruct discover_only; [done|].
  pose proof (fetch_all_seasons_spec E config (r :: results)
                {| db := AsyncCommand.save_discovered_growers E (r :: results) (db w);
                   st := s |}) as (_ & Hu2 & _).
  destruct (AsyncCommand.fetch_all_seasons_for_discovered_growers E config _ _)
    as [saved w2].
  by apply Hu2.
Qed.

Section Run.
Variables (E : Env) (o : AsyncCommand.Options).

Let config := AsyncCommand.config_of o.

Lemma run_batches_unique starts : forall w,
  unique_reports (db w) ->
  unique_reports (db (AsyncCommand.run_batches E o starts w).2).
Proof.
  induction starts as [|bs rest IH]; intros w Hu; cbn; [done|].
  pose proof (process_batch_unique E config bs (batch_end_of o bs)
                (AsyncCommand.opt_discover_only o) (AsyncCommand.opt_resume o)
                w Hu) as Hu1.
  unfold batch_end_of, config in Hu1.
  destruct (AsyncCommand.process_batch E _ bs _ _ _ w) as [[n m] w1].
  specialize (IH w1 Hu1).
  by destruct (AsyncCommand.run_batches E o rest w1) as [[n' m'] w2].
Qed.

Hypothesis echo : portal_echoes_identifier E.

Lemma run_batches_settles starts : forall w,
  let r := AsyncCommand.run_batches E o starts w in
  Models.growers (db w) ⊆ Models.growers (db r.2)
  /\ forall bs, bs ∈ starts -> batch_settled E config (db r.2) bs (batch_end_of o bs).
Proof.
  induction starts as [|bs rest IH]; intros w; cbn zeta.
  { split; [reflexivity|]. intros bs Hbs. by apply elem_of_nil in Hbs. }
  cbn [AsyncCommand.run_batches].
  pose proof (process_batch_settles E config echo bs (batch_end_of o bs)
                (AsyncCommand.opt_discover_only o) (AsyncCommand.opt_resume o) w)
    as [Hsub Hset].
  unfold batch_end_of, config in Hsub, Hset.
  destruct (AsyncCommand.process_batch E _ bs _ _ _ w) as [[n m] w1].
  destruct (IH w1) as [Hsub1 Hset1].
  destruct (AsyncCommand.run_batches E o rest w1) as [[n' m'] w2].
  cbn [fst snd] in *. split.
  - intros x Hx. by apply Hsub1, Hsub.
  - intros x [->|Hx]%elem_of_cons; [|by apply Hset1].
    by apply (batch_settled_mono E config echo (db w1)).
Qed.

Lemma run_batches_idle starts : forall w,
  AsyncCommand.opt_resume o = true ->
  (forall bs, bs ∈ starts -> batch_settled E config (db w) bs (batch_end_of o bs)) ->
  let r := AsyncCommand.run_batches E o starts w in
  db r.2 = db w /\ r.1.2 = 0.
Proof.
  induction starts as [|bs rest IH]; intros w Hresume Hset; cbn zeta; [done|].
  cbn [AsyncCommand.run_batches]. rewrite Hresume.
  pose proof (process_batch_idle E config echo bs (batch_end_of o bs)
                (AsyncCommand.opt_discover_only o) w
                (Hset bs (list_elem_of_here _ _))) as [Hd Hm].
  unfold batch_end_of, config in Hd, Hm.
  destruct (AsyncCommand.process_batch E _ bs _ _ _ w) as [[n m] w1].
  cbn [fst snd] in *. subst m.
  destruct (IH w1 Hresume) as [Hd1 Hm1].
  { intros x Hx. rewrite Hd. apply Hset. by apply list_elem_of_further. }
  destruct (AsyncCommand.run_batches E o rest w1) as [[n' m'] w2].
  cbn [fst snd] in *. split; [congruence | lia].
Qed.
End Run.

Lemma handle_unique E o username password w :
  unique_reports (db w) ->
  unique_reports (db (AsyncCommand.handle E o username password w).2).
Proof.
  intros Hu. unfold AsyncCommand.handle.
  destruct (negb _); [done|].
  destruct (range_step _ _ _) as [starts|e]; [|done].
  pose proof (run_batches_unique E o starts w Hu) as Hu1.
  by destruct (AsyncCommand.run_batches E o starts w) as [[n m] w1].
Qed.

(** C5, as stated, fails in its last part: when the portal serves one
    grower under two identifiers and a stored grower blocks the first
    attempt to create it, the second of two identical resume runs stores a
    seasonal report the first one did not. *)
Lemma rerun_persists_nothing_cex :
  ~ (forall (E : Env) (o : AsyncCommand.Options) (username password : string)
            (w : World),
        AsyncCommand.opt_resume o = true ->
        let first := AsyncCommand.handle E o username password w in
        let second := AsyncCommand.handle E o username password first.2 in
        Models.seasonal_reports (db second.2) = Models.seasonal_reports (db first.2)).
Proof.
  intros H.
  specialize (H fx_twins fx_twins_options "user" "secret" fx_twins_world eq_refl).
  apply (f_equal length) in H. vm_compute in H. discriminate.
Qed.

(** C5, amended.  The store never holds two seasonal reports for one
    (grower, season): a run of the command and every call of
    [create_seasonal_data] keep the pairs distinct; persisting a report
    for a pair that is stored already changes nothing and raises nothing;
    and, when every report with a grower name that the portal serves for
    an identifier carries that identifier as its grower number, running
    the command a second time in resume mode on the store the first run
    left, with the same inputs, leaves the store as it is and counts no
    report as saved.  Pages without a grower name are not constrained. *)
Theorem store_unique_and_rerun_idle (E : Env) (o : AsyncCommand.Options)
    (username password : string) (w : World) :
  (unique_reports (db w) ->
   unique_reports (db (AsyncCommand.handle E o username password w).2))
  /\ (forall g season report d,
        unique_reports d ->
        unique_reports (AsyncCommand.create_seasonal_data g season report d).2)
  /\ (forall g season report d,
        Models.SeasonalReport_exists d (Models.grower_number g) season = true ->
        AsyncCommand.create_seasonal_data g season report d = (Ok tt, d))
  /\ (portal_echoes_identifier E ->
      AsyncCommand.opt_resume o = true ->
      let first := AsyncCommand.handle E o username password w in
      let second := AsyncCommand.handle E o username password first.2 in
      db second.2 = db first.2
      /\ forall n m, second.1 = Completed n m -> m = 0).
Proof.
  split; [apply handle_unique|].
  split; [intros; by apply create_seasonal_data_unique|].
  split; [intros g season report d; apply create_seasonal_data_spec|].
  intros echo Hresume. cbv zeta. unfold AsyncCommand.handle.
  destruct (negb _); [done|].
  destruct (range_step _ _ _) as [starts|e]; [|done].
  pose proof (run_batches_settles E o echo starts w) as [_ Hset].
  destruct (AsyncCommand.run_batches E o starts w) as [[n1 m1] w1].
  cbn [fst snd] in *.
  pose proof (run_batches_idle E o echo starts w1 Hresume Hset) as [Hd Hm].
  destruct (AsyncCommand.run_batches E o starts w1) as [[n2 m2] w2].
  cbn [fst snd] in *. split; [done|]. intros n m [= _ <-]. done.
Qed.

Lemma fx_v3_echoes : portal_echoes_identifier fx_v3.
Proof.
  intros gid season attempt html report. cbn.
  destruct (String.eqb_spec gid "V3") as [->|Hne]; cbn;
    [destruct (season =? 2019)|]; intros [= <-]; intros [= <-]; done.
Qed.

Lemma fx_blank_before_v3_echoes : portal_echoes_identifier fx_blank_before_v3.
Proof.
  intros gid season attempt html report Hp Hparse Hname. cbn in Hp.
  destruct (String.eqb gid "V3" && (season =? 2019))%bool eqn:Hv3.
  - injection Hp as <-. apply andb_true_iff in Hv3 as [Hgid _].
    apply String.eqb_eq in Hgid. subst gid.
    vm_compute in Hparse. injection Hparse as <-. reflexivity.
  - destruct (season =? 2018); injection Hp as <-; vm_compute in Hparse;
      [|discriminate].
    injection Hparse as <-. vm_compute in Hname. discriminate.
Qed.

Lemma store_unique_and_rerun_idle_witness :
  let first := AsyncCommand.handle fx_blank_before_v3 fx_options "user" "secret" fx_world0 in
  let second := AsyncCommand.handle fx_blank_before_v3 fx_options "user" "secret" first.2 in
  unique_reports (db first.2)
  /\ unique_reports
       (AsyncCommand.create_seasonal_data
          {| Models.grower_number := "V0"; Models.name := "Rudo";
             Models.surname := ""; Models.national_id := "N1";
             Models.farming_province := ""; Models.farm_name := "";
             Models.address := ""; Models.first_sales_year := None |}
          2018 (fx_report "V0") (db fx_twins_world)).2
  /\ AsyncCommand.create_seasonal_data
       {| Models.grower_number := "V3"; Models.name := "Tendai";
          Models.surname := ""; Models.national_id := "";
          Models.farming_province := ""; Models.farm_name := "";
          Models.address := ""; Models.first_sales_year := None |}
       2019 (fx_report "V3") (db first.2)
     = (Ok tt, db first.2)
  /\ db second.2 = db first.2
  /\ forall n m, second.1 = Completed n m -> m = 0.
Proof.
  destruct (store_unique_and_rerun_idle fx_blank_before_v3 fx_options "user" "secret" fx_world0)
    as (Hu & Hc & Hnoop & Hrerun).
  split; [apply Hu, NoDup_nil_2|].
  split; [apply Hc, NoDup_nil_2|].
  split; [apply Hnoop; reflexivity|].
  apply Hrerun; [apply fx_blank_before_v3_echoes | reflexivity].
Defined.

(* ------------------------------------------------------------------ *)
(** ** A failed lookup and the rest of the range *)

Lemma threaded_fetch_keeps_posts E gid season st x :
  x ∈ posts st -> x ∈ posts (Threaded.fetch_report E gid season st).2.
Proof.
  intros Hx. unfold Threaded.fetch_report. destruct gid as [|c gid']; [done|].
  destruct (portal E _ season 0) as [e|text]; cbn; [set_solver|].
  destruct (Threaded.parse_report E text); cbn; set_solver.
Qed.

Lemma threaded_discover_loop_keeps_posts E gid years : forall st x,
  x ∈ posts st -> x ∈ posts (Threaded.discover_loop E gid years st).2.
Proof.
  induction years as [|y l IH]; intros st x Hx; cbn [Threaded.discover_loop]; [done|].
  pose proof (threaded_fetch_keeps_posts E gid y st x Hx) as H1.
  destruct (Threaded.fetch_report E gid y st) as [[[report|]|e] st1];
    cbn [fst snd] in *; try by apply IH.
  - destruct (has_name report); [done | by apply IH].
  - done.
Qed.

Lemma threaded_batch_keeps_posts E ids : forall st x,
  x ∈ posts st -> x ∈ posts (Threaded.discover_growers_threaded E ids st).2.
Proof.
  induction ids as [|gid rest IH]; intros st x Hx; cbn; [done|].
  pose proof (threaded_discover_loop_keeps_posts E gid (range 2018 2026) st x Hx) as H1.
  unfold Threaded.discover_grower_first_season.
  destruct (Threaded.discover_loop E gid _ st) as [result st1].
  specialize (IH st1 x H1).
  by destruct (Threaded.discover_growers_threaded E rest st1) as [found st2].
Qed.

(** In the threaded scraper every identifier of a batch is looked up,
    whatever happened to the identifiers before it. *)
Lemma threaded_batch_probes_every_identifier E ids : forall st gid,
  gid ∈ ids -> gid <> EmptyString ->
  (gid, 2018) ∈ posts (Threaded.discover_growers_threaded E ids st).2.
Proof.
  induction ids as [|g rest IH]; intros st gid Hin Hgid.
  { by apply elem_of_nil in Hin. }
  cbn. unfold Threaded.discover_grower_first_season.
  apply elem_of_cons in Hin as [<-|Hin].
  - assert (H1 : (gid, 2018) ∈ posts (Threaded.discover_loop E gid (range 2018 2026) st).2).
    { unfold range. rewrite seqZ_cons by done. cbn [Threaded.discover_loop].
      pose proof (threaded_fetch_posts E gid 2018 st Hgid) as Hp.
      destruct (Threaded.fetch_report E gid 2018 st) as [[[report|]|e] st1];
        cbn [fst snd] in *.
      - destruct (has_name report); cbn.
        + rewrite Hp. set_solver.
        + apply threaded_discover_loop_keeps_posts. rewrite Hp. set_solver.
      - apply threaded_discover_loop_keeps_posts. rewrite Hp. set_solver.
      - rewrite Hp. set_solver. }
    destruct (Threaded.discover_loop E gid _ st) as [result st1].
    pose proof (threaded_batch_keeps_posts E rest st1 _ H1).
    by destruct (Threaded.discover_growers_threaded E rest st1) as [found st2].
  - destruct (Threaded.discover_loop E g _ st) as [result st1].
    specialize (IH st1 gid Hin Hgid).
    by destruct (Threaded.discover_growers_threaded E rest st1) as [found st2].
Qed.

(** The sequential loop stops at the first number whose probe raises. *)
Lemma discover_stops_at_raise E i rest w e s :
  Models.Grower_get (db w) ("V" +:+ pretty i) = None ->
  SequentialCommand.probe E ("V" +:+ pretty i) SequentialCommand.SEASONS None (st w)
  = (Raise e, s) ->
  SequentialCommand.discover E (i :: rest) w = (Some e, {| db := db w; st := s |}).
Proof. intros Hget Hprobe. cbn [SequentialCommand.discover]. by rewrite Hget, Hprobe. Qed.

(** C7.  In the sequential command the first lookup that yields no report
    ends the whole run: with a portal that has no record for [V100000] in
    2024 (or cannot be reached), [handle] stops with a [TypeError] after
    one request, and none of the identifiers after [V100000] is looked up. *)
Theorem sequential_run_halts_on_failed_lookup :
  SequentialCommand.handle fx_empty "user" "secret" fx_world0
  = (Crashed TypeError,
     {| db := Models.empty_db;
        st := {| stats := stats0; posts := [("V100000", 2024)] |} |})
  /\ SequentialCommand.handle fx_down "user" "secret" fx_world0
     = (Crashed TypeError,
        {| db := Models.empty_db;
           st := {| stats := stats0; posts := [("V100000", 2024)] |} |}).
Proof.
  unfold SequentialCommand.handle, range.
  rewrite seqZ_cons by reflexivity.
  split.
  - change (negb (Sequential.login fx_empty "user" "secret")) with false. cbv iota.
    by rewrite (discover_stops_at_raise fx_empty _ _ fx_world0 TypeError
                  {| stats := stats0; posts := [("V100000", 2024)] |}).
  - change (negb (Sequential.login fx_down "user" "secret")) with false. cbv iota.
    by rewrite (discover_stops_at_raise fx_down _ _ fx_world0 TypeError
                  {| stats := stats0; posts := [("V100000", 2024)] |}).
Qed.

(* ------------------------------------------------------------------ *)
(** ** The credentials submitted at login *)

(** The scrapers submit the credentials they were built with. *)
Lemma login_payload_carries_credentials username password :
  Threaded.login_payload username password
  = [("name", username); ("password", password); ("login", "Login")]
  /\ Async.login_payload username password = Threaded.login_payload username password
  /\ Sequential.login_payload username password
     = Threaded.login_payload username password.
Proof. done. Qed.

(** The other two commands submit what the operator typed. *)
Lemma prompting_commands_submit_typed_credentials username password :
  AsyncCommand.submitted_login username password
  = [("name", username); ("password", password); ("login", "Login")]
  /\ SequentialCommand.submitted_login username password
     = [("name", username); ("password", password); ("login", "Login")].
Proof. done. Qed.

(** C9.  The threaded command does not submit the credentials supplied at
    run start: whatever the operator supplies, the login form carries the
    user name and the password written in the source of [handle], and the
    run is the same.  On a portal that lets in the account
    (alice, wonderland) only, supplying exactly that account still ends in
    a failed login, where the async command logs in and runs. *)
Theorem threaded_command_submits_embedded_credentials :
  (forall typed_username typed_password,
      ThreadedCommand.submitted_login typed_username typed_password
      = [("name", ThreadedCommand.handle_username);
         ("password", ThreadedCommand.handle_password);
         ("login", "Login")])
  /\ (forall E o w u p u' p',
        ThreadedCommand.handle E o u p w = ThreadedCommand.handle E o u' p' w)
  /\ ThreadedCommand.submitted_login "alice" "wonderland"
     <> Threaded.login_payload "alice" "wonderland"
  /\ (ThreadedCommand.handle fx_members_only fx_one_id_threaded
        "alice" "wonderland" fx_world0).1 = LoginFailed
  /\ (AsyncCommand.handle fx_members_only fx_one_id
        "alice" "wonderland" fx_world0).1 = Completed 0 0.
Proof. repeat split; done. Qed.

(* ------------------------------------------------------------------ *)
(** ** The seasons fetched after discovery *)

Lemma seasons_to_fetch_spec first_season existing season :
  season ∈ AsyncCommand.seasons_to_fetch first_season existing
  <-> first_season < season <= current_year /\ season ∉ existing.
Proof.
  unfold AsyncCommand.seasons_to_fetch, range, current_year.
  rewrite list_elem_of_filter, elem_of_seqZ. split; intros [? ?]; split; (done || lia).
Qed.

Lemma missing_seasons_spec first_season existing season :
  season ∈ ThreadedCommand.missing_seasons first_season existing
  <-> first_season < season <= current_year /\ season ∉ existing.
Proof. apply seasons_to_fetch_spec. Qed.

(** With a retry budget that is not negative every logical lookup posts
    at least one request. *)
Lemma async_attempts_pos E config gid season :
  0 <= Async.max_retries config -> (0 < async_attempts E config gid season)%nat.
Proof.
  intros Hm. unfold async_attempts, Async.fetch_report_with_retry, range.
  rewrite seqZ_cons by lia. cbn [Async.retry_loop].
  unfold Async._fetch_single_report.
  set (st1 := log_post gid season (inc_requests_made st0)).
  assert (Hrec : forall st2, posts st2 = posts st1 ->
            (0 < length (posts (Async.retry_loop E config gid season
                                  (seqZ (Z.succ 0) (Z.pred (Async.max_retries config + 1 - 0)))
                                  st2).2))%nat).
  { intros st2 H2.
    destruct (async_retry_loop_posts E config gid season
                (seqZ (Z.succ 0) (Z.pred (Async.max_retries config + 1 - 0))) st2)
      as [k ->].
    rewrite H2, length_app. cbn. lia. }
  destruct (portal E gid season 0) as [[]|html]; cbn [fst snd];
    try destruct (Async.parse_report E html); cbn [fst snd];
    try (destruct (0 <? Async.max_retries config); by apply Hrec).
  cbn. lia.
Qed.

Lemma async_fetch_multiple_posts E config pairs : forall st,
  posts (Async.fetch_multiple_reports E config pairs st).2
  = posts st
    ++ flat_map (fun p => replicate (async_attempts E config p.1 p.2) p) pairs.
Proof.
  induction pairs as [|[gid season] rest IH]; intros st; cbn.
  { by rewrite app_nil_r. }
  unfold Async._fetch_with_metadata.
  pose proof (async_fetch_posts E config gid season st) as Hp.
  destruct (Async.fetch_report_with_retry E config gid season st) as [r st1].
  specialize (IH st1).
  destruct (Async.fetch_multiple_reports E config rest st1) as [fetched st2].
  cbn [fst snd] in *. by rewrite IH, Hp, <- app_assoc.
Qed.

Lemma threaded_fetch_multiple_posts E gid seasons : forall st,
  gid <> EmptyString ->
  posts (Threaded.fetch_multiple_reports_threaded E (map (pair gid) seasons) st).2
  = posts st ++ map (pair gid) seasons.
Proof.
  induction seasons as [|season rest IH]; intros st Hgid; cbn.
  { by rewrite app_nil_r. }
  pose proof (threaded_fetch_posts E gid season st Hgid) as Hp.
  destruct (Threaded.fetch_report E gid season st) as [r st1].
  specialize (IH st1 Hgid).
  destruct (Threaded.fetch_multiple_reports_threaded E _ st1) as [fetched st2].
  cbn [fst snd] in *. by rewrite IH, Hp, <- app_assoc.
Qed.

Lemma elem_of_flat_map_replicate (f : string * Z -> nat) (pairs : list (string * Z)) p :
  (forall q, q ∈ pairs -> (0 < f q)%nat) ->
  p ∈ flat_map (fun q => replicate (f q) q) pairs <-> p ∈ pairs.
Proof.
  intros Hpos. rewrite list_elem_of_In, in_flat_map. split.
  - intros (q & Hq & Hin). apply list_elem_of_In in Hin.
    apply elem_of_replicate in Hin as [-> _]. by apply list_elem_of_In.
  - intros Hin. exists p. split; [by apply list_elem_of_In|].
    apply list_elem_of_In, elem_of_replicate. split; [done|].
    specialize (Hpos p Hin). lia.
Qed.

(** One turn of the fetch stage of the async command: the requests
    posted for a discovered grower with first season [f] are those of the
    seasons [f+1, ..., 2025] that the store does not hold for it. *)
Lemma async_fetch_turn_requests (E : Env) (config : Async.ScrapingConfig)
    (result : Async.GrowerDiscoveryResult) (w : World) :
  0 <= Async.max_retries config ->
  let after := (AsyncCommand.fetch_all_seasons_for_one E config result w).2 in
  exists requested,
    posts (st after) = posts (st w) ++ requested
    /\ forall g season,
         (g, season) ∈ requested
         <-> g = Async.grower_id result
             /\ Async.first_season result < season <= current_year
             /\ season ∉ Models.seasons_of (db w) (Async.grower_id result).
Proof.
  intros Hm. cbv zeta. unfold AsyncCommand.fetch_all_seasons_for_one,
    AsyncCommand.get_grower_by_id, AsyncCommand.get_existing_seasons_for_grower.
  set (missing := AsyncCommand.seasons_to_fetch _ _).
  pose proof (async_fetch_multiple_posts E config
                (map (pair (Async.grower_id result)) missing) (st w)) as Hp.
  exists (flat_map (fun p => replicate (async_attempts E config p.1 p.2) p)
            (map (pair (Async.grower_id result)) missing)).
  split.
  - destruct missing as [|season rest] eqn:Hmiss; [by rewrite app_nil_r|].
    rewrite <- Hmiss in *.
    destruct (Async.fetch_multiple_reports E config _ (st w)) as [results s].
    destruct (Models.Grower_get _ _); [|done].
    by destruct (AsyncCommand.save_seasonal_results _ _ _).
  - intros g season. rewrite elem_of_flat_map_replicate
      by (intros q _; by apply async_attempts_pos).
    rewrite list_elem_of_fmap. subst missing. split.
    + intros (s & [= -> ->] & Hs). by apply seasons_to_fetch_spec in Hs.
    + intros (-> & Hs). exists season. split; [done|].
      by apply seasons_to_fetch_spec.
Qed.

(** The same turn in the threaded command. *)
Lemma threaded_fetch_turn_requests (E : Env) (gid : string) (first_season : Z)
    (report : Report) (w : World) :
  gid <> EmptyString ->
  let after := (ThreadedCommand.fetch_remaining_seasons_for_one E
                  (gid, first_season, report) w).2 in
  exists requested,
    posts (st after) = posts (st w) ++ requested
    /\ forall g season,
         (g, season) ∈ requested
         <-> g = gid
             /\ first_season < season <= current_year
             /\ season ∉ Models.seasons_of (db w) gid.
Proof.
  intros Hgid. cbv zeta. unfold ThreadedCommand.fetch_remaining_seasons_for_one,
    ThreadedCommand.get_grower_by_id,
    ThreadedCommand.get_existing_seasons_for_grower.
  set (missing := ThreadedCommand.missing_seasons _ _).
  pose proof (threaded_fetch_multiple_posts E gid missing (st w) Hgid) as Hp.
  exists (map (pair gid) missing). split.
  - destruct missing as [|season rest] eqn:Hmiss; [by rewrite app_nil_r|].
    rewrite <- Hmiss in *.
    destruct (Threaded.fetch_multiple_reports_threaded E _ (st w)) as [results s].
    destruct (Models.Grower_get _ _); [|done].
    by destruct (ThreadedCommand.save_results _ _ _).
  - intros g season. rewrite list_elem_of_fmap. subst missing. split.
    + intros (s & [= -> ->] & Hs). by apply missing_seasons_spec in Hs.
    + intros (-> & Hs). exists season. split; [done|].
      by apply missing_seasons_spec.
Qed.

(* ------------------------------------------------------------------ *)
(** ** Requests in flight *)

Lemma count_if_app {A} (p : A -> bool) (l l' : list A) :
  count_if p (l ++ l') = count_if p l + count_if p l'.
Proof. induction l as [|x l IH]; cbn; [done|]. rewrite IH. lia. Qed.

Lemma count_if_insert {A} (p : A -> bool) (l : list A) : forall i a b,
  l !! i = Some a ->
  count_if p (<[i := b]> l)
  = count_if p l - (if p a then 1 else 0) + (if p b then 1 else 0).
Proof.
  induction l as [|x l IH]; intros [|i] a b Hi; simpl in *; try done.
  - injection Hi as ->. lia.
  - rewrite (IH i a b Hi). lia.
Qed.

Lemma count_if_bounds {A} (p : A -> bool) (l : list A) :
  0 <= count_if p l <= Z.of_nat (length l).
Proof. induction l as [|x l IH]; cbn; [lia|]. destruct (p x); lia. Qed.

Lemma count_if_le {A} (p q : A -> bool) (l : list A) :
  (forall x, p x = true -> q x = true) -> count_if p l <= count_if q l.
Proof.
  intros Hpq. induction l as [|x l IH]; cbn; [lia|].
  specialize (Hpq x). destruct (p x), (q x); try lia; by specialize (Hpq eq_refl).
Qed.

(** The permits left and the coroutines inside the block add up to the
    limit. *)
Lemma event_loop_invariant config s :
  EventLoop.reachable config s ->
  EventLoop.permits s + count_if EventLoop.is_inside (EventLoop.tasks s)
  = Async.max_concurrent_requests config.
Proof.
  intros Hreach. revert s Hreach. apply rtc_ind_r.
  - cbn. lia.
  - intros s s' _ Hstep IH. inversion Hstep; subst; cbn;
      rewrite ?count_if_app, ?(count_if_insert _ _ _ _ _ ltac:(eassumption));
      cbn; lia.
Qed.

Lemma event_loop_permits config s :
  0 <= Async.max_concurrent_requests config ->
  EventLoop.reachable config s -> 0 <= EventLoop.permits s.
Proof.
  intros Hn Hreach. revert s Hreach. apply rtc_ind_r.
  - done.
  - intros s s' _ Hstep IH. inversion Hstep; subst; cbn; lia.
Qed.

Lemma thread_pool_invariant n p :
  0 <= n ->
  ThreadPool.reachable n p ->
  ThreadPool.max_workers p = n
  /\ Z.of_nat (length (ThreadPool.workers p)) <= n.
Proof.
  intros Hn Hreach. revert p Hreach. apply rtc_ind_r.
  - cbn. lia.
  - intros p p' _ Hstep [IH1 IH2]. inversion Hstep; subst; cbn;
      rewrite ?length_app, ?length_insert; cbn; split; lia.
Qed.

(** C8.  For every limit [N >= 1], in every state the scheduler can
    reach, the requests dispatched and not yet completed are at most [N]:
    under the semaphore of the async scraper and in the pool of the
    threaded one. *)
Theorem in_flight_never_exceeds_limit (config : Async.ScrapingConfig) (n : Z) :
  (1 <= Async.max_concurrent_requests config ->
   forall s, EventLoop.reachable config s ->
             EventLoop.in_flight s <= Async.max_concurrent_requests config)
  /\ (1 <= n ->
      forall p, ThreadPool.reachable n p -> ThreadPool.in_flight p <= n).
Proof.
  split.
  - intros Hn s Hreach.
    pose proof (event_loop_invariant config s Hreach) as Hinv.
    pose proof (event_loop_permits config s ltac:(lia) Hreach) as Hpermits.
    pose proof (count_if_le EventLoop.is_posting EventLoop.is_inside
                  (EventLoop.tasks s)) as Hle.
    unfold EventLoop.in_flight.
    assert (count_if EventLoop.is_posting (EventLoop.tasks s)
            <= count_if EventLoop.is_inside (EventLoop.tasks s))
      by (apply Hle; by intros []).
    lia.
  - intros Hn p Hreach.
    destruct (thread_pool_invariant n p ltac:(lia) Hreach) as [_ Hlen].
    pose proof (count_if_bounds ThreadPool.is_posting (ThreadPool.workers p)).
    unfold ThreadPool.in_flight. lia.
Qed.

Lemma fx_loop_full_reachable : EventLoop.reachable fx_limit_two fx_loop_full.
Proof.
  unfold EventLoop.reachable, EventLoop.init.
  do 3 (eapply rtc_l; [apply EventLoop.step_spawn | cbn]).
  eapply rtc_l; [apply (EventLoop.step_acquire _ 0); [reflexivity | cbn; lia] | cbn].
  eapply rtc_l; [apply (EventLoop.step_acquire _ 1); [reflexivity | cbn; lia] | cbn].
  eapply rtc_l; [apply (EventLoop.step_post _ 0); reflexivity | cbn].
  eapply rtc_l; [apply (EventLoop.step_post _ 1); reflexivity | cbn].
  apply rtc_refl.
Qed.

Lemma fx_pool_full_reachable : ThreadPool.reachable 2 fx_pool_full.
Proof.
  unfold ThreadPool.reachable, ThreadPool.init.
  do 3 (eapply rtc_l; [apply ThreadPool.step_submit | cbn]).
  do 2 (eapply rtc_l; [apply ThreadPool.step_spawn; cbn; lia | cbn]).
  eapply rtc_l; [apply (ThreadPool.step_take _ 0); [reflexivity | cbn; lia] | cbn].
  eapply rtc_l; [apply (ThreadPool.step_take _ 1); [reflexivity | cbn; lia] | cbn].
  eapply rtc_l; [apply (ThreadPool.step_post _ 0); reflexivity | cbn].
  eapply rtc_l; [apply (ThreadPool.step_post _ 1); reflexivity | cbn].
  apply rtc_refl.
Qed.

Lemma in_flight_never_exceeds_limit_witness :
  EventLoop.in_flight fx_loop_full <= 2 /\ ThreadPool.in_flight fx_pool_full <= 2.
Proof.
  destruct (in_flight_never_exceeds_limit fx_limit_two 2) as [Hloop Hpool].
  split.
  - apply Hloop; [cbn; lia | apply fx_loop_full_reachable].
  - apply Hpool; [lia | apply fx_pool_full_reachable].
Defined.

(* ------------------------------------------------------------------ *)
(** ** The scenarios of section 8 of the specification *)

(** Identifiers [V1..V5], [V3] present in 2019 only: one result, for
    [V3], with first season 2019, in both scrapers. *)
Example scenario_only_v3_is_discovered :
  (Async.discover_growers_batch fx_v3 fx_config (grower_ids_of 1 5) st0).1
  = [ {| Async.grower_id := "V3"; Async.first_season := 2019;
         Async.first_report_data := fx_report "V3" |} ]
  /\ (Threaded.discover_growers_threaded fx_v3 (grower_ids_of 1 5) st0).1
     = [ ("V3", 2019, fx_report "V3") ].
Proof. split; vm_compute; reflexivity. Qed.

(** Resume mode with [V3] in the store: no request is posted for [V3]. *)
Example scenario_resume_skips_stored_grower :
  let first := AsyncCommand.handle fx_v3 fx_options "user" "secret" fx_world0 in
  let second := AsyncCommand.handle fx_v3 fx_options "user" "secret"
                  {| db := db first.2; st := st0 |} in
  Models.Grower_exists (db first.2) "V3" = true
  /\ filter (fun p => p.1 = "V3") (posts (st second.2)) = [].
Proof. split; vm_compute; reflexivity. Qed.

(** [max_retries = 2], two failures and then a page: success, two
    retries.  Every attempt failing: three requests. *)
Example scenario_retry_counters :
  stats (Async.fetch_report_with_retry fx_flaky fx_config "V1" 2018 st0).2
  = {| requests_made := 3; successful_requests := 1; failed_requests := 0;
       retries := 2; growers_discovered := 0 |}
  /\ requests_made
       (stats (Async.fetch_report_with_retry fx_down fx_config "V1" 2018 st0).2) = 3.
Proof. split; reflexivity. Qed.

(* ================================================================== *)
(** * Further properties of the engine *)
(* ================================================================== *)

(* ------------------------------------------------------------------ *)
(** ** Ranges and batches *)

Lemma grower_ids_of_elem a b gid :
  gid ∈ grower_ids_of a b <-> exists i, gid = "V" +:+ pretty i /\ a <= i <= b.
Proof.
  unfold grower_ids_of, range. rewrite list_elem_of_fmap.
  split; intros (i & -> & Hi); exists i; (split; [done|]);
    apply elem_of_seqZ in Hi || apply elem_of_seqZ; lia.
Qed.

(** The starts [range(start, stop, step)] gives lie between [start] and
    [stop], on the side the step goes. *)
Lemma range_step_elem start stop step l x :
  range_step start stop step = Ok l -> x ∈ l ->
  (0 < step /\ start <= x < stop) \/ (step < 0 /\ stop < x <= start).
Proof.
  unfold range_step. destruct (Z.eqb_spec step 0) as [|Hne]; [done|].
  intros [= <-] (i & -> & Hi)%list_elem_of_fmap.
  apply elem_of_seqZ in Hi.
  destruct (Z.ltb_spec 0 step) as [Hpos|Hneg].
  - left. split; [done|].
    pose proof (Z.mul_div_le (stop - start + step - 1) step Hpos). nia.
  - right. assert (0 < - step) as Hpos by lia. split; [lia|].
    pose proof (Z.mul_div_le (start - stop - step - 1) (- step) Hpos). nia.
Qed.

(* ------------------------------------------------------------------ *)
(** ** The grower table only grows *)

Lemma save_discovered_growers_grows E results : forall d,
  Models.growers d ⊆ Models.growers (AsyncCommand.save_discovered_growers E results d).
Proof.
  induction results as [|r rest IH]; intros d; cbn; [reflexivity|].
  pose proof (get_or_create_grower_spec E (Async.first_report_data r) d) as Hspec.
  cbv zeta in Hspec.
  destruct (AsyncCommand.get_or_create_grower E (Async.first_report_data r) d)
    as [[g|e] d1]; cbn [fst snd] in Hspec.
  - destruct Hspec as (_ & _ & Hsub & _).
    pose proof (create_seasonal_data_spec g (Async.first_season r)
                  (Async.first_report_data r) d1) as (Hg2 & _).
    etrans; [|apply IH]. by rewrite Hg2.
  - destruct Hspec as [-> _]. apply IH.
Qed.

Lemma process_batch_grows E config a b discover_only resume w :
  Models.growers (db w)
  ⊆ Models.growers (db (AsyncCommand.process_batch E config a b discover_only resume w).2).
Proof.
  unfold AsyncCommand.process_batch.
  destruct (if resume then _ else _) as [|gid ids]; [reflexivity|].
  destruct (Async.discover_growers_batch E config _ (st w)) as [[|r results] s];
    [reflexivity|].
  pose proof (save_discovered_growers_grows E (r :: results) (db w)) as Hsub.
  destruct discover_only; [done|].
  pose proof (fetch_all_seasons_spec E config (r :: results)
                {| db := AsyncCommand.save_discovered_growers E (r :: results) (db w);
                   st := s |}) as (Hg & _).
  destruct (AsyncCommand.fetch_all_seasons_for_discovered_growers E config _ _)
    as [saved w2].
  cbn [snd db] in *. by rewrite Hg.
Qed.

(* ------------------------------------------------------------------ *)
(** ** Lifting a property of one lookup to a whole run (async) *)

Section LiftAsync.
Variables (E : Env) (config : Async.ScrapingConfig).
Variable Q : St -> St -> Prop.
Variable allowed : string -> Prop.
Hypothesis Q_refl : forall st, Q st st.
Hypothesis Q_trans : forall a b c, Q a b -> Q b c -> Q a c.
Hypothesis Q_fetch : forall gid season st,
  allowed gid -> Q st (Async.fetch_report_with_retry E config gid season st).2.
Hypothesis Q_found : forall st, Q st (inc_growers_discovered st).

Lemma lift_discover_loop gid years : forall st,
  allowed gid -> Q st (Async.discover_loop E config gid years st).2.
Proof.
  induction years as [|y l IH]; intros st Hgid; cbn [Async.discover_loop]; [done|].
  pose proof (Q_fetch gid y st Hgid) as H1.
  destruct (Async.fetch_report_with_retry E config gid y st) as [[report|] st1];
    cbn [snd] in *.
  - destruct (has_name report); cbn [snd].
    + eapply Q_trans; [exact H1 | apply Q_found].
    + eapply Q_trans; [exact H1 | by apply IH].
  - eapply Q_trans; [exact H1 | by apply IH].
Qed.

Lemma lift_discover_batch ids : forall st,
  Forall allowed ids -> Q st (Async.discover_growers_batch E config ids st).2.
Proof.
  induction ids as [|gid rest IH]; intros st Hall; cbn; [done|].
  apply Forall_cons in Hall as [Hgid Hrest].
  pose proof (lift_discover_loop gid (range start_year (current_year + 1)) st Hgid) as H1.
  unfold Async.discover_grower_first_season.
  destruct (Async.discover_loop E config gid _ st) as [result st1].
  specialize (IH st1 Hrest).
  destruct (Async.discover_growers_batch E config rest st1) as [found st2].
  cbn [snd] in *. by eapply Q_trans.
Qed.

Lemma lift_fetch_multiple pairs : forall st,
  Forall (fun p => allowed p.1) pairs ->
  Q st (Async.fetch_multiple_reports E config pairs st).2.
Proof.
  induction pairs as [|[gid season] rest IH]; intros st Hall; cbn; [done|].
  apply Forall_cons in Hall as [Hgid Hrest]. cbn in Hgid.
  unfold Async._fetch_with_metadata.
  pose proof (Q_fetch gid season st Hgid) as H1.
  destruct (Async.fetch_report_with_retry E config gid season st) as [r st1].
  specialize (IH st1 Hrest).
  destruct (Async.fetch_multiple_reports E config rest st1) as [fetched st2].
  cbn [snd] in *. by eapply Q_trans.
Qed.

Lemma lift_fetch_all_one result w :
  allowed (Async.grower_id result) ->
  Q (st w) (st (AsyncCommand.fetch_all_seasons_for_one E config result w).2).
Proof.
  intros Hgid. unfold AsyncCommand.fetch_all_seasons_for_one.
  destruct (AsyncCommand.seasons_to_fetch _ _) as [|season missing] eqn:Hmiss; [done|].
  rewrite <- Hmiss.
  pose proof (lift_fetch_multiple
                (map (pair (Async.grower_id result))
                   (AsyncCommand.seasons_to_fetch (Async.first_season result)
                      (AsyncCommand.get_existing_seasons_for_grower (db w)
                         (Async.grower_id result))))
                (st w)) as H1.
  destruct (Async.fetch_multiple_reports E config _ (st w)) as [results s].
  cbn [snd] in H1.
  assert (Q (st w) s) as Hs.
  { apply H1. apply Forall_fmap, Forall_forall. by intros. }
  destruct (AsyncCommand.get_grower_by_id _ _); [|done].
  by destruct (AsyncCommand.save_seasonal_results _ _ _).
Qed.

Lemma lift_fetch_all results : forall w,
  Forall (fun r => allowed (Async.grower_id r)) results ->
  Q (st w) (st (AsyncCommand.fetch_all_seasons_for_discovered_growers E config
                  results w).2).
Proof.
  induction results as [|r rest IH]; intros w Hall; cbn; [done|].
  apply Forall_cons in Hall as [Hr Hrest].
  pose proof (lift_fetch_all_one r w Hr) as H1.
  destruct (AsyncCommand.fetch_all_seasons_for_one E config r w) as [saved w1].
  specialize (IH w1 Hrest).
  destruct (AsyncCommand.fetch_all_seasons_for_discovered_growers E config rest w1)
    as [total w2].
  cbn [snd] in *. by eapply Q_trans.
Qed.

Lemma lift_process_batch a b discover_only resume w :
  (forall gid, gid ∈ grower_ids_of a b ->
     (resume = true -> Models.Grower_exists (db w) gid = false) -> allowed gid) ->
  Q (st w) (st (AsyncCommand.process_batch E config a b discover_only resume w).2).
Proof.
  intros Hallowed. unfold AsyncCommand.process_batch.
  set (ids0 := grower_ids_of a b) in *.
  set (ids := if resume then _ else ids0).
  assert (Hids : Forall allowed ids).
  { apply Forall_forall. intros gid Hin. subst ids. destruct resume.
    - apply resume_filter_kept in Hin as [Hin Hno]. by apply Hallowed.
    - by apply Hallowed. }
  destruct ids as [|gid0 ids'] eqn:Heq; [done|].
  rewrite <- Heq in *. clear Heq gid0 ids'.
  pose proof (lift_discover_batch ids (st w) Hids) as H1.
  pose proof (discover_growers_batch_results E config ids (st w)) as Hres.
  destruct (Async.discover_growers_batch E config ids (st w)) as [results s].
  cbn [fst snd] in *. subst results.
  assert (Hall : Forall (fun r => allowed (Async.grower_id r))
                   (omap (async_discovery E config) ids)).
  { apply Forall_forall. intros r (gid & Hin & Hdisc)%list_elem_of_omap.
    apply async_discovery_source in Hdisc as [-> _].
    by eapply Forall_forall in Hids. }
  destruct (omap (async_discovery E config) ids) as [|r0 results'] eqn:Heq; [done|].
  rewrite <- Heq in *. clear Heq r0 results'.
  destruct discover_only; [done|].
  pose proof (lift_fetch_all (omap (async_discovery E config) ids)
                {| db := AsyncCommand.save_discovered_growers E
                           (omap (async_discovery E config) ids) (db w);
                   st := s |} Hall) as H2.
  destruct (AsyncCommand.fetch_all_seasons_for_discovered_growers E config _ _)
    as [saved w2].
  cbn [snd st] in *. by eapply Q_trans.
Qed.

Lemma lift_run_batches o starts : forall w,
  config = AsyncCommand.config_of o ->
  (forall bs gid, bs ∈ starts ->
     gid ∈ grower_ids_of bs (batch_end_of o bs) ->
     (AsyncCommand.opt_resume o = true -> Models.Grower_exists (db w) gid = false) ->
     allowed gid) ->
  Q (st w) (st (AsyncCommand.run_batches E o starts w).2).
Proof.
  induction starts as [|bs rest IH]; intros w Hconfig Hallowed; cbn; [done|].
  pose proof (lift_process_batch bs (batch_end_of o bs)
                (AsyncCommand.opt_discover_only o) (AsyncCommand.opt_resume o) w
                (fun gid => Hallowed bs gid (list_elem_of_here _ _))) as H1.
  pose proof (process_batch_grows E config bs (batch_end_of o bs)
                (AsyncCommand.opt_discover_only o) (AsyncCommand.opt_resume o) w)
    as Hsub.
  unfold batch_end_of in H1, Hsub. rewrite Hconfig in H1, Hsub.
  destruct (AsyncCommand.process_batch E _ bs _ _ _ w) as [[n m] w1].
  specialize (IH w1 Hconfig).
  destruct (AsyncCommand.run_batches E o rest w1) as [[n' m'] w2].
  cbn [snd] in *. eapply Q_trans; [exact H1|]. apply IH.
  intros bs' gid Hbs Hin Hno. apply (Hallowed bs'); [by apply list_elem_of_further|done|].
  intros Hresume.
  destruct (Models.Grower_exists (db w) gid) eqn:Hex; [|done].
  rewrite (Grower_exists_mono _ _ _ Hsub Hex) in Hno. by specialize (Hno Hresume).
Qed.

Lemma lift_handle o username password w :
  config = AsyncCommand.config_of o ->
  (forall i, AsyncCommand.opt_start o <= i <= AsyncCommand.opt_end o ->
     (AsyncCommand.opt_resume o = true ->
      Models.Grower_exists (db w) ("V" +:+ pretty i) = false) ->
     allowed ("V" +:+ pretty i)) ->
  Q (st w) (st (AsyncCommand.handle E o username password w).2).
Proof.
  intros Hconfig Hallowed. unfold AsyncCommand.handle.
  destruct (negb _); [done|].
  destruct (range_step _ _ _) as [starts|e] eqn:Hrange; [|done].
  pose proof (lift_run_batches o starts w Hconfig) as H1.
  destruct (AsyncCommand.run_batches E o starts w) as [[n m] w1].
  apply H1. intros bs gid Hbs Hin Hno.
  apply grower_ids_of_elem in Hin as (i & -> & Hi).
  apply Hallowed; [|done].
  pose proof (range_step_elem _ _ _ _ _ Hrange Hbs) as Hb.
  unfold batch_end_of in Hi. lia.
Qed.
End LiftAsync.

(* ------------------------------------------------------------------ *)
(** ** Which identifiers a run asks the portal about *)

Lemma posts_within_refl allowed st : posts_within allowed st st.
Proof. exists []. by rewrite app_nil_r. Qed.

Lemma posts_within_trans allowed a b c :
  posts_within allowed a b -> posts_within allowed b c -> posts_within allowed a c.
Proof.
  intros (d1 & H1 & F1) (d2 & H2 & F2). exists (d1 ++ d2).
  split; [by rewrite H2, H1, app_assoc | by apply Forall_app].
Qed.

Lemma posts_within_async_fetch E config (allowed : string -> Prop) gid season st :
  allowed gid ->
  posts_within allowed st (Async.fetch_report_with_retry E config gid season st).2.
Proof.
  intros Hgid. eexists. split; [apply async_fetch_posts|].
  apply Forall_forall. by intros p [-> _]%elem_of_replicate.
Qed.

(** X1.  Every analysis request the async command posts is for an
    identifier [V<i>] of the configured range, [start <= i <= end]; in
    resume mode none is for a grower the store held when the run began. *)
Theorem async_run_asks_only_about_its_range (E : Env) (o : AsyncCommand.Options)
    (username password : string) (w : World) :
  exists delta,
    posts (st (AsyncCommand.handle E o username password w).2)
    = posts (st w) ++ delta
    /\ forall gid season, (gid, season) ∈ delta ->
         (exists i, gid = "V" +:+ pretty i
                    /\ AsyncCommand.opt_start o <= i <= AsyncCommand.opt_end o)
         /\ (AsyncCommand.opt_resume o = true ->
             Models.Grower_exists (db w) gid = false).
Proof.
  set (allowed := fun gid : string =>
         (exists i, gid = "V" +:+ pretty i
                    /\ AsyncCommand.opt_start o <= i <= AsyncCommand.opt_end o)
         /\ (AsyncCommand.opt_resume o = true ->
             Models.Grower_exists (db w) gid = false)).
  destruct (lift_handle E (AsyncCommand.config_of o) (posts_within allowed) allowed
              (posts_within_refl allowed) (posts_within_trans allowed)
              (posts_within_async_fetch E (AsyncCommand.config_of o) allowed)
              (fun st => posts_within_refl allowed st)
              o username password w eq_refl) as (delta & Hposts & Hall).
  { intros i Hi Hno. split; [eauto | done]. }
  exists delta. split; [done|]. intros gid season Hin.
  rewrite Forall_forall in Hall. exact (Hall (gid, season) Hin).
Qed.

(* ------------------------------------------------------------------ *)
(** ** The counters of the async scraper *)

Lemma retry_loop_counters E config gid season (n : nat) : forall a st,
  a + Z.of_nat n = Async.max_retries config + 1 ->
  let s := stats st in
  let s' := stats (Async.retry_loop E config gid season (seqZ a (Z.of_nat n)) st).2 in
  let extra := (requests_made s' - requests_made s) - (retries s' - retries s)
               - (successful_requests s' - successful_requests s) in
  0 <= extra <= failed_requests s' - failed_requests s
  /\ retries s <= retries s'
  /\ successful_requests s <= successful_requests s'
  /\ growers_discovered s' = growers_discovered s.
Proof.
  induction n as [|n IH]; intros a st Ha; cbv zeta.
  { rewrite seqZ_nil by lia. cbn. lia. }
  rewrite seqZ_cons by lia. cbn [Async.retry_loop].
  replace (Z.pred (Z.of_nat (S n))) with (Z.of_nat n) by lia.
  unfold Async._fetch_single_report.
  assert (Hlast : ~ a < Async.max_retries config -> n = 0%nat) by lia.
  destruct (portal E gid season a) as [[]|html]; cbn [fst snd];
    try destruct (Async.parse_report E html); cbn [fst snd];
    try (cbn; lia);
    (destruct (Z.ltb_spec a (Async.max_retries config)) as [Hlt|Hge];
     [ match goal with
       | |- context [Async.retry_loop E config gid season _ ?st1] =>
           specialize (IH (Z.succ a) st1 ltac:(lia)); cbv zeta in IH;
           destruct (Async.retry_loop E config gid season _ st1) as [r st2];
           cbn in IH |- *; lia
       end
     | rewrite (Hlast ltac:(lia)); rewrite seqZ_nil by lia; cbn; lia ]).
Qed.

Lemma async_fetch_counters E config gid season st :
  let s := stats st in
  let s' := stats (Async.fetch_report_with_retry E config gid season st).2 in
  let extra := (requests_made s' - requests_made s) - (retries s' - retries s)
               - (successful_requests s' - successful_requests s) in
  0 <= extra <= failed_requests s' - failed_requests s
  /\ retries s <= retries s'
  /\ successful_requests s <= successful_requests s'
  /\ growers_discovered s' = growers_discovered s.
Proof.
  unfold Async.fetch_report_with_retry, range.
  destruct (Z.le_gt_cases (Async.max_retries config + 1) 0) as [Hneg|Hpos].
  - rewrite seqZ_nil by lia. cbn. lia.
  - replace (Async.max_retries config + 1 - 0)
      with (Z.of_nat (Z.to_nat (Async.max_retries config + 1))) by lia.
    apply retry_loop_counters. lia.
Qed.

Lemma bounded_async_fetch E config gid season st :
  bounded (stats st) ->
  bounded (stats (Async.fetch_report_with_retry E config gid season st).2).
Proof.
  pose proof (async_fetch_counters E config gid season st) as H. cbv zeta in H.
  unfold bounded. lia.
Qed.

(** X2.  The counters the async scraper reports stay consistent through
    a whole run of the command: [retries + successful_requests] never
    exceeds [requests_made], and [requests_made] never exceeds
    [retries + successful_requests + failed_requests]. *)
Theorem async_run_keeps_counters_bounded (E : Env) (o : AsyncCommand.Options)
    (username password : string) (w : World) :
  bounded (stats (st w)) ->
  bounded (stats (st (AsyncCommand.handle E o username password w).2)).
Proof.
  apply (lift_handle E (AsyncCommand.config_of o)
           (fun a b => bounded (stats a) -> bounded (stats b)) (fun _ => True)).
  - auto.
  - auto.
  - intros gid season st0' _. apply bounded_async_fetch.
  - auto.
  - done.
  - done.
Qed.

Lemma async_run_keeps_counters_bounded_witness :
  bounded (stats (st (AsyncCommand.handle fx_v3 fx_options "user" "secret"
                        fx_world0).2)).
Proof.
  apply (async_run_keeps_counters_bounded fx_v3 fx_options "user" "secret" fx_world0).
  unfold bounded. cbn. lia.
Defined.

(* ------------------------------------------------------------------ *)
(** ** The discovered count of the summary *)

Lemma async_discover_loop_count E config gid years : forall st,
  let r := Async.discover_loop E config gid years st in
  growers_discovered (stats r.2)
  = growers_discovered (stats st) + match r.1 with Some _ => 1 | None => 0 end.
Proof.
  induction years as [|y l IH]; intros st; cbv zeta; cbn [Async.discover_loop].
  { cbn. lia. }
  pose proof (async_fetch_counters E config gid y st) as (_ & _ & _ & Hgd).
  destruct (Async.fetch_report_with_retry E config gid y st) as [[report|] st1];
    cbn [fst snd] in *.
  - destruct (has_name report); cbn [fst snd].
    + cbn. lia.
    + rewrite IH. lia.
  - rewrite IH. lia.
Qed.

Lemma async_discover_batch_count E config ids : forall st,
  let r := Async.discover_growers_batch E config ids st in
  growers_discovered (stats r.2)
  = growers_discovered (stats st) + Z.of_nat (length r.1).
Proof.
  induction ids as [|gid rest IH]; intros st; cbv zeta; cbn; [lia|].
  pose proof (async_discover_loop_count E config gid
                (range start_year (current_year + 1)) st) as H1.
  unfold Async.discover_grower_first_season. cbv zeta in H1.
  destruct (Async.discover_loop E config gid _ st) as [result st1].
  specialize (IH st1). cbv zeta in IH.
  destruct (Async.discover_growers_batch E config rest st1) as [found st2].
  cbn [fst snd] in *. destruct result; cbn [length]; lia.
Qed.

Lemma async_fetch_all_keeps_discovered E config results w :
  growers_discovered
    (stats (st (AsyncCommand.fetch_all_seasons_for_discovered_growers E config
                  results w).2))
  = growers_discovered (stats (st w)).
Proof.
  apply (lift_fetch_all E config
           (fun a b => growers_discovered (stats b) = growers_discovered (stats a))
           (fun _ => True)).
  - done.
  - intros a b c Hab Hbc. congruence.
  - intros gid season st0' _. apply async_fetch_counters.
  - by apply Forall_forall.
Qed.

Lemma async_process_batch_count E config a b discover_only resume w :
  let r := AsyncCommand.process_batch E config a b discover_only resume w in
  growers_discovered (stats (st r.2))
  = growers_discovered (stats (st w)) + r.1.1
  /\ 0 <= r.1.1.
Proof.
  cbv zeta. unfold AsyncCommand.process_batch.
  destruct (if resume then _ else _) as [|gid ids]; [cbn; lia|].
  pose proof (async_discover_batch_count E config (gid :: ids) (st w)) as H1.
  cbv zeta in H1.
  destruct (Async.discover_growers_batch E config _ (st w)) as [[|r results] s];
    [cbn in *; lia|].
  destruct discover_only; [cbn [fst snd st] in *; lia|].
  pose proof (async_fetch_all_keeps_discovered E config (r :: results)
                {| db := AsyncCommand.save_discovered_growers E (r :: results) (db w);
                   st := s |}) as H2.
  destruct (AsyncCommand.fetch_all_seasons_for_discovered_growers E config _ _)
    as [saved w2].
  cbn [fst snd st] in *. lia.
Qed.

Lemma async_run_batches_count E o starts : forall w,
  let r := AsyncCommand.run_batches E o starts w in
  growers_discovered (stats (st r.2))
  = growers_discovered (stats (st w)) + r.1.1
  /\ 0 <= r.1.1.
Proof.
  induction starts as [|bs rest IH]; intros w; cbv zeta; cbn; [lia|].
  pose proof (async_process_batch_count E (AsyncCommand.config_of o) bs
                (batch_end_of o bs) (AsyncCommand.opt_discover_only o)
                (AsyncCommand.opt_resume o) w) as H1.
  cbv zeta in H1. unfold batch_end_of in H1.
  destruct (AsyncCommand.process_batch E _ bs _ _ _ w) as [[n m] w1].
  specialize (IH w1). cbv zeta in IH.
  destruct (AsyncCommand.run_batches E o rest w1) as [[n' m'] w2].
  cbn [fst snd] in *. lia.
Qed.

(** X3.  When the async command completes, the number of discovered
    growers it reports is the amount by which the scraper's
    [growers_discovered] counter went up during the run, and it is not
    negative. *)
Theorem async_summary_matches_discovered_counter (E : Env)
    (o : AsyncCommand.Options) (username password : string) (w : World)
    (total_discovered total_reports_saved : Z) :
  (AsyncCommand.handle E o username password w).1
  = Completed total_discovered total_reports_saved ->
  growers_discovered (stats (st (AsyncCommand.handle E o username password w).2))
  = growers_discovered (stats (st w)) + total_discovered
  /\ 0 <= total_discovered.
Proof.
  unfold AsyncCommand.handle. destruct (negb _); [done|].
  destruct (range_step _ _ _) as [starts|e]; [|done].
  pose proof (async_run_batches_count E o starts w) as H1. cbv zeta in H1.
  destruct (AsyncCommand.run_batches E o starts w) as [[n m] w1].
  cbn [fst snd] in *. by intros [= <- <-].
Qed.

Lemma async_summary_matches_discovered_counter_witness :
  growers_discovered
    (stats (st (AsyncCommand.handle fx_v3 fx_options "user" "secret" fx_world0).2))
  = 0 + 1
  /\ 0 <= 1.
Proof.
  apply (async_summary_matches_discovered_counter fx_v3 fx_options "user" "secret"
           fx_world0 1 0).
  vm_compute. reflexivity.
Defined.

(* ------------------------------------------------------------------ *)
(** ** What discovery returns is a true first season *)

Lemma async_discover_loop_sound E config gid (n : nat) : forall a st r,
  (Async.discover_loop E config gid (seqZ a (Z.of_nat n)) st).1 = Some r ->
  Async.grower_id r = gid
  /\ a <= Async.first_season r < a + Z.of_nat n
  /\ async_lookup E config gid (Async.first_season r) = Some (Async.first_report_data r)
  /\ has_name (Async.first_report_data r) = true
  /\ forall q, a <= q < Async.first_season r ->
       present (async_lookup E config gid q) = false.
Proof.
  induction n as [|n IH]; intros a st r.
  { by rewrite seqZ_nil by lia. }
  rewrite seqZ_cons by lia. cbn [Async.discover_loop].
  replace (Z.pred (Z.of_nat (S n))) with (Z.of_nat n) by lia.
  rewrite async_fetch_frame.
  set (st1 := st_add st _).
  assert (Hrest : present (async_lookup E config gid a) = false ->
            (Async.discover_loop E config gid (seqZ (Z.succ a) (Z.of_nat n)) st1).1
            = Some r ->
            Async.grower_id r = gid
            /\ a <= Async.first_season r < a + Z.of_nat (S n)
            /\ async_lookup E config gid (Async.first_season r)
               = Some (Async.first_report_data r)
            /\ has_name (Async.first_report_data r) = true
            /\ forall q, a <= q < Async.first_season r ->
                 present (async_lookup E config gid q) = false).
  { intros Ha Hr. destruct (IH _ _ _ Hr) as (H1 & H2 & H3 & H4 & H5).
    repeat split; try done; try lia.
    intros q Hq. destruct (decide (q = a)) as [->|Hne]; [done|]. apply H5. lia. }
  destruct (async_lookup E config gid a) as [report|] eqn:Hlook; [|by apply Hrest].
  destruct (has_name report) eqn:Hname; [|by apply Hrest].
  cbn. intros [= <-]. cbn. repeat split; try done; try lia.
Qed.

Lemma async_discovery_sound E config gid r :
  async_discovery E config gid = Some r ->
  Async.grower_id r = gid
  /\ true_first_season (async_lookup E config gid) (Async.first_season r)
       (Async.first_report_data r).
Proof.
  unfold async_discovery, Async.discover_grower_first_season, range.
  intros Hr.
  apply (async_discover_loop_sound E config gid 8 start_year) in Hr
    as (H1 & H2 & H3 & H4 & H5).
  split; [done|]. unfold true_first_season, start_year, current_year in *.
  repeat split; try done; try lia.
Qed.

Lemma threaded_discover_loop_sound E gid (n : nat) : forall a st year report,
  (Threaded.discover_loop E gid (seqZ a (Z.of_nat n)) st).1
  = Ok (Some (gid, year, report)) ->
  a <= year < a + Z.of_nat n
  /\ threaded_lookup E gid year = Some report
  /\ has_name report = true
  /\ forall q, a <= q < year -> present (threaded_lookup E gid q) = false.
Proof.
  induction n as [|n IH]; intros a st year report.
  { by rewrite seqZ_nil by lia. }
  rewrite seqZ_cons by lia. cbn [Threaded.discover_loop].
  replace (Z.pred (Z.of_nat (S n))) with (Z.of_nat n) by lia.
  destruct gid as [|c gid'] eqn:Hgid; [done|]. rewrite <- Hgid in *.
  assert (Hne : gid <> EmptyString) by (by rewrite Hgid).
  rewrite threaded_fetch_frame by done.
  set (st1 := st_add st _).
  assert (Hrest : present (threaded_lookup E gid a) = false ->
            (Threaded.discover_loop E gid (seqZ (Z.succ a) (Z.of_nat n)) st1).1
            = Ok (Some (gid, year, report)) ->
            a <= year < a + Z.of_nat (S n)
            /\ threaded_lookup E gid year = Some report
            /\ has_name report = true
            /\ forall q, a <= q < year -> present (threaded_lookup E gid q) = false).
  { intros Ha Hr. destruct (IH _ _ _ _ Hr) as (H2 & H3 & H4 & H5).
    repeat split; try done; try lia.
    intros q Hq. destruct (decide (q = a)) as [->|Hneq]; [done|]. apply H5. lia. }
  destruct (threaded_lookup E gid a) as [rep|] eqn:Hlook; [|by apply Hrest].
  destruct (has_name rep) eqn:Hname; [|by apply Hrest].
  cbn. intros [= <- <-]. repeat split; try done; try lia.
Qed.

Lemma threaded_discover_loop_id E gid years : forall st g year report,
  (Threaded.discover_loop E gid years st).1 = Ok (Some (g, year, report)) -> g = gid.
Proof.
  induction years as [|y l IH]; intros st g year report; cbn [Threaded.discover_loop];
    [done|].
  destruct (Threaded.fetch_report E gid y st) as [[[rep|]|e] st1]; try done;
    try apply IH.
  destruct (has_name rep); [|apply IH]. cbn. by intros [= <- _ _].
Qed.

Lemma threaded_batch_results E ids : forall st x,
  x ∈ (Threaded.discover_growers_threaded E ids st).1 ->
  exists gid st', gid ∈ ids
    /\ (Threaded.discover_grower_first_season E gid st').1 = Ok (Some x).
Proof.
  induction ids as [|gid rest IH]; intros st x; cbn.
  { by intros ?%elem_of_nil. }
  destruct (Threaded.discover_grower_first_season E gid st) as [result st1] eqn:Hd.
  specialize (IH st1 x).
  destruct (Threaded.discover_growers_threaded E rest st1) as [found st2].
  cbn [fst] in *.
  assert (Hfound : x ∈ found -> exists gid0 st', gid0 ∈ gid :: rest
            /\ (Threaded.discover_grower_first_season E gid0 st').1 = Ok (Some x)).
  { intros Hx. destruct (IH Hx) as (g & st' & Hin & Hres).
    exists g, st'. split; [by apply list_elem_of_further | done]. }
  destruct result as [[r|]|e]; try done.
  intros [->|Hx]%elem_of_cons; [|by apply Hfound].
  exists gid, st. split; [apply list_elem_of_here | by rewrite Hd].
Qed.

Lemma omap_sublist {A B} (f : A -> option B) (g : B -> A) (l : list A) :
  (forall x y, f x = Some y -> g y = x) -> map g (omap f l) `sublist_of` l.
Proof.
  intros Hfg. induction l as [|x l IH]; cbn; [done|].
  destruct (f x) as [y|] eqn:Hy; cbn.
  - rewrite (Hfg x y Hy). by apply sublist_skip.
  - by apply sublist_cons.
Qed.

(** X4.  Whatever the portal answers, every result of batch discovery is
    sound: its identifier is one of the batch, its first season lies in
    2018..2025, the lookup of that season gives the reported data with a
    non-empty name, and no earlier season of the range has a report with
    a name.  In the async scraper the results come in the order of the
    batch, at most one per identifier. *)
Theorem discovery_results_are_true_first_seasons (E : Env)
    (config : Async.ScrapingConfig) (ids : list string) (st : St) :
  Forall (fun r =>
            Async.grower_id r ∈ ids
            /\ true_first_season (async_lookup E config (Async.grower_id r))
                 (Async.first_season r) (Async.first_report_data r))
         (Async.discover_growers_batch E config ids st).1
  /\ map Async.grower_id (Async.discover_growers_batch E config ids st).1
     `sublist_of` ids
  /\ Forall (fun x =>
               x.1.1 ∈ ids
               /\ true_first_season (threaded_lookup E x.1.1) x.1.2 x.2)
            (Threaded.discover_growers_threaded E ids st).1.
Proof.
  rewrite discover_growers_batch_results. split; [|split].
  - apply Forall_forall. intros r (gid & Hin & Hdisc)%list_elem_of_omap.
    apply async_discovery_sound in Hdisc as [-> Hfirst]. done.
  - apply omap_sublist. intros gid r Hdisc.
    by apply async_discovery_sound in Hdisc as [-> _].
  - apply Forall_forall. intros [[g year] report] Hx.
    apply threaded_batch_results in Hx as (gid & st' & Hin & Hres).
    unfold Threaded.discover_grower_first_season in Hres.
    pose proof (threaded_discover_loop_id _ _ _ _ _ _ _ Hres) as ->.
    unfold range in Hres.
    apply (threaded_discover_loop_sound E gid 8 2018) in Hres as (H2 & H3 & H4 & H5).
    cbn. split; [done|]. unfold true_first_season, start_year, current_year.
    repeat split; try done; try lia.
Qed.

(* ------------------------------------------------------------------ *)
(** ** The threaded command and the store *)

Lemma Grower_get_or_create_any pk defaults d :
  let r := Models.Grower_get_or_create pk defaults d in
  match r.1 with
  | Raise e => r.2 = d
  | Ok g =>
      g ∈ Models.growers r.2
      /\ (r.2 = d \/ Models.growers r.2 = Models.growers d ++ [g])
      /\ Models.seasonal_reports r.2 = Models.seasonal_reports d
  end.
Proof.
  cbv zeta. unfold Models.Grower_get_or_create. destruct pk as [pk|]; [|done].
  destruct (Models.Grower_get d pk) as [g|] eqn:Hget; cbn.
  - split; [|by split; [left|]].
    unfold Models.Grower_get in Hget. apply find_some in Hget as [Hin _].
    by apply list_elem_of_In.
  - unfold Models.Grower_create. destruct (_ || _)%bool; cbn; [done|].
    split; [apply elem_of_app; right; apply list_elem_of_here|].
    split; [by right | done].
Qed.

Lemma threaded_create_grower_spec E report d :
  let r := ThreadedCommand.create_grower_from_report E report d in
  match r.1 with
  | Raise e => r.2 = d
  | Ok g =>
      g ∈ Models.growers r.2
      /\ (r.2 = d \/ Models.growers r.2 = Models.growers d ++ [g])
      /\ Models.seasonal_reports r.2 = Models.seasonal_reports d
  end.
Proof.
  cbv zeta. unfold ThreadedCommand.create_grower_from_report.
  destruct (match must_know_info report !! "first_sales_record_found" with
            | Some v => _ | None => _ end) as [fsy|e]; [|done].
  apply Grower_get_or_create_any.
Qed.

Lemma threaded_grade_items_same_core key items : forall d,
  same_core d (ThreadedCommand.create_grade_items key items d).2.
Proof.
  induction items as [|item rest IH]; intros d; cbn; [done|].
  unfold Models.GradeAnalysis_create.
  destruct (mass_kg item), (value_usd item), (grade_average_price_usd item);
    cbn; try done.
  eapply same_core_trans; [|apply IH]. done.
Qed.

Lemma threaded_creditor_items_same_core key items : forall d,
  same_core d (ThreadedCommand.create_creditor_items key items d).
Proof.
  induction items as [|item rest IH]; intros d; cbn; [done|].
  destruct (str_truthy _); [|apply IH].
  eapply same_core_trans; [|apply IH].
  unfold Models.CreditorRecovery_create, Models.Creditor_get_or_create.
  by case_bool_decide.
Qed.

(** The threaded [create_seasonal_data]: the growers stay, and the
    seasonal reports stay or get one row under the key asked for. *)
Lemma threaded_create_seasonal_data_spec g season report d :
  let r := ThreadedCommand.create_seasonal_data g season report d in
  Models.growers r.2 = Models.growers d
  /\ (Models.seasonal_reports r.2 = Models.seasonal_reports d
      \/ exists row,
           report_key row = (Models.grower_number g, season)
           /\ Models.SeasonalReport_exists d (Models.grower_number g) season = false
           /\ Models.seasonal_reports r.2 = Models.seasonal_reports d ++ [row])
  /\ (r.1 = Ok tt ->
      Models.SeasonalReport_exists r.2 (Models.grower_number g) season = true).
Proof.
  cbv zeta. unfold ThreadedCommand.create_seasonal_data.
  destruct (Models.SeasonalReport_exists d (Models.grower_number g) season) eqn:Hex.
  { cbn. repeat split; auto. }
  match goal with
  | |- context [let '(contractor, d0) := ?c in _] =>
      assert (Hc : same_core d c.2);
      [| destruct c as [c0 d1] ]
  end.
  { assert (Hadd : forall n, same_core d (Models.Contractor_get_or_create n d)).
    { intros n. unfold Models.Contractor_get_or_create. by case_bool_decide. }
    repeat (match goal with
            | |- context [match ?x with _ => _ end] => destruct x
            end; cbn; try apply same_core_refl; try apply Hadd). }
  destruct Hc as [Hg1 Hr1]. cbn in Hg1, Hr1.
  unfold Models.SeasonalReport_create. cbn [Models.grower Models.season_year].
  assert (Hex1 : Models.SeasonalReport_exists d1 (Models.grower_number g) season = false).
  { unfold Models.SeasonalReport_exists in *. by rewrite Hr1. }
  rewrite Hex1. cbn [orb].
  destruct (_ || _)%bool; cbn; [repeat split; auto; done|].
  set (row := Models.Build_SeasonalReport _ _ _ _ _ _ _).
  set (d2 := Models.Build_Db _ _ _ _ _ _).
  pose proof (threaded_grade_items_same_core (Models.grower_number g, season)
                (grade_analysis report) d2) as [Hg3 Hr3].
  destruct (ThreadedCommand.create_grade_items _ _ d2) as [[[]|e] d3]; cbn in *.
  - pose proof (threaded_creditor_items_same_core (Models.grower_number g, season)
                  (creditor_recoveries report) d3) as [Hg4 Hr4].
    split; [congruence|]. split.
    + right. exists row. repeat split. rewrite Hr4, Hr3. by rewrite Hr1.
    + intros _. apply SeasonalReport_exists_key. rewrite Hr4, Hr3, map_app.
      apply elem_of_app. right. cbn. apply list_elem_of_here.
  - split; [congruence|]. split; [|done].
    right. exists row. repeat split. rewrite Hr3. by rewrite Hr1.
Qed.

(* ------------------------------------------------------------------ *)
(** ** Persisting one season: all or nothing *)

Lemma grade_items_outcome key items : forall d,
  let r := AsyncCommand.create_grade_items key items d in
  match r.1 with
  | Ok _ =>
      Forall (fun item => ~ incomplete_grade item) items
      /\ exists rows,
           Models.grade_analyses r.2 = Models.grade_analyses d ++ rows
           /\ map Models.ga_grade_name rows = map grade_name items
           /\ Forall (fun row => Models.ga_seasonal_report row = key) rows
  | Raise e => e = IntegrityError /\ Exists incomplete_grade items
  end.
Proof.
  induction items as [|item rest IH]; intros d; cbv zeta; cbn.
  { split; [done|]. exists []. by rewrite app_nil_r. }
  unfold Models.GradeAnalysis_create, incomplete_grade.
  destruct (mass_kg item) as [m|] eqn:Hm; [|split; [done|]; apply Exists_cons; auto].
  destruct (value_usd item) as [v|] eqn:Hv; [|split; [done|]; apply Exists_cons; auto].
  destruct (grade_average_price_usd item) as [p|] eqn:Hp;
    [|split; [done|]; apply Exists_cons; auto].
  match goal with
  | |- context [AsyncCommand.create_grade_items key rest ?d1] =>
      specialize (IH d1); cbv zeta in IH;
      destruct (AsyncCommand.create_grade_items key rest d1) as [[[]|e] d2]
  end; cbn [fst snd] in *.
  - destruct IH as (Hall & rows & Hrows & Hnames & Hkeys). split.
    + apply Forall_cons. split; [|done]. unfold incomplete_grade.
      rewrite Hm, Hv, Hp. by intros [|[|]].
    + eexists (_ :: rows). rewrite Hrows. cbn. rewrite <- app_assoc. cbn.
      split; [done|]. split; [by rewrite Hnames|]. by apply Forall_cons.
  - destruct IH as [-> Hex]. split; [done|]. by apply Exists_cons_tl.
Qed.

Lemma create_seasonal_data_incomplete_grade g season report d :
  Models.SeasonalReport_exists d (Models.grower_number g) season = false ->
  Exists incomplete_grade (grade_analysis report) ->
  AsyncCommand.create_seasonal_data g season report d = (Raise IntegrityError, d).
Proof.
  intros Hfree Hbad. unfold AsyncCommand.create_seasonal_data, Models.atomic.
  rewrite Hfree.
  pose proof (contractor_same_core report season d) as [_ Hr1].
  destruct (AsyncCommand._get_or_create_contractor report season d) as [c d1].
  cbn [snd] in Hr1.
  unfold Models.SeasonalReport_create. cbn [Models.grower Models.season_year].
  assert (Hex1 : Models.SeasonalReport_exists d1 (Models.grower_number g) season = false).
  { unfold Models.SeasonalReport_exists in *. by rewrite Hr1. }
  rewrite Hex1. cbn [orb]. destruct (_ || _)%bool; [done|].
  match goal with
  | |- context [AsyncCommand.create_grade_items ?k ?items ?d2] =>
      pose proof (grade_items_outcome k items d2) as Hout; cbv zeta in Hout;
      destruct (AsyncCommand.create_grade_items k items d2) as [[[]|e] d3]
  end; cbn [fst snd] in *.
  - destruct Hout as [Hall _]. apply Exists_exists in Hbad as (item & Hin & Hbad).
    rewrite Forall_forall in Hall. by destruct (Hall item Hin).
  - by destruct Hout as [-> _].
Qed.

Lemma create_seasonal_data_stores g season report d :
  let r := AsyncCommand.create_seasonal_data g season report d in
  Models.SeasonalReport_exists d (Models.grower_number g) season = false ->
  r.1 = Ok tt ->
  (exists row,
     report_key row = (Models.grower_number g, season)
     /\ Models.seasonal_reports r.2 = Models.seasonal_reports d ++ [row])
  /\ exists rows,
       Models.grade_analyses r.2 = Models.grade_analyses d ++ rows
       /\ map Models.ga_grade_name rows = map grade_name (grade_analysis report)
       /\ Forall (fun row => Models.ga_seasonal_report row
                             = (Models.grower_number g, season)) rows.
Proof.
  cbv zeta.
  unfold AsyncCommand.create_seasonal_data, Models.atomic.
  assert (Hcontractor : forall d0,
            Models.grade_analyses (AsyncCommand._get_or_create_contractor report season d0).2
            = Models.grade_analyses d0).
  { intros d0. unfold AsyncCommand._get_or_create_contractor.
    assert (Hadd : forall n, Models.grade_analyses (Models.Contractor_get_or_create n d0)
                             = Models.grade_analyses d0).
    { intros n. unfold Models.Contractor_get_or_create. by case_bool_decide. }
    repeat (match goal with
            | |- context [match ?x with _ => _ end] => destruct x
            end; cbn; try done; try apply Hadd). }
  assert (Hcreditors : forall items d0,
            Models.grade_analyses
              (AsyncCommand.create_creditor_items (Models.grower_number g, season)
                 items d0)
            = Models.grade_analyses d0).
  { induction items as [|item rest IH]; intros d0; cbn; [done|].
    destruct (str_truthy _); [|apply IH]. rewrite IH.
    unfold Models.CreditorRecovery_create, Models.Creditor_get_or_create.
    by case_bool_decide. }
  intros Hfree. rewrite Hfree.
    pose proof (contractor_same_core report season d) as [_ Hr1].
    pose proof (Hcontractor d) as Hga1.
    destruct (AsyncCommand._get_or_create_contractor report season d) as [c d1].
    cbn [snd] in Hr1, Hga1.
    unfold Models.SeasonalReport_create. cbn [Models.grower Models.season_year].
    assert (Hex1 : Models.SeasonalReport_exists d1 (Models.grower_number g) season = false).
    { unfold Models.SeasonalReport_exists in *. by rewrite Hr1. }
    rewrite Hex1. cbn [orb]. destruct (_ || _)%bool; [done|].
    set (row := Models.Build_SeasonalReport _ _ _ _ _ _ _).
    match goal with
    | |- context [AsyncCommand.create_grade_items ?k ?items ?d2] =>
        pose proof (grade_items_outcome k items d2) as Hout; cbv zeta in Hout;
        pose proof (grade_items_same_core k items d2) as [_ Hr3];
        destruct (AsyncCommand.create_grade_items k items d2) as [[[]|e] d3]
    end; cbn [fst snd] in *; [|done].
    intros _. destruct Hout as (_ & rows & Hrows & Hnames & Hkeys).
    pose proof (creditor_items_same_core (Models.grower_number g, season)
                  (creditor_recoveries report) d3) as [_ Hr4].
    split.
    + exists row. split; [done|]. rewrite Hr4, Hr3. cbn. by rewrite Hr1.
    + exists rows. rewrite Hcreditors, Hrows. cbn. by rewrite Hga1.
Qed.

(** X5.  [create_seasonal_data] is all or nothing.  When it raises, the
    store is left exactly as it was, contractor included.  For a pair that
    is not stored yet it raises as soon as one grade entry of the report
    lacks an amount; and when it returns for such a pair, the store has
    one more seasonal report, under that pair, and one grade row per entry
    of the report, in order, each pointing at that pair. *)
Theorem create_seasonal_data_all_or_nothing (g : Models.Grower) (season : Z)
    (report : Report) (d : Models.Db) :
  let r := AsyncCommand.create_seasonal_data g season report d in
  (forall e, r.1 = Raise e -> r.2 = d)
  /\ (Models.SeasonalReport_exists d (Models.grower_number g) season = false ->
      Exists incomplete_grade (grade_analysis report) ->
      r = (Raise IntegrityError, d))
  /\ (Models.SeasonalReport_exists d (Models.grower_number g) season = false ->
      r.1 = Ok tt ->
      (exists row,
         report_key row = (Models.grower_number g, season)
         /\ Models.seasonal_reports r.2 = Models.seasonal_reports d ++ [row])
      /\ exists rows,
           Models.grade_analyses r.2 = Models.grade_analyses d ++ rows
           /\ map Models.ga_grade_name rows = map grade_name (grade_analysis report)
           /\ Forall (fun row => Models.ga_seasonal_report row
                                 = (Models.grower_number g, season)) rows).
Proof.
  cbv zeta. split; [apply create_seasonal_data_spec|].
  split; [apply create_seasonal_data_incomplete_grade|].
  apply create_seasonal_data_stores.
Qed.

(* ------------------------------------------------------------------ *)
(** ** The batch loop cuts the range into consecutive pieces *)

Lemma range_split a b c : a <= b <= c -> range a b ++ range b c = range a c.
Proof.
  intros H. unfold range.
  replace (c - a) with ((b - a) + (c - b)) by lia.
  rewrite seqZ_app by lia. do 2 f_equal. lia.
Qed.

Lemma range_empty a b : b <= a -> range a b = [].
Proof. intros H. unfold range, seqZ. by replace (Z.to_nat (b - a)) with 0%nat by lia. Qed.

Lemma batch_ranges_concat end_id batch_size (Hpos : 0 < batch_size) :
  forall (k : nat) start_id,
    Z.to_nat ((end_id + 1 - start_id + batch_size - 1) / batch_size) = k ->
    concat (map (fun i => range (start_id + i * batch_size)
                             (Z.min (start_id + i * batch_size + batch_size - 1) end_id + 1))
              (seqZ 0 ((end_id + 1 - start_id + batch_size - 1) / batch_size)))
    = range start_id (end_id + 1).
Proof.
  induction k as [|k IH]; intros start_id Hk.
  - unfold seqZ at 1. rewrite Hk. cbn. symmetry. apply range_empty.
    assert ((end_id + 1 - start_id + batch_size - 1) / batch_size <= 0) as Hn by lia.
    destruct (Z.le_gt_cases (end_id + 1) start_id) as [|Hgt]; [done|].
    assert (1 <= (end_id + 1 - start_id + batch_size - 1) / batch_size); [|lia].
    apply Z.div_le_lower_bound; lia.
  - set (n := (end_id + 1 - start_id + batch_size - 1) / batch_size) in *.
    assert (1 <= n) as Hn by lia.
    assert (start_id <= end_id) as Hle.
    { destruct (Z.le_gt_cases start_id end_id) as [|Hgt]; [done|].
      assert (n <= 0); [|lia]. subst n.
      assert ((end_id + 1 - start_id + batch_size - 1) / batch_size < 1); [|lia].
      apply Z.div_lt_upper_bound; lia. }
    assert (Hnext : (end_id + 1 - (start_id + batch_size) + batch_size - 1) / batch_size
                    = n - 1).
    { subst n.
      replace (end_id + 1 - (start_id + batch_size) + batch_size - 1)
        with ((end_id + 1 - start_id + batch_size - 1) + (-1) * batch_size) by lia.
      rewrite Z.div_add by lia. lia. }
    rewrite seqZ_cons by lia. cbn [map concat].
    replace (Z.succ 0) with (1 + 0) by lia.
    rewrite <- fmap_add_seqZ. replace (Z.pred n) with (n - 1) by lia.
    change (map ?f (Z.add 1 <$> ?l)) with (map f (map (Z.add 1) l)).
    rewrite map_map. cbv beta.
    rewrite (map_ext _
               (fun i => range (start_id + batch_size + i * batch_size)
                           (Z.min (start_id + batch_size + i * batch_size
                                   + batch_size - 1) end_id + 1)))
      by (intros; f_equal; lia).
    rewrite <- Hnext, IH by lia.
    replace (start_id + 0 * batch_size) with start_id by lia.
    destruct (Z.le_gt_cases (start_id + batch_size - 1) end_id) as [Hfull|Hshort].
    + rewrite Z.min_l by done.
      replace (start_id + batch_size - 1 + 1) with (start_id + batch_size) by lia.
      apply range_split. lia.
    + rewrite Z.min_r by lia.
      rewrite (range_empty (start_id + batch_size)) by lia. apply app_nil_r.
Qed.

(** X6.  With a positive batch size the batch loop of both concurrent
    commands cuts the range [[start, end]] into consecutive batches: the
    identifiers of the batches, one batch after the other, are exactly the
    identifiers of the whole range in ascending order, each one once. *)
Theorem batches_cover_the_range_once (start_id end_id batch_size : Z) :
  0 < batch_size ->
  exists batch_starts,
    range_step start_id (end_id + 1) batch_size = Ok batch_starts
    /\ concat (map (fun batch_start =>
                      grower_ids_of batch_start
                        (Z.min (batch_start + batch_size - 1) end_id))
                 batch_starts)
       = grower_ids_of start_id end_id.
Proof.
  intros Hpos. unfold range_step.
  destruct (Z.eqb_spec batch_size 0) as [|_]; [lia|].
  destruct (Z.ltb_spec 0 batch_size) as [_|]; [|lia].
  eexists. split; [done|]. unfold grower_ids_of.
  rewrite <- (batch_ranges_concat end_id batch_size Hpos _ start_id eq_refl).
  rewrite concat_map, !map_map. done.
Qed.

Lemma batches_cover_the_range_once_witness :
  0 < 100 /\
  exists batch_starts,
    range_step 100000 (100250 + 1) 100 = Ok batch_starts
    /\ concat (map (fun batch_start =>
                      grower_ids_of batch_start
                        (Z.min (batch_start + 100 - 1) 100250))
                 batch_starts)
       = grower_ids_of 100000 100250.
Proof. split; [lia|]. apply (batches_cover_the_range_once 100000 100250 100). lia. Defined.

(* ------------------------------------------------------------------ *)
(** ** [grower_detail]: the active tab *)

Lemma filter_key_unique pk year (l : list Models.SeasonalReport) :
  NoDup (map report_key l) ->
  let p := fun r => (String.eqb (Models.grower r) pk
                     && (Models.season_year r =? year))%bool in
  match List.filter p l with
  | [] => existsb p l = false
  | [r] => r ∈ l /\ report_key r = (pk, year) /\ existsb p l = true
  | _ => False
  end.
Proof.
  cbv zeta. induction l as [|a l IH]; cbn; [done|].
  intros [Hnotin Hnd]%NoDup_cons. specialize (IH Hnd).
  destruct (String.eqb (Models.grower a) pk && (Models.season_year a =? year))%bool
    eqn:Hp; cbn.
  - apply andb_true_iff in Hp as [Hg%String.eqb_eq Hy%Z.eqb_eq].
    destruct (List.filter _ l) as [|r [|r' rest]].
    + split; [apply elem_of_cons; by left|]. split; [|done].
      unfold report_key. by rewrite Hg, Hy.
    + destruct IH as (Hin & Hkey & _). destruct Hnotin.
      apply list_elem_of_fmap. exists r. split; [|done].
      rewrite Hkey. unfold report_key. by rewrite Hg, Hy.
    + done.
  - destruct (List.filter _ l) as [|r [|r' rest]]; [done| |done].
    destruct IH as (Hin & Hkey & Hex). split; [apply elem_of_cons; by right|done].
Qed.

Lemma SeasonalReport_get_unique d pk year :
  unique_reports d ->
  match Views.SeasonalReport_get d pk year with
  | Views.DoesNotExist => Models.SeasonalReport_exists d pk year = false
  | Views.Got r =>
      r ∈ Models.seasonal_reports d /\ report_key r = (pk, year)
      /\ Models.SeasonalReport_exists d pk year = true
  | Views.MultipleObjectsReturned => False
  end.
Proof.
  intros Hu. unfold Views.SeasonalReport_get, Models.SeasonalReport_exists.
  pose proof (filter_key_unique pk year _ Hu) as H. cbv zeta in H.
  by destruct (List.filter _ _) as [|r [|r' rest]].
Qed.

Lemma build_reports_unique d pk ys :
  unique_reports d ->
  Views.build_reports d pk ys = Some (map (fun y => (y, year_tab d pk y)) ys).
Proof.
  intros Hu. induction ys as [|y ys IH]; cbn; [done|].
  unfold year_tab. pose proof (SeasonalReport_get_unique d pk y Hu) as H.
  destruct (Views.SeasonalReport_get d pk y); [| |done]; by rewrite IH.
Qed.

Lemma reports_get_map (f : Z -> option Views.YearTab) ys y :
  y ∈ ys -> Views.reports_get (map (fun y => (y, f y)) ys) y = f y.
Proof.
  induction ys as [|a ys IH]; [by intros ?%elem_of_nil|].
  intros Hin. cbn. destruct (Z.eqb_spec a y) as [->|Hne]; [done|].
  apply IH. apply elem_of_cons in Hin as [|]; [congruence|done].
Qed.

Lemma years_elem y : y ∈ Views.years <-> 2018 <= y <= 2026.
Proof. unfold Views.years, range. rewrite elem_of_seqZ. lia. Qed.

Lemma requested_year_spec E year_param :
  exists requested,
    Views.requested_year E year_param = Ok requested
    /\ forall n, requested = Some n <-> valid_year_param E year_param n.
Proof.
  unfold Views.requested_year, valid_year_param.
  destruct year_param as [s|].
  2:{ exists None. split; [done|]. intros n. split; [done|]. by intros (s & ? & _). }
  destruct (str_truthy s) eqn:Hs.
  2:{ exists None. split; [done|]. intros n. split; [done|].
      intros (s' & [= <-] & Hint & _). by destruct s. }
  destruct (py_int (int_max_str_digits E) s) as [n|e] eqn:Hint.
  - eexists. split; [done|]. intros n'. case_bool_decide as Hin.
    + apply years_elem in Hin. split.
      * intros [= <-]. by exists s.
      * intros (s' & [= <-] & Hint' & _). congruence.
    + split; [done|]. intros (s' & [= <-] & Hint' & Hr).
      destruct Hin. apply years_elem. congruence.
  - rewrite (py_int_raises _ _ _ Hint). exists None. split; [done|].
    intros n. split; [done|]. intros (s' & [= <-] & Hint' & _). congruence.
Qed.

Lemma find_latest_year (q : Z -> bool) :
  match find q (rev Views.years) with
  | Some y => q y = true /\ 2018 <= y <= 2026
              /\ forall z, y < z <= 2026 -> q z = false
  | None => forall z, 2018 <= z <= 2026 -> q z = false
  end.
Proof.
  change (rev Views.years)
    with [2026; 2025; 2024; 2023; 2022; 2021; 2020; 2019; 2018].
  cbn [find].
  repeat match goal with
         | |- context [if q ?y then _ else _] =>
             let H := fresh "H" in
             destruct (q y) eqn:H;
             [ split; [done|]; split; [lia|]; intros z Hz
             | ]
         | |- forall z, _ -> _ => intros z Hz
         end;
    (assert (z = 2018 \/ z = 2019 \/ z = 2020 \/ z = 2021 \/ z = 2022 \/ z = 2023
             \/ z = 2024 \/ z = 2025 \/ z = 2026) as Hcases by lia;
     repeat (destruct Hcases as [->|Hcases]; [try done; lia|]); subst; try done; lia).
Qed.



(* ------------------------------------------------------------------ *)
(** ** Lifting a property of single steps to the threaded command *)

Lemma reports_grow_exists (l : list Models.SeasonalReport) d d' k s :
  Models.seasonal_reports d' = Models.seasonal_reports d ++ l ->
  Models.SeasonalReport_exists d k s = true ->
  Models.SeasonalReport_exists d' k s = true.
Proof.
  unfold Models.SeasonalReport_exists. intros ->. rewrite existsb_app.
  by intros ->.
Qed.

Lemma threaded_season_keeps_seasons g season report d :
  let d' := (Models.atomic (ThreadedCommand.create_seasonal_data g season report) d).2 in
  Models.growers d' = Models.growers d
  /\ exists l, Models.seasonal_reports d' = Models.seasonal_reports d ++ l.
Proof.
  cbv zeta. unfold Models.atomic.
  pose proof (threaded_create_seasonal_data_spec g season report d) as (Hg & Hr & _).
  destruct (ThreadedCommand.create_seasonal_data g season report d) as [[[]|e] d1];
    cbn [fst snd] in *.
  - split; [done|]. destruct Hr as [Hr|(row & _ & _ & Hr)].
    + exists []. by rewrite app_nil_r.
    + by exists [row].
  - split; [done|]. exists []. by rewrite app_nil_r.
Qed.

Lemma threaded_discovered_ids E ids st x :
  x ∈ (Threaded.discover_growers_threaded E ids st).1 -> x.1.1 ∈ ids.
Proof.
  intros (gid & st' & Hin & Hd)%threaded_batch_results.
  destruct x as [[g year] report].
  by rewrite (threaded_discover_loop_id E gid _ st' g year report Hd).
Qed.

Lemma threaded_save_discovered_grows E results : forall d,
  Models.growers d ⊆ Models.growers (ThreadedCommand.save_discovered_growers E results d).
Proof.
  induction results as [|[[gid first_season] report] rest IH]; intros d; [reflexivity|].
  cbn [ThreadedCommand.save_discovered_growers]. etrans; [|apply IH].
  unfold Models.atomic.
  pose proof (threaded_create_grower_spec E report d) as Hg. cbv zeta in Hg.
  destruct (ThreadedCommand.create_grower_from_report E report d) as [[g|e] d1];
    cbn [fst snd] in *; [|reflexivity].
  destruct Hg as (_ & Hnew & _).
  pose proof (threaded_create_seasonal_data_spec g first_season report d1) as (Hg2 & _).
  destruct (ThreadedCommand.create_seasonal_data g first_season report d1)
    as [[[]|e] d2]; cbn [fst snd] in *; [|reflexivity].
  rewrite Hg2. destruct Hnew as [Hsame|Hnew]; [by rewrite Hsame|].
  rewrite Hnew. intros x Hx. apply elem_of_app. by left.
Qed.

Section LiftThreaded.
Variable E : Env.
Variable R : World -> World -> Prop.
Variable allowed : string -> Prop.
Hypothesis R_refl : forall w, R w w.
Hypothesis R_trans : forall a b c, R a b -> R b c -> R a c.
Hypothesis R_fetch : forall gid season d s,
  allowed gid ->
  R {| db := d; st := s |} {| db := d; st := (Threaded.fetch_report E gid season s).2 |}.
Hypothesis R_found : forall d s,
  R {| db := d; st := s |} {| db := d; st := inc_growers_discovered s |}.
Hypothesis R_first : forall first_season report d s,
  R {| db := d; st := s |}
    {| db := (Models.atomic (fun d =>
                match ThreadedCommand.create_grower_from_report E report d with
                | (Raise e, d) => (Raise e, d)
                | (Ok g, d) => ThreadedCommand.create_seasonal_data g first_season report d
                end) d).2;
       st := s |}.
Hypothesis R_season : forall g season report d s,
  R {| db := d; st := s |}
    {| db := (Models.atomic (ThreadedCommand.create_seasonal_data g season report) d).2;
       st := s |}.

Lemma tlift_discover_loop d gid years : forall s,
  allowed gid ->
  R {| db := d; st := s |} {| db := d; st := (Threaded.discover_loop E gid years s).2 |}.
Proof.
  induction years as [|y l IH]; intros s Hgid; cbn [Threaded.discover_loop]; [done|].
  pose proof (R_fetch gid y d s Hgid) as H1.
  destruct (Threaded.fetch_report E gid y s) as [[[report|]|e] s1]; cbn [snd] in *.
  - destruct (has_name report); cbn [snd].
    + eapply R_trans; [exact H1 | apply R_found].
    + eapply R_trans; [exact H1 | by apply IH].
  - eapply R_trans; [exact H1 | by apply IH].
  - done.
Qed.

Lemma tlift_discover_batch d ids : forall s,
  Forall allowed ids ->
  R {| db := d; st := s |}
    {| db := d; st := (Threaded.discover_growers_threaded E ids s).2 |}.
Proof.
  induction ids as [|gid rest IH]; intros s Hall; cbn; [done|].
  apply Forall_cons in Hall as [Hgid Hrest].
  pose proof (tlift_discover_loop d gid (range 2018 2026) s Hgid) as H1.
  unfold Threaded.discover_grower_first_season.
  destruct (Threaded.discover_loop E gid _ s) as [result s1].
  specialize (IH s1 Hrest).
  destruct (Threaded.discover_growers_threaded E rest s1) as [found s2].
  cbn [snd] in *. by eapply R_trans.
Qed.

Lemma tlift_fetch_multiple d pairs : forall s,
  Forall (fun p => allowed p.1) pairs ->
  R {| db := d; st := s |}
    {| db := d; st := (Threaded.fetch_multiple_reports_threaded E pairs s).2 |}.
Proof.
  induction pairs as [|[gid season] rest IH]; intros s Hall; cbn; [done|].
  apply Forall_cons in Hall as [Hgid Hrest]. cbn in Hgid.
  pose proof (R_fetch gid season d s Hgid) as H1.
  destruct (Threaded.fetch_report E gid season s) as [r s1].
  specialize (IH s1 Hrest).
  destruct (Threaded.fetch_multiple_reports_threaded E rest s1) as [fetched s2].
  cbn [snd] in *. by eapply R_trans.
Qed.

Lemma tlift_save_discovered s results : forall d,
  R {| db := d; st := s |}
    {| db := ThreadedCommand.save_discovered_growers E results d; st := s |}.
Proof.
  induction results as [|[[gid first_season] report] rest IH]; intros d; [done|].
  cbn [ThreadedCommand.save_discovered_growers].
  eapply R_trans; [apply (R_first first_season report)|apply IH].
Qed.

Lemma tlift_save_results s g results : forall d,
  R {| db := d; st := s |}
    {| db := (ThreadedCommand.save_results g results d).2; st := s |}.
Proof.
  induction results as [|[[gid season] report] rest IH]; intros d; [done|].
  cbn [ThreadedCommand.save_results].
  pose proof (R_season g season report d s) as H1.
  destruct (Models.atomic _ d) as [[[]|e] d1]; cbn [snd] in H1.
  - specialize (IH d1). destruct (ThreadedCommand.save_results g rest d1) as [saved d2].
    cbn [snd] in *. by eapply R_trans.
  - eapply R_trans; [exact H1|apply IH].
Qed.

Lemma tlift_fetch_one discovered w :
  allowed discovered.1.1 ->
  R w (ThreadedCommand.fetch_remaining_seasons_for_one E discovered w).2.
Proof.
  destruct discovered as [[gid first_season] report], w as [d s]. cbn [fst].
  intros Hgid. unfold ThreadedCommand.fetch_remaining_seasons_for_one. cbn [db st].
  destruct (ThreadedCommand.missing_seasons _ _) as [|season missing] eqn:Hmiss; [done|].
  rewrite <- Hmiss.
  pose proof (tlift_fetch_multiple d
                (map (pair gid)
                   (ThreadedCommand.missing_seasons first_season
                      (ThreadedCommand.get_existing_seasons_for_grower d gid))) s) as H1.
  destruct (Threaded.fetch_multiple_reports_threaded E _ s) as [results s1].
  cbn [snd] in H1.
  assert (H1' : R {| db := d; st := s |} {| db := d; st := s1 |}).
  { apply H1. apply Forall_forall. by intros p (season' & -> & _)%list_elem_of_fmap. }
  destruct (ThreadedCommand.get_grower_by_id d gid) as [g|]; [|done].
  pose proof (tlift_save_results s1 g results d) as H2.
  destruct (ThreadedCommand.save_results g results d) as [saved d1]. cbn [snd] in *.
  by eapply R_trans.
Qed.

Lemma tlift_fetch_remaining results : forall w,
  Forall (fun x => allowed x.1.1) results ->
  R w (ThreadedCommand.fetch_remaining_seasons E results w).2.
Proof.
  induction results as [|r rest IH]; intros w Hall; cbn; [done|].
  apply Forall_cons in Hall as [Hr Hrest].
  pose proof (tlift_fetch_one r w Hr) as H1.
  destruct (ThreadedCommand.fetch_remaining_seasons_for_one E r w) as [saved w1].
  specialize (IH w1 Hrest).
  destruct (ThreadedCommand.fetch_remaining_seasons E rest w1) as [total w2].
  cbn [snd] in *. by eapply R_trans.
Qed.

Lemma tlift_process_batch start_id end_id discover_only resume w :
  (forall gid, gid ∈ grower_ids_of start_id end_id ->
     (resume = true -> Models.Grower_exists (db w) gid = false) -> allowed gid) ->
  R w (ThreadedCommand.process_batch E start_id end_id discover_only resume w).2
  /\ Models.growers (db w)
     ⊆ Models.growers
         (db (ThreadedCommand.process_batch E start_id end_id discover_only resume w).2).
Proof.
  intros Hallowed. destruct w as [d s]. unfold ThreadedCommand.process_batch.
  cbn [db st] in *.
  set (ids0 := grower_ids_of start_id end_id) in *.
  set (ids := if resume then _ else ids0).
  assert (Hids : Forall allowed ids).
  { apply Forall_forall. intros gid Hin. subst ids. destruct resume.
    - apply resume_filter_kept in Hin as [Hin Hno]. by apply Hallowed.
    - by apply Hallowed. }
  destruct ids as [|gid0 ids'] eqn:Heq; [done|].
  rewrite <- Heq in *. clear Heq gid0 ids'.
  pose proof (tlift_discover_batch d ids s Hids) as H1.
  assert (Hall : Forall (fun x : string * Z * Report => allowed x.1.1)
                   (Threaded.discover_growers_threaded E ids s).1).
  { apply Forall_forall. intros x Hx%threaded_discovered_ids.
    by eapply Forall_forall in Hids. }
  destruct (Threaded.discover_growers_threaded E ids s) as [results s1].
  cbn [fst snd] in *.
  destruct results as [|r0 results0] eqn:Hres; [done|]. rewrite <- Hres in *.
  clear Hres r0 results0.
  pose proof (tlift_save_discovered s1 results d) as H2.
  pose proof (threaded_save_discovered_grows E results d) as Hsub.
  destruct discover_only; cbn [snd db]; [split; [by eapply R_trans|done]|].
  pose proof (tlift_fetch_remaining results
                {| db := ThreadedCommand.save_discovered_growers E results d;
                   st := s1 |} Hall) as H3.
  assert (Hsame : Models.growers
                    (db (ThreadedCommand.fetch_remaining_seasons E results
                           {| db := ThreadedCommand.save_discovered_growers E results d;
                              st := s1 |}).2)
                  = Models.growers (ThreadedCommand.save_discovered_growers E results d)).
  { generalize (ThreadedCommand.save_discovered_growers E results d). clear.
    intros d. revert d s1. induction results as [|[[gid f] report] rest IH];
      intros d s1; cbn; [done|].
    unfold ThreadedCommand.fetch_remaining_seasons_for_one. cbn [db st].
    destruct (ThreadedCommand.missing_seasons _ _) as [|season missing].
    { specialize (IH d s1).
      by destruct (ThreadedCommand.fetch_remaining_seasons E rest _). }
    destruct (Threaded.fetch_multiple_reports_threaded E _ s1) as [fetched s2].
    destruct (ThreadedCommand.get_grower_by_id d gid) as [g|].
    - assert (Hg : Models.growers (ThreadedCommand.save_results g fetched d).2
                   = Models.growers d).
      { clear. revert d. induction fetched as [|[[gid season] report] rest IH];
          intros d; cbn; [done|].
        pose proof (threaded_season_keeps_seasons g season report d) as [Hg _].
        cbv zeta in Hg.
        destruct (Models.atomic _ d) as [[[]|e] d1]; cbn [snd] in Hg.
        - specialize (IH d1).
          destruct (ThreadedCommand.save_results g rest d1). cbn in *. congruence.
        - rewrite IH. done. }
      destruct (ThreadedCommand.save_results g fetched d) as [saved d1]. cbn in Hg.
      specialize (IH d1 s2).
      destruct (ThreadedCommand.fetch_remaining_seasons E rest _). cbn in *. congruence.
    - specialize (IH d s2).
      by destruct (ThreadedCommand.fetch_remaining_seasons E rest _). }
  destruct (ThreadedCommand.fetch_remaining_seasons E results _) as [saved w2].
  cbn [snd] in *. split.
  - eapply R_trans; [exact H1|]. by eapply R_trans.
  - by rewrite Hsame.
Qed.

Lemma tlift_run_batches o batch_starts : forall w,
  (forall bs gid, bs ∈ batch_starts ->
     gid ∈ grower_ids_of bs (Z.min (bs + ThreadedCommand.opt_batch_size o - 1)
                               (ThreadedCommand.opt_end o)) ->
     (ThreadedCommand.opt_resume o = true -> Models.Grower_exists (db w) gid = false) ->
     allowed gid) ->
  R w (ThreadedCommand.run_batches E o batch_starts w).2.
Proof.
  induction batch_starts as [|bs rest IH]; intros w Hallowed; cbn; [done|].
  pose proof (tlift_process_batch bs
                (Z.min (bs + ThreadedCommand.opt_batch_size o - 1)
                   (ThreadedCommand.opt_end o))
                (ThreadedCommand.opt_discover_only o)
                (ThreadedCommand.opt_resume o) w
                (fun gid => Hallowed bs gid (list_elem_of_here _ _))) as [H1 Hsub].
  destruct (ThreadedCommand.process_batch E bs _ _ _ w) as [[discovered saved] w1].
  specialize (IH w1).
  destruct (ThreadedCommand.run_batches E o rest w1) as [[total_d total_s] w2].
  cbn [snd] in *. eapply R_trans; [exact H1|]. apply IH.
  intros bs' gid Hbs Hin Hno. apply (Hallowed bs'); [by apply list_elem_of_further|done|].
  intros Hresume.
  destruct (Models.Grower_exists (db w) gid) eqn:Hex; [|done].
  rewrite (Grower_exists_mono _ _ _ Hsub Hex) in Hno. by specialize (Hno Hresume).
Qed.

Lemma tlift_handle o typed_username typed_password w :
  (forall i, ThreadedCommand.opt_start o <= i <= ThreadedCommand.opt_end o ->
     (ThreadedCommand.opt_resume o = true ->
      Models.Grower_exists (db w) ("V" +:+ pretty i) = false) ->
     allowed ("V" +:+ pretty i)) ->
  R w (ThreadedCommand.handle E o typed_username typed_password w).2.
Proof.
  intros Hallowed. unfold ThreadedCommand.handle. cbv zeta.
  destruct (negb _); [done|].
  destruct (range_step _ _ _) as [batch_starts|e] eqn:Hrange; [|done].
  pose proof (tlift_run_batches o batch_starts w) as H1.
  destruct (ThreadedCommand.run_batches E o batch_starts w) as [[total_d total_s] w1].
  apply H1. intros bs gid Hbs Hin Hno.
  apply grower_ids_of_elem in Hin as (i & -> & Hi).
  apply Hallowed; [|done].
  pose proof (range_step_elem _ _ _ _ _ Hrange Hbs) as Hb. lia.
Qed.

End LiftThreaded.

(* ------------------------------------------------------------------ *)
(** ** The threaded scraper's counters *)


(* ------------------------------------------------------------------ *)
(** ** The threaded command stores no grower without a season *)

(** X9.  The threaded command never leaves a grower without a season
    behind.  It stores a grower and the report of its first season in one
    transaction, so when every stored grower has at least one seasonal
    report before a run, the same holds after it, whatever fails on the
    way. *)
Theorem threaded_run_leaves_no_grower_without_season (E : Env)
    (o : ThreadedCommand.Options) (typed_username typed_password : string)
    (w : World) :
  every_grower_has_a_season (db w) ->
  every_grower_has_a_season
    (db (ThreadedCommand.handle E o typed_username typed_password w).2).
Proof.
  apply (tlift_handle E
           (fun a b => every_grower_has_a_season (db a) ->
                       every_grower_has_a_season (db b)) (fun _ => True));
    [| | | | | |done].
  - auto.
  - auto.
  - auto.
  - auto.
  - intros first_season report d s. cbn [db]. intros Hinv.
    unfold Models.atomic.
    pose proof (threaded_create_grower_spec E report d) as Hg. cbv zeta in Hg.
    destruct (ThreadedCommand.create_grower_from_report E report d) as [[g|e] d1];
      cbn [fst snd] in *; [|done].
    destruct Hg as (Hin & Hnew & Hreports).
    pose proof (threaded_create_seasonal_data_spec g first_season report d1)
      as (Hg2 & Hr2 & Hok).
    destruct (ThreadedCommand.create_seasonal_data g first_season report d1)
      as [[[]|e] d2]; cbn [fst snd] in *; [|done].
    specialize (Hok eq_refl).
    assert (Hgrow : exists l, Models.seasonal_reports d2
                              = Models.seasonal_reports d ++ l).
    { rewrite <- Hreports. destruct Hr2 as [->|(row & _ & _ & ->)].
      - exists []. by rewrite app_nil_r.
      - by exists [row]. }
    destruct Hgrow as [l Hl].
    intros g' Hg'. rewrite Hg2 in Hg'.
    assert (g' ∈ Models.growers d \/ g' = g) as [Hold| ->].
    { destruct Hnew as [->|Hnew]; [by left|].
      rewrite Hnew in Hg'. apply elem_of_app in Hg' as [|Hg']; [by left|].
      right. by apply list_elem_of_singleton in Hg'. }
    + destruct (Hinv g' Hold) as [season Hseason]. exists season.
      by eapply reports_grow_exists.
    + by exists first_season.
  - intros g season report d s. cbn [db]. intros Hinv.
    pose proof (threaded_season_keeps_seasons g season report d) as [Hg [l Hl]].
    cbv zeta in Hg, Hl. intros g' Hg'. rewrite Hg in Hg'.
    destruct (Hinv g' Hg') as [season' Hseason]. exists season'.
    by eapply reports_grow_exists.
Qed.

Lemma threaded_run_leaves_no_grower_without_season_witness :
  every_grower_has_a_season (db fx_world0)
  /\ every_grower_has_a_season
       (db (ThreadedCommand.handle fx_threaded_v3 fx_threaded_options "" "" fx_world0).2).
Proof.
  assert (H0 : every_grower_has_a_season (db fx_world0)).
  { intros g Hg. cbn in Hg. by apply elem_of_nil in Hg. }
  split; [exact H0|].
  exact (threaded_run_leaves_no_grower_without_season fx_threaded_v3
           fx_threaded_options "" "" fx_world0 H0).
Defined.

(* ------------------------------------------------------------------ *)
(** ** Keys and references of the store *)

Lemma NoDup_snoc {A} (l : list A) (x : A) : NoDup l -> x ∉ l -> NoDup (l ++ [x]).
Proof.
  intros Hl Hx. apply NoDup_app. split; [done|]. split.
  - intros y Hy ->%list_elem_of_singleton. done.
  - apply NoDup_singleton.
Qed.

Lemma existsb_false_not_elem {A B} (f : A -> B) (p : A -> bool) (b : B) (l : list A) :
  (forall a, f a = b -> p a = true) -> existsb p l = false -> b ∉ map f l.
Proof.
  intros Hp Hex (a & Hb & Hin)%list_elem_of_fmap.
  assert (existsb p l = true); [|congruence].
  apply existsb_exists. exists a. split; [by apply list_elem_of_In|]. by apply Hp.
Qed.

Lemma consistent_Grower_create row d :
  store_consistent d -> store_consistent (Models.Grower_create row d).2.
Proof.
  intros (Hg & Hn & Hc & Hcr & Hr & Hfr & Hfg & Hfc). unfold Models.Grower_create.
  destruct (existsb _ (Models.growers d)) eqn:Hex; cbn [orb]; [done|].
  destruct (negb _); [done|]. cbn [snd]. unfold store_consistent. cbn.
  rewrite !map_app. cbn. repeat split; try done.
  - apply NoDup_snoc; [done|].
    refine (existsb_false_not_elem Models.grower_number _ _ _ _ Hex).
    intros a Ha. cbv beta. by rewrite Ha, String.eqb_refl.
  - apply NoDup_snoc; [done|].
    refine (existsb_false_not_elem Models.national_id _ _ _ _ Hex).
    intros a Ha. cbv beta. rewrite Ha, String.eqb_refl. apply orb_true_r.
  - eapply Forall_impl; [exact Hfr|]. cbn. intros r [Hin Hcon]. split; [|done].
    apply elem_of_app. by left.
Qed.

Lemma consistent_Grower_get_or_create pk defaults d :
  store_consistent d -> store_consistent (Models.Grower_get_or_create pk defaults d).2.
Proof.
  intros H. unfold Models.Grower_get_or_create. destruct pk as [n|]; [|done].
  destruct (Models.Grower_get d n); [done|]. by apply consistent_Grower_create.
Qed.

Lemma consistent_Contractor_get_or_create n d :
  store_consistent d ->
  store_consistent (Models.Contractor_get_or_create n d)
  /\ n ∈ Models.contractors (Models.Contractor_get_or_create n d).
Proof.
  intros (Hg & Hn & Hc & Hcr & Hr & Hfr & Hfg & Hfc).
  unfold Models.Contractor_get_or_create. case_bool_decide as Hin; [done|].
  split; [|cbn; apply elem_of_app; right; by apply list_elem_of_singleton].
  unfold store_consistent. cbn. repeat split; try done.
  - by apply NoDup_snoc.
  - eapply Forall_impl; [exact Hfr|]. cbn. intros r [Hin' Hcon]. split; [done|].
    intros c Hc'. apply elem_of_app. left. by apply Hcon.
Qed.

Lemma consistent_Creditor_get_or_create n d :
  store_consistent d ->
  store_consistent (Models.Creditor_get_or_create n d)
  /\ n ∈ Models.creditors (Models.Creditor_get_or_create n d).
Proof.
  intros (Hg & Hn & Hc & Hcr & Hr & Hfr & Hfg & Hfc).
  unfold Models.Creditor_get_or_create. case_bool_decide as Hin; [done|].
  split; [|cbn; apply elem_of_app; right; by apply list_elem_of_singleton].
  unfold store_consistent. cbn. repeat split; try done.
  - by apply NoDup_snoc.
  - eapply Forall_impl; [exact Hfc|]. cbn. intros r [Hin' Hcon]. split; [done|].
    apply elem_of_app. by left.
Qed.

Lemma consistent_SeasonalReport_create row d :
  store_consistent d ->
  Models.grower row ∈ map Models.grower_number (Models.growers d) ->
  (forall c, Models.contractor row = Some c -> c ∈ Models.contractors d) ->
  store_consistent (Models.SeasonalReport_create row d).2
  /\ ((Models.SeasonalReport_create row d).1 = Ok tt ->
      report_key row ∈ map report_key
                         (Models.seasonal_reports (Models.SeasonalReport_create row d).2)).
Proof.
  intros (Hg & Hn & Hc & Hcr & Hr & Hfr & Hfg & Hfc) Hgrower Hcontractor.
  unfold Models.SeasonalReport_create.
  destruct (Models.SeasonalReport_exists d _ _) eqn:Hex; cbn [orb]; [done|].
  destruct (_ || _)%bool; [done|]. cbn [fst snd]. split.
  - unfold store_consistent. cbn. rewrite !map_app. cbn. repeat split; try done.
    + apply NoDup_snoc; [done|]. intros Hin.
      apply (SeasonalReport_exists_key d) in Hin. congruence.
    + apply Forall_app. split; [done|]. by apply Forall_singleton.
    + eapply Forall_impl; [exact Hfg|]. cbn. intros r Hin. apply elem_of_app. by left.
    + eapply Forall_impl; [exact Hfc|]. cbn. intros r [Hin ?]. split; [|done].
      apply elem_of_app. by left.
  - intros _. cbn. rewrite map_app. apply elem_of_app. right.
    by apply list_elem_of_singleton.
Qed.

Lemma consistent_GradeAnalysis_create key item d :
  store_consistent d ->
  key ∈ map report_key (Models.seasonal_reports d) ->
  store_consistent (Models.GradeAnalysis_create key item d).2.
Proof.
  intros (Hg & Hn & Hc & Hcr & Hr & Hfr & Hfg & Hfc) Hkey.
  unfold Models.GradeAnalysis_create.
  destruct (mass_kg item), (value_usd item), (grade_average_price_usd item);
    cbn [snd]; try done.
  unfold store_consistent. cbn. repeat split; try done.
  apply Forall_app. split; [done|]. by apply Forall_singleton.
Qed.

Lemma consistent_CreditorRecovery_create row d :
  store_consistent d ->
  Models.cr_seasonal_report row ∈ map report_key (Models.seasonal_reports d) ->
  Models.cr_creditor row ∈ Models.creditors d ->
  store_consistent (Models.CreditorRecovery_create row d).
Proof.
  intros (Hg & Hn & Hc & Hcr & Hr & Hfr & Hfg & Hfc) Hkey Hcreditor.
  unfold Models.CreditorRecovery_create, store_consistent. cbn.
  repeat split; try done.
  apply Forall_app. split; [done|]. by apply Forall_singleton.
Qed.

Lemma consistent_contractor report season d :
  store_consistent d ->
  let r := AsyncCommand._get_or_create_contractor report season d in
  store_consistent r.2 /\ forall c, r.1 = Some c -> c ∈ Models.contractors r.2.
Proof.
  intros H. cbv zeta. unfold AsyncCommand._get_or_create_contractor.
  destruct (match must_know_info report !! (pretty season +:+ "_contractor") with
            | Some n => _ | None => _ end) as [n|]; [|done].
  destruct (str_truthy n && str_truthy (strip n))%bool; [|done]. cbn [fst snd].
  destruct (consistent_Contractor_get_or_create (strip n) d H) as [H1 H2].
  split; [done|]. by intros c [= <-].
Qed.

Lemma consistent_grade_items key items : forall d,
  store_consistent d ->
  key ∈ map report_key (Models.seasonal_reports d) ->
  store_consistent (AsyncCommand.create_grade_items key items d).2.
Proof.
  induction items as [|item rest IH]; intros d H Hkey; cbn; [done|].
  pose proof (consistent_GradeAnalysis_create key item d H Hkey) as H1.
  assert (Hsame : Models.seasonal_reports (Models.GradeAnalysis_create key item d).2
                  = Models.seasonal_reports d).
  { unfold Models.GradeAnalysis_create.
    by destruct (mass_kg item), (value_usd item), (grade_average_price_usd item). }
  destruct (Models.GradeAnalysis_create key item d) as [[[]|e] d1]; cbn [snd] in *;
    [|done].
  apply IH; [done|]. by rewrite Hsame.
Qed.

Lemma consistent_creditor_items key items : forall d,
  store_consistent d ->
  key ∈ map report_key (Models.seasonal_reports d) ->
  store_consistent (AsyncCommand.create_creditor_items key items d).
Proof.
  induction items as [|item rest IH]; intros d H Hkey; cbn; [done|].
  destruct (str_truthy _); [|by apply IH].
  destruct (consistent_Creditor_get_or_create (strip (creditor_name item)) d H)
    as [H1 Hin].
  assert (Hsame : Models.seasonal_reports
                    (Models.Creditor_get_or_create (strip (creditor_name item)) d)
                  = Models.seasonal_reports d).
  { unfold Models.Creditor_get_or_create. by case_bool_decide. }
  apply IH.
  - apply consistent_CreditorRecovery_create; [done| |done]. cbn. by rewrite Hsame.
  - cbn. by rewrite Hsame.
Qed.

Lemma consistent_create_seasonal_data g season report d :
  store_consistent d ->
  Models.grower_number g ∈ map Models.grower_number (Models.growers d) ->
  store_consistent (AsyncCommand.create_seasonal_data g season report d).2.
Proof.
  intros H Hg. unfold AsyncCommand.create_seasonal_data, Models.atomic.
  destruct (Models.SeasonalReport_exists d (Models.grower_number g) season); [done|].
  pose proof (consistent_contractor report season d H) as [H1 Hc]. cbv zeta in H1, Hc.
  pose proof (contractor_same_core report season d) as [Hg1 _].
  destruct (AsyncCommand._get_or_create_contractor report season d) as [c d1].
  cbn [fst snd] in *.
  match goal with
  | |- context [Models.SeasonalReport_create ?row d1] =>
      destruct (consistent_SeasonalReport_create row d1 H1) as [H2 Hkey];
      [cbn; by rewrite Hg1 | done |];
      destruct (Models.SeasonalReport_create row d1) as [[[]|e] d2]
  end; cbn [fst snd] in *; [|done].
  specialize (Hkey eq_refl). unfold report_key in Hkey at 1. cbn in Hkey.
  pose proof (consistent_grade_items (Models.grower_number g, season)
                (grade_analysis report) d2 H2 Hkey) as H3.
  pose proof (grade_items_same_core (Models.grower_number g, season)
                (grade_analysis report) d2) as [_ Hr3].
  destruct (AsyncCommand.create_grade_items _ _ d2) as [[[]|e] d3]; cbn [fst snd] in *;
    [|done].
  apply consistent_creditor_items; [done|]. by rewrite Hr3.
Qed.

Lemma consistent_get_or_create_grower E report d :
  store_consistent d ->
  store_consistent (AsyncCommand.get_or_create_grower E report d).2.
Proof.
  intros H. unfold AsyncCommand.get_or_create_grower.
  destruct (AsyncCommand._safe_int_convert E _); [|done].
  by apply consistent_Grower_get_or_create.
Qed.

Lemma consistent_save_discovered E results : forall d,
  store_consistent d ->
  store_consistent (AsyncCommand.save_discovered_growers E results d).
Proof.
  induction results as [|r rest IH]; intros d H; cbn; [done|]. apply IH.
  pose proof (consistent_get_or_create_grower E (Async.first_report_data r) d H) as H1.
  pose proof (get_or_create_grower_spec E (Async.first_report_data r) d) as Hspec.
  cbv zeta in Hspec.
  destruct (AsyncCommand.get_or_create_grower E (Async.first_report_data r) d)
    as [[g|e] d1]; cbn [fst snd] in *; [|done].
  destruct Hspec as (Hex & Hnum & _).
  apply consistent_create_seasonal_data; [done|].
  rewrite Hnum. by apply Grower_exists_elem.
Qed.

Lemma consistent_save_seasonal_results g results : forall d,
  store_consistent d ->
  Models.grower_number g ∈ map Models.grower_number (Models.growers d) ->
  store_consistent (AsyncCommand.save_seasonal_results g results d).2.
Proof.
  induction results as [|[[gid season] report] rest IH]; intros d H Hg; cbn; [done|].
  pose proof (consistent_create_seasonal_data g season report d H Hg) as H1.
  pose proof (create_seasonal_data_spec g season report d) as (Hg1 & _).
  destruct (AsyncCommand.create_seasonal_data g season report d) as [[[]|e] d1];
    cbn [fst snd] in *.
  - specialize (IH d1 H1). rewrite Hg1 in IH. specialize (IH Hg).
    by destruct (AsyncCommand.save_seasonal_results g rest d1).
  - apply IH; [done|]. by rewrite Hg1.
Qed.

Lemma consistent_fetch_all_one E config result w :
  store_consistent (db w) ->
  store_consistent (db (AsyncCommand.fetch_all_seasons_for_one E config result w).2).
Proof.
  intros H. unfold AsyncCommand.fetch_all_seasons_for_one.
  destruct (AsyncCommand.seasons_to_fetch _ _) as [|season missing] eqn:Hmiss; [done|].
  rewrite <- Hmiss.
  destruct (Async.fetch_multiple_reports E config _ (st w)) as [results s1].
  unfold AsyncCommand.get_grower_by_id.
  destruct (Models.Grower_get (db w) (Async.grower_id result)) as [g|] eqn:Hget;
    [|done].
  pose proof (consistent_save_seasonal_results g results (db w) H) as H1.
  destruct (AsyncCommand.save_seasonal_results g results (db w)) as [saved d1].
  cbn [snd db] in *. apply H1.
  rewrite (Grower_get_number _ _ _ Hget). apply Grower_exists_elem.
  apply Grower_get_exists. by eexists.
Qed.

Lemma consistent_fetch_all E config results : forall w,
  store_consistent (db w) ->
  store_consistent
    (db (AsyncCommand.fetch_all_seasons_for_discovered_growers E config results w).2).
Proof.
  induction results as [|r rest IH]; intros w H; cbn; [done|].
  pose proof (consistent_fetch_all_one E config r w H) as H1.
  destruct (AsyncCommand.fetch_all_seasons_for_one E config r w) as [saved w1].
  specialize (IH w1 H1).
  by destruct (AsyncCommand.fetch_all_seasons_for_discovered_growers E config rest w1).
Qed.

Lemma consistent_process_batch E config start_id end_id discover_only resume w :
  store_consistent (db w) ->
  store_consistent
    (db (AsyncCommand.process_batch E config start_id end_id discover_only resume w).2).
Proof.
  intros H. unfold AsyncCommand.process_batch.
  set (ids := if resume then _ else _).
  destruct ids as [|gid0 ids0] eqn:Hids; [done|]. rewrite <- Hids. clear Hids.
  destruct (Async.discover_growers_batch E config ids (st w)) as [results s1].
  destruct results as [|r0 results0] eqn:Hres; [done|]. rewrite <- Hres. clear Hres.
  pose proof (consistent_save_discovered E results (db w) H) as H1.
  destruct discover_only; [done|].
  pose proof (consistent_fetch_all E config results
                {| db := AsyncCommand.save_discovered_growers E results (db w);
                   st := s1 |} H1) as H2.
  by destruct (AsyncCommand.fetch_all_seasons_for_discovered_growers E config results _).
Qed.

Lemma consistent_run_batches E o batch_starts : forall w,
  store_consistent (db w) ->
  store_consistent (db (AsyncCommand.run_batches E o batch_starts w).2).
Proof.
  induction batch_starts as [|bs rest IH]; intros w H; cbn; [done|].
  pose proof (consistent_process_batch E (AsyncCommand.config_of o) bs
                (Z.min (bs + AsyncCommand.opt_batch_size o - 1) (AsyncCommand.opt_end o))
                (AsyncCommand.opt_discover_only o) (AsyncCommand.opt_resume o) w H) as H1.
  destruct (AsyncCommand.process_batch E _ bs _ _ _ w) as [[discovered saved] w1].
  specialize (IH w1 H1).
  by destruct (AsyncCommand.run_batches E o rest w1) as [[total_d total_s] w2].
Qed.

(** X10.  A run of the async command keeps the keys and references of
    the store.  When, before the run, grower numbers, national ids,
    contractor and creditor names and (grower, season) pairs are keys,
    every seasonal report names a stored grower and a stored contractor,
    and every grade row and creditor row names a stored report (and
    creditor), then the same holds after the run: the command never
    relies on the database to refuse a dangling or duplicate row. *)
Theorem async_run_keeps_store_consistent (E : Env) (o : AsyncCommand.Options)
    (username password : string) (w : World) :
  store_consistent (db w) ->
  store_consistent (db (AsyncCommand.handle E o username password w).2).
Proof.
  intros H. unfold AsyncCommand.handle.
  destruct (negb _); [done|].
  destruct (range_step _ _ _) as [batch_starts|e]; [|done].
  pose proof (consistent_run_batches E o batch_starts w H) as H1.
  by destruct (AsyncCommand.run_batches E o batch_starts w) as [[total_d total_s] w1].
Qed.

Lemma async_run_keeps_store_consistent_witness :
  store_consistent (db fx_world0)
  /\ store_consistent (db (AsyncCommand.handle fx_v3 fx_options "user" "secret" fx_world0).2).
Proof.
  assert (H0 : store_consistent (db fx_world0)).
  { unfold store_consistent. cbn. repeat split; constructor. }
  split; [exact H0|].
  exact (async_run_keeps_store_consistent fx_v3 fx_options "user" "secret" fx_world0 H0).
Defined.

(* ------------------------------------------------------------------ *)
(** ** A first season that cannot be stored *)

(** X11.  In the async command the grower and its first season are
    stored by two separate calls.  When the grower row is found or created
    but one grade entry of the first report lacks an amount,
    [save_discovered_growers] keeps the grower and stores no seasonal
    report: the grower stays in the store without its first season. *)
Theorem async_save_keeps_grower_when_first_season_fails (E : Env)
    (result : Async.GrowerDiscoveryResult) (d : Models.Db) (g : Models.Grower) :
  (AsyncCommand.get_or_create_grower E (Async.first_report_data result) d).1 = Ok g ->
  Models.SeasonalReport_exists d (Models.grower_number g) (Async.first_season result)
  = false ->
  Exists incomplete_grade (grade_analysis (Async.first_report_data result)) ->
  let d' := AsyncCommand.save_discovered_growers E [result] d in
  Models.Grower_exists d' (Models.grower_number g) = true
  /\ Models.seasonal_reports d' = Models.seasonal_reports d
  /\ Models.grade_analyses d' = Models.grade_analyses d.
Proof.
  intros Hok Hfree Hbad. cbv zeta. cbn [AsyncCommand.save_discovered_growers].
  pose proof (get_or_create_grower_spec E (Async.first_report_data result) d) as Hspec.
  cbv zeta in Hspec.
  assert (Hga : Models.grade_analyses
                  (AsyncCommand.get_or_create_grower E (Async.first_report_data result) d).2
                = Models.grade_analyses d).
  { unfold AsyncCommand.get_or_create_grower.
    destruct (AsyncCommand._safe_int_convert E _); [|done].
    unfold Models.Grower_get_or_create, Models.Grower_create.
    destruct (Models.Grower_get d _); [done|]. by destruct (_ || _)%bool. }
  destruct (AsyncCommand.get_or_create_grower E (Async.first_report_data result) d)
    as [[g'|e] d1]; cbn [fst snd] in *; [|done].
  injection Hok as ->. destruct Hspec as (Hex & Hnum & _ & Hreports & _).
  assert (Hfree1 : Models.SeasonalReport_exists d1 (Models.grower_number g)
                     (Async.first_season result) = false).
  { unfold Models.SeasonalReport_exists in *. by rewrite Hreports. }
  rewrite create_seasonal_data_incomplete_grade by done. cbn [snd].
  by rewrite <- Hnum in Hex.
Qed.

Lemma async_save_keeps_grower_when_first_season_fails_witness :
  let d' := AsyncCommand.save_discovered_growers fx_v3 [fx_pricey_result]
              Models.empty_db in
  Models.Grower_exists d' "V7" = true
  /\ Models.seasonal_reports d' = []
  /\ Models.grade_analyses d' = [].
Proof.
  refine (async_save_keeps_grower_when_first_season_fails fx_v3 fx_pricey_result
            Models.empty_db
            {| Models.grower_number := "V7"; Models.name := "Chipo";
               Models.surname := ""; Models.national_id := "";
               Models.farming_province := ""; Models.farm_name := "";
               Models.address := ""; Models.first_sales_year := None |} _ _ _).
  - vm_compute. reflexivity.
  - reflexivity.
  - apply Exists_cons_hd. right. right. reflexivity.
Defined.

(* ------------------------------------------------------------------ *)
(** ** What the numeric helpers read *)

Lemma str_forall_rev_app (p : ascii -> bool) (s : string) : forall acc,
  str_forall p (str_rev_app s acc) = (str_forall p s && str_forall p acc)%bool.
Proof.
  induction s as [|c s IH]; intros acc; cbn; [done|].
  rewrite IH. cbn. destruct (p c), (str_forall p s); cbn; try done.
Qed.

Lemma str_forall_rev (p : ascii -> bool) (s : string) :
  str_forall p (str_rev s) = str_forall p s.
Proof. unfold str_rev. rewrite str_forall_rev_app. cbn. apply andb_true_r. Qed.

Lemma str_rev_app_empty (s : string) : forall acc,
  str_rev_app s acc = EmptyString -> s = EmptyString /\ acc = EmptyString.
Proof.
  induction s as [|c s IH]; intros acc; cbn; [done|].
  intros H. by destruct (IH _ H) as [_ ?].
Qed.

Lemma str_forall_lstrip (p : ascii -> bool) (s : string) :
  str_forall p s = true -> str_forall p (lstrip s) = true.
Proof.
  induction s as [|c s IH]; cbn; [done|].
  intros [Hc Hs]%andb_true_iff. destruct (isspace c); [auto|]. cbn. by rewrite Hc, Hs.
Qed.

Lemma str_forall_strip (p : ascii -> bool) (s : string) :
  str_forall p s = true -> str_forall p (strip s) = true.
Proof.
  intros H. unfold strip. rewrite str_forall_rev. apply str_forall_lstrip.
  rewrite str_forall_rev. by apply str_forall_lstrip.
Qed.

Lemma lstrip_space_all_space (s : string) :
  str_forall isspace (lstrip s) = true -> str_forall isspace s = true.
Proof.
  induction s as [|c s IH]; cbn; [done|].
  destruct (isspace c) eqn:Hc; cbn; [auto|]. by rewrite Hc.
Qed.

Lemma strip_empty_all_space (s : string) :
  strip s = EmptyString -> str_forall isspace s = true.
Proof.
  unfold strip, str_rev. intros [H _]%str_rev_app_empty.
  apply lstrip_space_all_space. rewrite <- str_forall_rev.
  apply lstrip_space_all_space. unfold str_rev. by rewrite H.
Qed.

Lemma blank_filter_empty (keep : ascii -> bool) (text : string) :
  (forall c, isspace c = true -> keep c = false) ->
  (negb (str_truthy text) || negb (str_truthy (strip text)))%bool = true ->
  str_filter keep text = EmptyString.
Proof.
  intros Hkeep Hblank. apply str_filter_none.
  assert (str_forall isspace text = true) as Hall.
  { destruct text as [|c s]; [done|]. cbn [str_truthy negb orb] in Hblank.
    apply strip_empty_all_space. by destruct (strip (String c s)). }
  clear Hblank. induction text as [|c s IH]; cbn; [done|].
  cbn in Hall. apply andb_true_iff in Hall as [Hc Hs]. by rewrite (Hkeep c Hc), IH.
Qed.

Lemma space_is_not_kept (c : ascii) :
  isspace c = true -> (isdecimal c || Ascii.eqb c ".")%bool = false.
Proof.
  intros Hc. rewrite (space_is_not_decimal c Hc). cbn.
  destruct (Ascii.eqb_spec c "."%char) as [->|]; [|done]. by vm_compute in Hc.
Qed.

Lemma parse_int_reads_cleaned (limit : N) (text : string) :
  _parse_int limit text
  = let cleaned := str_filter isdecimal text in
    if negb (str_truthy cleaned) then Ok None
    else try_except_value_type (result_map Some (py_int limit cleaned)) None.
Proof.
  unfold _parse_int. cbv zeta.
  destruct (negb (str_truthy text) || negb (str_truthy (strip text)))%bool eqn:Hblank;
    [|done].
  by rewrite (blank_filter_empty isdecimal text space_is_not_decimal Hblank).
Qed.

Lemma parse_value_reads_cleaned (text : string) :
  _parse_value text
  = let cleaned := str_filter (fun c => isdecimal c || Ascii.eqb c "."%char) text in
    if negb (str_truthy cleaned) then Ok None
    else try_except_value_type (result_map Some (py_float cleaned)) None.
Proof.
  unfold _parse_value. cbv zeta.
  destruct (negb (str_truthy text) || negb (str_truthy (strip text)))%bool eqn:Hblank;
    [|done].
  by rewrite (blank_filter_empty _ text space_is_not_kept Hblank).
Qed.

Lemma filter_is_digits (text : string) :
  str_forall isdecimal (str_filter isdecimal text) = true.
Proof.
  induction text as [|c s IH]; cbn; [done|].
  destruct (isdecimal c) eqn:Hc; cbn; [|done]. by rewrite Hc, IH.
Qed.

Lemma py_int_digits_nonneg (limit : N) (s : string) (n : Z) :
  str_forall isdecimal s = true -> py_int limit s = Ok n -> 0 <= n.
Proof.
  intros Hd%(str_forall_strip isdecimal). unfold py_int.
  destruct (strip s) as [|c r].
  - destruct (int_digits false EmptyString); [|done].
    destruct (_ && _)%bool; [done|]. intros [= <-]. lia.
  - cbn in Hd. apply andb_true_iff in Hd as [Hc _].
    destruct c as [[] [] [] [] [] [] [] []]; try (by vm_compute in Hc);
      (destruct (int_digits false _); [|done];
       destruct (_ && _)%bool; [done|]; intros [= <-]; lia).
Qed.

(** X12.  The two numeric helpers read nothing but the digits (and, for
    [_parse_value], the dots) of a text: two texts with the same digits and
    dots in the same order parse alike, so signs, spaces, commas, currency
    and percent marks make no difference; and [_parse_int] never returns a
    negative number. *)
Theorem parse_helpers_read_digits_only :
  (forall limit t1 t2,
     str_filter isdecimal t1 = str_filter isdecimal t2 ->
     _parse_int limit t1 = _parse_int limit t2)
  /\ (forall t1 t2,
        str_filter (fun c => isdecimal c || Ascii.eqb c "."%char) t1
        = str_filter (fun c => isdecimal c || Ascii.eqb c "."%char) t2 ->
        _parse_value t1 = _parse_value t2)
  /\ (forall limit text n, _parse_int limit text = Ok (Some n) -> 0 <= n).
Proof.
  split; [|split].
  - intros limit t1 t2 H. rewrite !parse_int_reads_cleaned. cbv zeta. by rewrite H.
  - intros t1 t2 H. rewrite !parse_value_reads_cleaned. cbv zeta. by rewrite H.
  - intros limit text n. rewrite parse_int_reads_cleaned. cbv zeta.
    destruct (negb _); [done|].
    destruct (py_int limit (str_filter isdecimal text)) as [m|e] eqn:Hint; cbn.
    + intros [= <-]. eapply py_int_digits_nonneg; [apply filter_is_digits|done].
    + rewrite (py_int_raises _ _ _ Hint). done.
Qed.

(* ------------------------------------------------------------------ *)
(** ** The info sections of a report *)

Lemma str_exists_app (p : ascii -> bool) (a b : string) :
  str_exists p (a +:+ b) = (str_exists p a || str_exists p b)%bool.
Proof. induction a as [|c a IH]; simpl; [done|]. by rewrite IH, orb_assoc. Qed.

Lemma replace_keeps_absent (p : ascii -> bool) (old : ascii) (new s : string) :
  str_exists p new = false -> str_exists p s = false ->
  str_exists p (str_replace_char old new s) = false.
Proof.
  intros Hnew. induction s as [|c s IH]; cbn; [done|].
  intros [Hc Hs]%orb_false_iff. destruct (Ascii.eqb c old).
  - by rewrite str_exists_app, Hnew, IH.
  - cbn. by rewrite Hc, IH.
Qed.

Lemma replace_removes (old : ascii) (new s : string) :
  str_exists (fun c => Ascii.eqb c old) new = false ->
  str_exists (fun c => Ascii.eqb c old) (str_replace_char old new s) = false.
Proof.
  intros Hnew. induction s as [|c s IH]; cbn; [done|].
  destruct (Ascii.eqb c old) eqn:Hc.
  - by rewrite str_exists_app, Hnew, IH.
  - cbn. by rewrite Hc, IH.
Qed.

Lemma lower_char_idem (c : ascii) : lower_char (lower_char c) = lower_char c.
Proof. destruct c as [[] [] [] [] [] [] [] []]; reflexivity. Qed.

Lemma lower_has_no_upper (s : string) :
  str_exists (fun c => negb (Ascii.eqb (lower_char c) c)) (lower s) = false.
Proof.
  induction s as [|c s IH]; cbn; [done|].
  by rewrite lower_char_idem, Ascii.eqb_refl, IH.
Qed.

Lemma info_key_normal (drop_colon : bool) (label : string) :
  normal_key drop_colon (Sections.info_key drop_colon label).
Proof.
  unfold normal_key, Sections.info_key. cbv zeta.
  assert (H3 : forall p,
            str_exists p "_" = false ->
            str_exists p (lower label) = false ->
            str_exists p
              (str_replace_char ")" EmptyString
                 (str_replace_char "(" EmptyString
                    (str_replace_char " " "_" (lower label)))) = false).
  { intros p Hp Hl. by repeat apply replace_keeps_absent. }
  assert (Hupper : str_exists (fun c => negb (Ascii.eqb (lower_char c) c))
                     (str_replace_char ")" EmptyString
                        (str_replace_char "(" EmptyString
                           (str_replace_char " " "_" (lower label)))) = false).
  { apply H3; [done|apply lower_has_no_upper]. }
  assert (Hspace : str_exists (fun c => Ascii.eqb c " ")
                     (str_replace_char ")" EmptyString
                        (str_replace_char "(" EmptyString
                           (str_replace_char " " "_" (lower label)))) = false).
  { do 2 (apply replace_keeps_absent; [done|]). by apply replace_removes. }
  assert (Hopen : str_exists (fun c => Ascii.eqb c "(")
                    (str_replace_char ")" EmptyString
                       (str_replace_char "(" EmptyString
                          (str_replace_char " " "_" (lower label)))) = false).
  { apply replace_keeps_absent; [done|]. by apply replace_removes. }
  assert (Hclose : str_exists (fun c => Ascii.eqb c ")")
                     (str_replace_char ")" EmptyString
                        (str_replace_char "(" EmptyString
                           (str_replace_char " " "_" (lower label)))) = false).
  { by apply replace_removes. }
  destruct drop_colon.
  - repeat split; try (by apply replace_keeps_absent). intros _.
    by apply replace_removes.
  - by repeat split.
Qed.

Lemma parse_info_keys_normal drop_colon rows : forall section data,
  map_Forall (fun key _ => normal_key drop_colon key) data.1 ->
  map_Forall (fun key _ => normal_key drop_colon key) data.2 ->
  let r := Sections._parse_info_sections drop_colon rows section data in
  map_Forall (fun key _ => normal_key drop_colon key) r.1
  /\ map_Forall (fun key _ => normal_key drop_colon key) r.2.
Proof.
  cbv zeta. induction rows as [|row rest IH]; intros section data H1 H2; cbn; [done|].
  destruct (Soup.cells row) as [|c0 [|c1 more]]; try by apply IH.
  destruct (str_truthy _); [|by apply IH].
  destruct section; apply IH; cbn; try done;
    (apply map_Forall_insert_2; [apply info_key_normal|done]).
Qed.

Lemma parse_info_second_section drop_colon rows : forall a b,
  Sections._parse_info_sections drop_colon rows Sections.must_know_info_section (a, b)
  = (a, (Sections._parse_info_sections drop_colon rows
           Sections.must_know_info_section (∅, b)).2).
Proof.
  induction rows as [|row rest IH]; intros a b; cbn; [done|].
  destruct (Soup.cells row) as [|c0 [|c1 more]].
  - destruct (str_contains _ _); apply IH.
  - destruct (str_contains _ _); apply IH.
  - destruct (str_truthy _); cbn; apply IH.
Qed.

Lemma parse_info_first_section drop_colon rows : forall a b,
  Forall (fun row => is_section_header row = false) rows ->
  (Sections._parse_info_sections drop_colon rows Sections.grower_info_section (a, b)).2
  = b.
Proof.
  induction rows as [|row rest IH]; intros a b Hrows; cbn; [done|].
  apply Forall_cons in Hrows as [Hrow Hrest]. unfold is_section_header in Hrow.
  destruct (Soup.cells row) as [|c0 [|c1 more]].
  - rewrite Hrow. by apply IH.
  - rewrite Hrow. by apply IH.
  - destruct (str_truthy _); cbn; by apply IH.
Qed.

Lemma parse_info_split drop_colon rows1 header rows2 : forall data,
  Forall (fun row => is_section_header row = false) rows1 ->
  is_section_header header = true ->
  Sections._parse_info_sections drop_colon (rows1 ++ header :: rows2)
    Sections.grower_info_section data
  = Sections._parse_info_sections drop_colon rows2 Sections.must_know_info_section
      (Sections._parse_info_sections drop_colon rows1 Sections.grower_info_section data).
Proof.
  induction rows1 as [|row rest IH]; intros data Hrows Hheader; cbn.
  - unfold is_section_header in Hheader.
    destruct (Soup.cells header) as [|c0 [|c1 more]]; [| |done]; by rewrite Hheader.
  - apply Forall_cons in Hrows as [Hrow Hrest]. unfold is_section_header in Hrow.
    destruct (Soup.cells row) as [|c0 [|c1 more]].
    + rewrite Hrow. by apply IH.
    + rewrite Hrow. by apply IH.
    + by apply IH.
Qed.

(** X13.  The two info dicts of a parsed page.  Every key is in normal
    form: lower case, without space or parenthesis, and in the async
    scraper without colon.  And the heading row splits the rows: the rows
    before the first heading fill [grower_info] only, the rows after it
    fill [must_know_info] only, so each dict is what its own rows give. *)
Theorem info_sections_keys_and_split (drop_colon : bool) :
  (forall rows,
     let r := Sections._parse_info_sections drop_colon rows
                Sections.grower_info_section (∅, ∅) in
     map_Forall (fun key _ => normal_key drop_colon key) r.1
     /\ map_Forall (fun key _ => normal_key drop_colon key) r.2)
  /\ (forall rows1 header rows2,
        Forall (fun row => is_section_header row = false) rows1 ->
        is_section_header header = true ->
        Sections._parse_info_sections drop_colon (rows1 ++ header :: rows2)
          Sections.grower_info_section (∅, ∅)
        = ((Sections._parse_info_sections drop_colon rows1
              Sections.grower_info_section (∅, ∅)).1,
           (Sections._parse_info_sections drop_colon rows2
              Sections.must_know_info_section (∅, ∅)).2)).
Proof.
  split.
  - intros rows. apply parse_info_keys_normal; apply map_Forall_empty.
  - intros rows1 header rows2 Hrows Hheader.
    rewrite parse_info_split by done.
    pose proof (parse_info_first_section drop_colon rows1 ∅ ∅ Hrows) as H2.
    destruct (Sections._parse_info_sections drop_colon rows1
                Sections.grower_info_section (∅, ∅)) as [a b].
    cbn in H2. subst b. by rewrite parse_info_second_section.
Qed.

(* ------------------------------------------------------------------ *)
(** ** The tables of a report *)

Lemma grade_rows_spec rows :
  exists items,
    Sections.grade_rows rows = Ok items
    /\ Forall2 (fun row item =>
                  match Soup.cells row with
                  | c0 :: c1 :: c2 :: c3 :: _ =>
                      grade_name item = Sections._clean_text (Soup.get_text c0)
                      /\ _parse_value (Soup.get_text c1) = Ok (mass_kg item)
                      /\ _parse_value (Soup.get_text c2) = Ok (value_usd item)
                      /\ _parse_value (Soup.get_text c3)
                         = Ok (grade_average_price_usd item)
                  | _ => False
                  end)
         (List.filter (has_cells 4) rows) items.
Proof.
  induction rows as [|row rest (items & IH & Hall)]; cbn; [by exists []|].
  unfold has_cells.
  destruct (Soup.cells row) as [|c0 [|c1 [|c2 [|c3 more]]]] eqn:Hcells; cbn;
    try (exists items; by split).
  destruct (parse_value_total (Soup.get_text c1)) as [mass Hmass].
  destruct (parse_value_total (Soup.get_text c2)) as [value Hvalue].
  destruct (parse_value_total (Soup.get_text c3)) as [price Hprice].
  rewrite Hmass, Hvalue, Hprice, IH. cbn. eexists. split; [done|].
  constructor; [|done]. by rewrite Hcells.
Qed.

Lemma creditor_rows_spec rows :
  exists items,
    Sections.creditor_rows rows = Ok items
    /\ Forall2 creditor_entry_of (List.filter (has_cells 5) rows) items.
Proof.
  induction rows as [|row rest (items & IH & Hall)]; cbn; [by exists []|].
  unfold has_cells.
  destruct (Soup.cells row) as [|c0 [|c1 [|c2 [|c3 [|c4 more]]]]] eqn:Hcells; cbn;
    try (exists items; by split).
  destruct (parse_value_total (Soup.get_text c2)) as [owed Howed].
  destruct (parse_value_total (Soup.get_text c3)) as [paid Hpaid].
  destruct (parse_value_total (Soup.get_text_strip c4)) as [pct Hpct].
  rewrite Howed, Hpaid, Hpct, IH. cbn. eexists. split; [done|].
  constructor; [|done]. exists c0, c1, c2, c3, c4, more. cbn.
  repeat (split; [done|]). by destruct (float_truthy pct).
Qed.

Lemma grade_rows_entries rows :
  exists items,
    Sections.grade_rows rows = Ok items
    /\ Forall2 grade_entry_of (List.filter (has_cells 4) rows) items.
Proof.
  destruct (grade_rows_spec rows) as (items & Hitems & Hall).
  exists items. split; [done|].
  eapply Forall2_impl; [exact Hall|]. cbn. intros row item Hrow.
  unfold grade_entry_of.
  destruct (Soup.cells row) as [|c0 [|c1 [|c2 [|c3 more]]]]; try done.
  by exists c0, c1, c2, c3, more.
Qed.

Lemma sales_summary_spec limit table :
  exists summary,
    Sections._parse_sales_summary limit table = Ok summary
    /\ (is_Some summary <->
        exists header row rest,
          table = Some (header :: row :: rest) /\ has_cells 4 row = true).
Proof.
  unfold Sections._parse_sales_summary.
  destruct table as [[|header [|row rest]]|];
    try (exists None; split; [done|]; split;
         [by intros [? ?]|by intros (? & ? & ? & ? & _)]).
  unfold has_cells.
  destruct (Soup.cells row) as [|c0 [|c1 [|c2 [|c3 more]]]] eqn:Hcells;
    try (exists None; split; [done|]; split; [by intros [? ?]|];
         intros (? & row' & ? & [= _ <- _] & Hn); by rewrite Hcells in Hn).
  destruct (parse_int_total limit (Soup.get_text_strip c0)) as [bales ->].
  destruct (parse_value_total (Soup.get_text c1)) as [mass ->].
  destruct (parse_value_total (Soup.get_text c2)) as [value ->].
  destruct (parse_value_total (Soup.get_text c3)) as [price ->].
  cbn. eexists. split; [done|]. split; [|by eexists].
  intros _. exists header, row, rest. by rewrite Hcells.
Qed.

Lemma sales_summary_entry limit table :
  exists summary,
    Sections._parse_sales_summary limit table = Ok summary
    /\ (is_Some summary <->
        exists header row rest,
          table = Some (header :: row :: rest) /\ has_cells 4 row = true)
    /\ forall header row rest s,
         table = Some (header :: row :: rest) -> summary = Some s ->
         sales_entry_of limit row s.
Proof.
  destruct (sales_summary_spec limit table) as (summary & Hparse & Hsome).
  exists summary. split; [done|]. split; [done|].
  intros header row rest s -> ->. unfold Sections._parse_sales_summary in Hparse.
  destruct (Soup.cells row) as [|c0 [|c1 [|c2 [|c3 more]]]] eqn:Hcells; try done.
  destruct (parse_int_total limit (Soup.get_text_strip c0)) as [bales Hb].
  destruct (parse_value_total (Soup.get_text c1)) as [mass Hmass].
  destruct (parse_value_total (Soup.get_text c2)) as [value Hvalue].
  destruct (parse_value_total (Soup.get_text c3)) as [price Hprice].
  rewrite Hb, Hmass, Hvalue, Hprice in Hparse. cbn in Hparse.
  injection Hparse as <-. exists c0, c1, c2, c3, more. by rewrite Hcells.
Qed.



(* ------------------------------------------------------------------ *)
(** ** From a cell of the page to the store *)

(** X15.  One amount cell without a digit keeps a whole season out of
    the store.  When a row after the header of the grade table has at
    least four cells and the text of its mass, value or price cell has no
    digit, the parsed report carries that entry without the amount, and
    [create_seasonal_data] of the async command, for a pair that is not
    stored yet, raises an integrity error and leaves the store as it
    was. *)
Theorem digitless_grade_cell_blocks_the_season (drop_colon : bool) (limit : N)
    (page : Soup.Page) (report : Report) (header row : Soup.Row)
    (rows : list Soup.Row) (c0 c1 c2 c3 : Soup.Cell) (more : list Soup.Cell)
    (g : Models.Grower) (season : Z) (d : Models.Db) :
  Sections.parse_sections drop_colon limit page = Ok report ->
  Soup.grade_table page = Some (header :: rows) ->
  row ∈ rows ->
  Soup.cells row = c0 :: c1 :: c2 :: c3 :: more ->
  str_exists isdecimal (Soup.get_text c1) = false
  \/ str_exists isdecimal (Soup.get_text c2) = false
  \/ str_exists isdecimal (Soup.get_text c3) = false ->
  Models.SeasonalReport_exists d (Models.grower_number g) season = false ->
  AsyncCommand.create_seasonal_data g season report d = (Raise IntegrityError, d).
Proof.
  intros Hparse Htable Hrow Hcells Hdigit Hfree.
  apply create_seasonal_data_incomplete_grade; [done|].
  unfold Sections.parse_sections in Hparse. cbv zeta in Hparse.
  destruct (sales_summary_spec limit (Soup.sales_table page)) as (summary & Hs & _).
  rewrite Hs in Hparse. unfold Sections._parse_grade_analysis in Hparse.
  rewrite Htable in Hparse. cbn [tail result_bind] in Hparse.
  destruct (grade_rows_spec rows) as (items & Hitems & Hall).
  rewrite Hitems in Hparse. cbn [result_bind] in Hparse.
  destruct (Sections._parse_creditor_recoveries _) as [creditors|e]; [|done].
  injection Hparse as <-. cbn [grade_analysis].
  assert (Hin : row ∈ List.filter (has_cells 4) rows).
  { apply (proj2 (list_elem_of_In _ _)), filter_In.
    split; [by apply (proj1 (list_elem_of_In _ _))|].
    unfold has_cells. by rewrite Hcells. }
  apply list_elem_of_lookup in Hin as [i Hi].
  destruct (Forall2_lookup_l _ _ _ _ _ Hall Hi) as (item & Hitem & Hrel).
  rewrite Hcells in Hrel. destruct Hrel as (_ & Hmass & Hvalue & Hprice).
  apply Exists_exists. exists item. split.
  { by eapply list_elem_of_lookup_2. }
  unfold incomplete_grade.
  destruct Hdigit as [H|[H|H]]; rewrite (parse_value_no_digit _ H) in *.
  - left. congruence.
  - right. left. congruence.
  - right. right. congruence.
Qed.

Lemma digitless_grade_cell_blocks_the_season_witness :
  exists report,
    Sections.parse_sections true 4300 fx_dash_page = Ok report
    /\ AsyncCommand.create_seasonal_data fx_grower_v7 2020 report Models.empty_db
       = (Raise IntegrityError, Models.empty_db).
Proof.
  eexists. split; [reflexivity|].
  refine (digitless_grade_cell_blocks_the_season true 4300 fx_dash_page _ _
            fx_dash_row [fx_dash_row] (fx_cell "L1O") (fx_cell "-")
            (fx_cell "300.00") (fx_cell "2.50") [] fx_grower_v7 2020
            Models.empty_db _ _ _ _ _ _).
  - reflexivity.
  - reflexivity.
  - apply list_elem_of_here.
  - reflexivity.
  - left. reflexivity.
  - reflexivity.
Defined.

(* ------------------------------------------------------------------ *)
(** ** The sequential command: the seasons of a known grower *)

Lemma sequential_grade_items_same_core key items : forall d,
  same_core d (SequentialCommand.create_grade_items key items d).2.
Proof.
  induction items as [|item rest IH]; intros d; cbn; [done|].
  unfold Models.GradeAnalysis_create.
  destruct (mass_kg item), (value_usd item), (grade_average_price_usd item);
    cbn; try done.
  eapply same_core_trans; [|apply IH]. done.
Qed.

Lemma sequential_creditor_items_same_core key items : forall d,
  same_core d (SequentialCommand.create_creditor_items key items d).
Proof.
  induction items as [|item rest IH]; intros d; cbn; [done|].
  destruct (_ && _)%bool; [|apply IH].
  eapply same_core_trans; [|apply IH].
  unfold Models.CreditorRecovery_create, Models.Creditor_get_or_create.
  by case_bool_decide.
Qed.

Lemma sequential_create_seasonal_data_raw g season report d :
  let r := SequentialCommand.create_seasonal_data g season report d in
  Models.growers r.2 = Models.growers d
  /\ (exists l, Models.seasonal_reports r.2 = Models.seasonal_reports d ++ l)
  /\ (r.1 = Ok tt ->
      Models.SeasonalReport_exists r.2 (Models.grower_number g) season = true).
Proof.
  cbv zeta. unfold SequentialCommand.create_seasonal_data.
  match goal with
  | |- context [let '(contractor, d0) := ?c in _] =>
      assert (Hc : same_core d c.2);
      [| destruct c as [c0 d1] ]
  end.
  { assert (Hadd : forall n, same_core d (Models.Contractor_get_or_create n d)).
    { intros n. unfold Models.Contractor_get_or_create. by case_bool_decide. }
    repeat (match goal with
            | |- context [match ?x with _ => _ end] => destruct x
            end; cbn; try apply same_core_refl; try apply Hadd). }
  destruct Hc as [Hg1 Hr1]. cbn in Hg1, Hr1.
  unfold Models.SeasonalReport_create. cbn [Models.grower Models.season_year].
  destruct (_ || _)%bool; cbn.
  { split; [done|]. split; [|done]. exists []. by rewrite app_nil_r, Hr1. }
  set (row := Models.Build_SeasonalReport _ _ _ _ _ _ _).
  set (d2 := Models.Build_Db _ _ _ _ _ _).
  pose proof (sequential_grade_items_same_core (Models.grower_number g, season)
                (grade_analysis report) d2) as [Hg3 Hr3].
  destruct (SequentialCommand.create_grade_items _ _ d2) as [[[]|e] d3]; cbn in *.
  - pose proof (sequential_creditor_items_same_core (Models.grower_number g, season)
                  (creditor_recoveries report) d3) as [Hg4 Hr4].
    split; [congruence|]. split.
    + exists [row]. rewrite Hr4, Hr3. by rewrite Hr1.
    + intros _. apply SeasonalReport_exists_key. rewrite Hr4, Hr3, map_app.
      apply elem_of_app. right. cbn. apply list_elem_of_here.
  - split; [congruence|]. split; [|done]. exists [row]. rewrite Hr3. by rewrite Hr1.
Qed.

Lemma sequential_create_seasonal_data_spec g season report d :
  let r := Models.atomic (SequentialCommand.create_seasonal_data g season report) d in
  Models.growers r.2 = Models.growers d
  /\ (exists l, Models.seasonal_reports r.2 = Models.seasonal_reports d ++ l)
  /\ (r.1 = Ok tt ->
      Models.SeasonalReport_exists r.2 (Models.grower_number g) season = true).
Proof.
  cbv zeta. unfold Models.atomic.
  pose proof (sequential_create_seasonal_data_raw g season report d) as H.
  cbv zeta in H.
  destruct (SequentialCommand.create_seasonal_data g season report d) as [[[]|e] d1];
    [done|]. cbn.
  split; [done|]. split; [|done]. exists []. by rewrite app_nil_r.
Qed.

(** X16.  [scrape_all_seasons_for_grower] of the sequential command.  It
    asks the portal only about seasons of the list it is given, in the
    order of the list, and never about a season that was stored for the
    grower when it began; it stores no grower.  When it returns normally,
    every season of the list is stored for the grower or is one the portal
    has no report for. *)
Theorem sequential_scrape_fetches_missing_seasons (E : Env) (g : Models.Grower)
    (seasons : list Z) (w : World) :
  let r := SequentialCommand.scrape_all_seasons_for_grower E g seasons w in
  (exists asked,
     posts (st r.2) = posts (st w) ++ map (pair (Models.grower_number g)) asked
     /\ asked `sublist_of` seasons
     /\ Forall (fun season =>
                  Models.SeasonalReport_exists (db w) (Models.grower_number g) season
                  = false) asked)
  /\ Models.growers (db r.2) = Models.growers (db w)
  /\ (exists l, Models.seasonal_reports (db r.2) = Models.seasonal_reports (db w) ++ l)
  /\ (r.1 = Ok tt ->
      Forall (fun season =>
                Models.SeasonalReport_exists (db r.2) (Models.grower_number g) season
                = true
                \/ sequential_lookup E (Models.grower_number g) season = None)
        seasons).
Proof.
  cbv zeta. revert w. induction seasons as [|season rest IH]; intros w.
  { cbn. split; [exists []; by rewrite app_nil_r|].
    split; [done|]. split; [exists []; by rewrite app_nil_r|]. done. }
  cbn [SequentialCommand.scrape_all_seasons_for_grower].
  destruct (Models.SeasonalReport_exists (db w) (Models.grower_number g) season) eqn:Hex.
  { destruct (IH w) as ((asked & Hposts & Hsub & Hnew) & Hg & [l Hl] & Hdone).
    split; [exists asked; split; [done|]; split; [by apply sublist_cons|done]|].
    split; [done|]. split; [by exists l|]. intros Hok. apply Forall_cons. split.
    - left. eapply reports_grow_exists; [exact Hl|done].
    - by apply Hdone. }
  assert (Hfetch0 : Models.grower_number g = EmptyString -> forall s,
            Sequential.fetch_report E (Models.grower_number g) season s
            = (Raise IndexError, s)).
  { intros -> s. done. }
  assert (Hfetch : Models.grower_number g <> EmptyString -> forall s,
            Sequential.fetch_report E (Models.grower_number g) season s
            = (Ok (sequential_lookup E (Models.grower_number g) season),
               log_post (Models.grower_number g) season s)).
  { intros Hne s. unfold Sequential.fetch_report, sequential_lookup.
    destruct (Models.grower_number g); [done|]. by destruct (portal E _ season 0). }
  destruct (decide (Models.grower_number g = EmptyString)) as [Hempty|Hne].
  { rewrite (Hfetch0 Hempty). cbn.
    split; [exists []; split; [by rewrite app_nil_r|]; split;
            [apply sublist_nil_l|done]|].
    split; [done|]. split; [exists []; by rewrite app_nil_r|]. done. }
  rewrite (Hfetch Hne). clear Hfetch Hfetch0.
  assert (Hstep : forall (w1 : World),
            posts (st w1) = posts (st w) ++ [(Models.grower_number g, season)] ->
            Models.growers (db w1) = Models.growers (db w) ->
            (exists l, Models.seasonal_reports (db w1)
                       = Models.seasonal_reports (db w) ++ l) ->
            (Models.SeasonalReport_exists (db w1) (Models.grower_number g) season = true
             \/ sequential_lookup E (Models.grower_number g) season = None) ->
            let r := SequentialCommand.scrape_all_seasons_for_grower E g rest w1 in
            (exists asked,
               posts (st r.2)
               = posts (st w) ++ map (pair (Models.grower_number g)) asked
               /\ asked `sublist_of` season :: rest
               /\ Forall (fun season =>
                            Models.SeasonalReport_exists (db w)
                              (Models.grower_number g) season = false) asked)
            /\ Models.growers (db r.2) = Models.growers (db w)
            /\ (exists l, Models.seasonal_reports (db r.2)
                          = Models.seasonal_reports (db w) ++ l)
            /\ (r.1 = Ok tt ->
                Forall (fun season =>
                          Models.SeasonalReport_exists (db r.2)
                            (Models.grower_number g) season = true
                          \/ sequential_lookup E (Models.grower_number g) season = None)
                  (season :: rest))).
  { intros w1 Hposts1 Hg1 [l1 Hl1] Hseason. cbv zeta.
    destruct (IH w1) as ((asked & Hposts & Hsub & Hnew) & Hg & [l Hl] & Hdone).
    split.
    { exists (season :: asked). split.
      - rewrite Hposts, Hposts1, <- app_assoc. done.
      - split; [by apply sublist_skip|]. apply Forall_cons. split; [done|].
        eapply Forall_impl; [exact Hnew|]. cbn. intros s Hs.
        destruct (Models.SeasonalReport_exists (db w) (Models.grower_number g) s)
          eqn:Hold; [|done].
        by rewrite (reports_grow_exists l1 (db w) (db w1) _ _ Hl1 Hold) in Hs. }
    split; [congruence|]. split.
    { exists (l1 ++ l). by rewrite Hl, Hl1, app_assoc. }
    intros Hok. apply Forall_cons. split; [|by apply Hdone].
    destruct Hseason as [Hstored|Habsent]; [|by right].
    left. eapply reports_grow_exists; [exact Hl|done]. }
  assert (Hnil : exists l : list Models.SeasonalReport,
            Models.seasonal_reports (db w) = Models.seasonal_reports (db w) ++ l).
  { exists []. by rewrite app_nil_r. }
  destruct (sequential_lookup E (Models.grower_number g) season) as [report|]
    eqn:Hlook.
  - pose proof (sequential_create_seasonal_data_spec g season report (db w))
      as (Hg1 & Hl1 & Hok1). cbv zeta in Hg1, Hl1, Hok1.
    destruct (Models.atomic _ (db w)) as [[[]|e] d1]; cbn [fst snd] in *.
    + apply (Hstep {| db := d1;
                      st := log_post (Models.grower_number g) season (st w) |});
        [done|done|done|]. left. by apply Hok1.
    + split.
      { exists [season]. split; [done|]. split; [|by apply Forall_singleton].
        apply sublist_skip, sublist_nil_l. }
      split; [done|]. split; [done|]. done.
  - apply (Hstep {| db := db w;
                    st := log_post (Models.grower_number g) season (st w) |});
      [done|done|done|]. by right.
Qed.

(* ------------------------------------------------------------------ *)
(** ** What a fetch of several reports returns *)

Lemma async_fetch_multiple_results E config pairs : forall st,
  (Async.fetch_multiple_reports E config pairs st).1
  = omap (fun p => pair p <$> async_lookup E config p.1 p.2) pairs.
Proof.
  induction pairs as [|[gid season] rest IH]; intros st; cbn; [done|].
  unfold Async._fetch_with_metadata. rewrite async_fetch_frame.
  match goal with
  | |- context [Async.fetch_multiple_reports E config rest ?s] => specialize (IH s)
  end.
  destruct (Async.fetch_multiple_reports E config rest _) as [fetched st2].
  cbn in IH |- *. rewrite <- IH. by destruct (async_lookup E config gid season).
Qed.

Lemma threaded_fetch_multiple_results E pairs : forall st,
  (Threaded.fetch_multiple_reports_threaded E pairs st).1
  = omap (fun p => pair p <$> threaded_lookup E p.1 p.2) pairs.
Proof.
  induction pairs as [|[gid season] rest IH]; intros st; cbn; [done|].
  assert (Hlook : threaded_lookup E gid season
                  = match (Threaded.fetch_report E gid season st).1 with
                    | Ok report_data => report_data
                    | Raise _ => None
                    end).
  { unfold threaded_lookup, Threaded.fetch_report. destruct gid; [done|].
    by destruct (portal E _ season 0). }
  rewrite Hlook. clear Hlook.
  destruct (Threaded.fetch_report E gid season st) as [r st1]. specialize (IH st1).
  destruct (Threaded.fetch_multiple_reports_threaded E rest st1) as [fetched st2].
  cbn in IH |- *. rewrite <- IH. by destruct r as [[report|]|e].
Qed.

Lemma seasons_with_report_spec (look : string -> Z -> option Report) (gid : string)
    (seasons : list Z) :
  let results := omap (fun p : string * Z => pair p <$> look p.1 p.2)
                   (map (pair gid) seasons) in
  (forall gid' season report,
     (gid', season, report) ∈ results
     <-> gid' = gid /\ season ∈ seasons /\ look gid season = Some report)
  /\ map (fun x : string * Z * Report => x.1.2) results `sublist_of` seasons.
Proof.
  cbv zeta. split.
  - intros gid' season report. rewrite list_elem_of_omap. split.
    + intros ([g s] & Hin & Hlook). apply list_elem_of_fmap in Hin as (s' & [= -> ->] & Hin).
      cbn in Hlook. destruct (look gid s') as [r|] eqn:Hl; [|done].
      cbn in Hlook. injection Hlook as <- <- <-. done.
    + intros (-> & Hin & Hlook). exists (gid, season). split.
      * apply list_elem_of_fmap. by exists season.
      * cbn. by rewrite Hlook.
  - induction seasons as [|s rest IH]; cbn; [done|].
    destruct (look gid s); cbn; [by apply sublist_skip|by apply sublist_cons].
Qed.

Lemma threaded_submit_futures E gid seasons : forall st,
  (ThreadedAllSeasons.submit E gid seasons st).1
  = map (fun season => (season, (Threaded.fetch_report E gid season st0).1)) seasons.
Proof.
  induction seasons as [|season rest IH]; intros st; cbn; [done|].
  assert (Hlook : (Threaded.fetch_report E gid season st).1
                  = (Threaded.fetch_report E gid season st0).1).
  { unfold Threaded.fetch_report. destruct gid; [done|].
    by destruct (portal E _ season 0). }
  destruct (Threaded.fetch_report E gid season st) as [r st1]. specialize (IH st1).
  destruct (ThreadedAllSeasons.submit E gid rest st1) as [futures st2].
  cbn [fst] in *. by rewrite IH, Hlook.
Qed.

(** X17.  [fetch_all_seasons_for_grower] of the async and of the threaded
    scraper returns exactly the seasons from the start season to 2025 for
    which a lookup of that grower gives a report, each with that report
    and under that grower's identifier, and each season once, whatever
    state the scraper is in.  The async results come in ascending order
    of season; the threaded results come in the order the tasks complete,
    whatever that order is. *)
Theorem fetch_all_seasons_returns_the_seasons_with_a_report (E : Env)
    (config : Async.ScrapingConfig)
    (as_completed : list (Z * PyResult (option Report))
                    -> list (Z * PyResult (option Report)))
    (gid : string) (start_season : Z) (st : St) :
  (forall futures, as_completed futures ≡ₚ futures) ->
  let async_results :=
    (AsyncAllSeasons.fetch_all_seasons_for_grower E config gid start_season st).1 in
  let threaded_results :=
    (ThreadedAllSeasons.fetch_all_seasons_for_grower E as_completed gid
       start_season st).1 in
  (forall gid' season report,
     (gid', season, report) ∈ async_results
     <-> gid' = gid /\ start_season <= season <= 2025
         /\ async_lookup E config gid season = Some report)
  /\ map (fun x : string * Z * Report => x.1.2) async_results
     `sublist_of` range start_season 2026
  /\ (forall gid' season report,
        (gid', season, report) ∈ threaded_results
        <-> gid' = gid /\ start_season <= season <= 2025
            /\ threaded_lookup E gid season = Some report)
  /\ NoDup (map (fun x : string * Z * Report => x.1.2) threaded_results).
Proof.
  intros Hperm. cbv zeta.
  assert (Hrange : forall season,
            season ∈ range start_season 2026 <-> start_season <= season <= 2025).
  { intros season. unfold range. rewrite elem_of_seqZ. lia. }
  split; [|split].
  - unfold AsyncAllSeasons.fetch_all_seasons_for_grower.
    rewrite async_fetch_multiple_results. change (current_year + 1) with 2026.
    destruct (seasons_with_report_spec (async_lookup E config) gid
                (range start_season 2026)) as [Ha1 _]. cbv zeta in Ha1.
    intros. by rewrite Ha1, Hrange.
  - unfold AsyncAllSeasons.fetch_all_seasons_for_grower.
    rewrite async_fetch_multiple_results. change (current_year + 1) with 2026.
    by destruct (seasons_with_report_spec (async_lookup E config) gid
                   (range start_season 2026)) as [_ Ha2].
  - unfold ThreadedAllSeasons.fetch_all_seasons_for_grower. cbv zeta.
    pose proof (threaded_submit_futures E gid (range start_season 2026) st) as Hf.
    destruct (ThreadedAllSeasons.submit E gid (range start_season 2026) st)
      as [futures st1].
    cbn [fst] in *. subst futures.
    set (futures := map _ (range start_season 2026)).
    split.
    + intros gid' season report. rewrite list_elem_of_omap. split.
      * intros ([s r] & Hin & Hsome). rewrite (Hperm futures) in Hin.
        apply list_elem_of_fmap in Hin as (s' & [= -> ->] & Hin).
        apply Hrange in Hin. cbn [fst snd] in Hsome. unfold threaded_lookup.
        destruct (Threaded.fetch_report E gid s' st0).1 as [[rep|]|e] eqn:Hfr;
          try done.
        injection Hsome as Hg Hs Hr. subst. by rewrite Hfr.
      * intros (-> & Hin & Hlook). apply Hrange in Hin.
        exists (season, (Threaded.fetch_report E gid season st0).1). split.
        { rewrite (Hperm futures). apply list_elem_of_fmap. by exists season. }
        cbn [fst snd]. unfold threaded_lookup in Hlook.
        destruct (Threaded.fetch_report E gid season st0).1 as [[rep|]|e]; try done.
        by injection Hlook as Hr; subst.
    + assert (Hsub : forall l : list (Z * PyResult (option Report)),
                map (fun x : string * Z * Report => x.1.2)
                  (omap (fun future : Z * PyResult (option Report) =>
                           match future.2 with
                           | Ok (Some report_data) =>
                               Some (gid, future.1, report_data)
                           | _ => None
                           end) l)
                `sublist_of` map fst l).
      { induction l as [|[s r] l IH]; cbn; [done|].
        destruct r as [[rep|]|e]; cbn;
          [by apply sublist_skip|by apply sublist_cons|by apply sublist_cons]. }
      eapply sublist_NoDup; cycle 1; [apply Hsub|].
      rewrite (Hperm futures). subst futures. rewrite map_map. cbn.
      rewrite map_id. unfold range. apply NoDup_seqZ.
Qed.

Lemma fetch_all_seasons_returns_the_seasons_with_a_report_witness :
  let threaded_results :=
    (ThreadedAllSeasons.fetch_all_seasons_for_grower fx_threaded_v3 reverse "V3"
       2018 st0).1 in
  (forall futures : list (Z * PyResult (option Report)), reverse futures ≡ₚ futures)
  /\ map (fun x : string * Z * Report => x.1.2) threaded_results
     = [2025; 2024; 2023; 2022; 2021; 2020; 2019]
  /\ (forall gid' season report,
        (gid', season, report) ∈ threaded_results
        <-> gid' = "V3" /\ 2018 <= season <= 2025
            /\ threaded_lookup fx_threaded_v3 "V3" season = Some report)
  /\ NoDup (map (fun x : string * Z * Report => x.1.2) threaded_results).
Proof.
  cbv zeta.
  assert (Hperm : forall futures : list (Z * PyResult (option Report)),
            reverse futures ≡ₚ futures) by (intros; apply reverse_Permutation).
  split; [exact Hperm|]. split; [vm_compute; reflexivity|].
  destruct (fetch_all_seasons_returns_the_seasons_with_a_report fx_threaded_v3
              fx_config reverse "V3" 2018 st0 Hperm) as (_ & _ & Ht & Hnd).
  split; [exact Ht|exact Hnd].
Defined.

(* ------------------------------------------------------------------ *)
(** ** The saved count of the summary *)

Lemma seasons_of_exists d gid season :
  Models.SeasonalReport_exists d gid season = true
  <-> season ∈ Models.seasons_of d gid.
Proof.
  unfold Models.SeasonalReport_exists, Models.seasons_of.
  rewrite existsb_exists, list_elem_of_fmap. split.
  - intros (r & Hin & [Hg Hs]%andb_true_iff).
    apply String.eqb_eq in Hg. apply Z.eqb_eq in Hs. exists r. split; [done|].
    apply list_elem_of_filter. split; [done|]. by apply list_elem_of_In.
  - intros (r & -> & [Hg Hin]%list_elem_of_filter). exists r.
    split; [by apply list_elem_of_In|]. rewrite Hg, String.eqb_refl. cbn.
    apply Z.eqb_refl.
Qed.

Lemma exists_after_new_row d d' row g season season' :
  Models.seasonal_reports d' = Models.seasonal_reports d ++ [row] ->
  report_key row = (g, season) -> season' <> season ->
  Models.SeasonalReport_exists d g season' = false ->
  Models.SeasonalReport_exists d' g season' = false.
Proof.
  unfold Models.SeasonalReport_exists, report_key. intros -> [= Hg Hs] Hne Hold.
  rewrite existsb_app, Hold. cbn. rewrite Hs.
  destruct (Z.eqb_spec season season'); [congruence|]. by rewrite andb_false_r.
Qed.

Lemma create_seasonal_data_rows g season report d :
  let r := AsyncCommand.create_seasonal_data g season report d in
  report_rows d <= report_rows r.2 <= report_rows d + 1.
Proof.
  cbv zeta. unfold report_rows.
  destruct (create_seasonal_data_spec g season report d) as (_ & _ & _ & [->|H]).
  - lia.
  - destruct H as (row & _ & _ & ->). rewrite length_app. cbn. lia.
Qed.

Lemma save_seasonal_results_count g results : forall d,
  NoDup (map (fun x : string * Z * Report => x.1.2) results) ->
  Forall (fun x : string * Z * Report =>
            Models.SeasonalReport_exists d (Models.grower_number g) x.1.2 = false)
    results ->
  let r := AsyncCommand.save_seasonal_results g results d in
  r.1 = report_rows r.2 - report_rows d /\ 0 <= r.1.
Proof.
  induction results as [|[[gid season] report] rest IH]; intros d Hnd Hnew; cbv zeta.
  { cbn. lia. }
  cbn [AsyncCommand.save_seasonal_results].
  cbn in Hnd. apply NoDup_cons in Hnd as [Hnotin Hnd].
  apply Forall_cons in Hnew as [Hfree Hnew]. cbn in Hfree.
  pose proof (create_seasonal_data_stores g season report d) as Hstores.
  pose proof (create_seasonal_data_spec g season report d) as (_ & _ & Hraise & _).
  cbv zeta in Hstores.
  destruct (AsyncCommand.create_seasonal_data g season report d) as [[[]|e] d1];
    cbn [fst snd] in *.
  - destruct (Hstores Hfree eq_refl) as [(row & Hkey & Hrows) _].
    assert (Hnew1 : Forall (fun x : string * Z * Report =>
                              Models.SeasonalReport_exists d1 (Models.grower_number g)
                                x.1.2 = false) rest).
    { apply Forall_forall. intros x Hx.
      eapply exists_after_new_row; [exact Hrows|exact Hkey| |].
      - intros Heq. apply Hnotin. apply list_elem_of_fmap. exists x. by split.
      - rewrite Forall_forall in Hnew. by apply Hnew. }
    destruct (IH d1 Hnd Hnew1) as [Hcount Hpos].
    destruct (AsyncCommand.save_seasonal_results g rest d1) as [saved d2].
    cbn [fst snd] in *. unfold report_rows in *. rewrite Hrows, length_app in Hcount.
    cbn in Hcount. lia.
  - rewrite (Hraise e eq_refl). by apply IH.
Qed.

Lemma fetch_all_seasons_for_one_count E config result w :
  let r := AsyncCommand.fetch_all_seasons_for_one E config result w in
  r.1 = report_rows (db r.2) - report_rows (db w) /\ 0 <= r.1.
Proof.
  cbv zeta. unfold AsyncCommand.fetch_all_seasons_for_one.
  destruct (AsyncCommand.seasons_to_fetch _ _) as [|season missing] eqn:Hmiss;
    [cbn; lia|].
  rewrite <- Hmiss.
  pose proof (async_fetch_multiple_results E config
                (map (pair (Async.grower_id result))
                   (AsyncCommand.seasons_to_fetch (Async.first_season result)
                      (AsyncCommand.get_existing_seasons_for_grower (db w)
                         (Async.grower_id result)))) (st w)) as Hres.
  destruct (Async.fetch_multiple_reports E config _ (st w)) as [results s1].
  cbn [fst] in Hres. unfold AsyncCommand.get_grower_by_id.
  destruct (Models.Grower_get (db w) (Async.grower_id result)) as [g|] eqn:Hget;
    [|cbn; lia].
  destruct (seasons_with_report_spec (async_lookup E config) (Async.grower_id result)
              (AsyncCommand.seasons_to_fetch (Async.first_season result)
                 (AsyncCommand.get_existing_seasons_for_grower (db w)
                    (Async.grower_id result)))) as [Hmem Hsub].
  cbv zeta in Hmem, Hsub. rewrite <- Hres in Hmem, Hsub.
  assert (Hnd : NoDup (map (fun x : string * Z * Report => x.1.2) results)).
  { eapply sublist_NoDup; cycle 1; [exact Hsub|].
    unfold AsyncCommand.seasons_to_fetch, range. apply NoDup_filter, NoDup_seqZ. }
  assert (Hnew : Forall (fun x : string * Z * Report =>
                           Models.SeasonalReport_exists (db w) (Models.grower_number g)
                             x.1.2 = false) results).
  { apply Forall_forall. intros [[gid' s'] report] Hx.
    apply Hmem in Hx as (_ & Hin & _). apply seasons_to_fetch_spec in Hin as [_ Hnot].
    cbn. rewrite (Grower_get_number _ _ _ Hget).
    destruct (Models.SeasonalReport_exists (db w) (Async.grower_id result) s')
      eqn:Hex; [|done].
    destruct Hnot. by apply seasons_of_exists. }
  pose proof (save_seasonal_results_count g results (db w) Hnd Hnew) as Hcount.
  cbv zeta in Hcount.
  by destruct (AsyncCommand.save_seasonal_results g results (db w)) as [saved d1].
Qed.

Lemma fetch_all_seasons_count E config results : forall w,
  let r := AsyncCommand.fetch_all_seasons_for_discovered_growers E config results w in
  r.1 = report_rows (db r.2) - report_rows (db w) /\ 0 <= r.1.
Proof.
  induction results as [|x rest IH]; intros w; cbv zeta; cbn; [lia|].
  pose proof (fetch_all_seasons_for_one_count E config x w) as H1. cbv zeta in H1.
  destruct (AsyncCommand.fetch_all_seasons_for_one E config x w) as [saved w1].
  specialize (IH w1). cbv zeta in IH.
  destruct (AsyncCommand.fetch_all_seasons_for_discovered_growers E config rest w1)
    as [total w2].
  cbn [fst snd] in *. lia.
Qed.

Lemma save_discovered_growers_rows E results : forall d,
  let d' := AsyncCommand.save_discovered_growers E results d in
  report_rows d <= report_rows d' <= report_rows d + Z.of_nat (length results).
Proof.
  induction results as [|r rest IH]; intros d; cbv zeta; cbn [length]; [cbn; lia|].
  cbn [AsyncCommand.save_discovered_growers].
  pose proof (get_or_create_grower_spec E (Async.first_report_data r) d) as Hspec.
  cbv zeta in Hspec.
  destruct (AsyncCommand.get_or_create_grower E (Async.first_report_data r) d)
    as [[g|e] d1]; cbn [fst snd] in *.
  - destruct Hspec as (_ & _ & _ & Hreports & _).
    pose proof (create_seasonal_data_rows g (Async.first_season r)
                  (Async.first_report_data r) d1) as Hrows. cbv zeta in Hrows.
    specialize (IH (AsyncCommand.create_seasonal_data g (Async.first_season r)
                      (Async.first_report_data r) d1).2). cbv zeta in IH.
    unfold report_rows in *. rewrite Hreports in Hrows. lia.
  - destruct Hspec as [-> _]. specialize (IH d). cbv zeta in IH. lia.
Qed.

Lemma process_batch_saved_count E config a b discover_only resume w :
  let r := AsyncCommand.process_batch E config a b discover_only resume w in
  0 <= r.1.2
  /\ r.1.2 <= report_rows (db r.2) - report_rows (db w) <= r.1.2 + r.1.1.
Proof.
  cbv zeta. unfold AsyncCommand.process_batch.
  destruct (if resume then _ else _) as [|gid ids]; [cbn; lia|].
  destruct (Async.discover_growers_batch E config _ (st w)) as [[|r results] s];
    [cbn; lia|].
  pose proof (save_discovered_growers_rows E (r :: results) (db w)) as H1.
  cbv zeta in H1.
  destruct discover_only; [cbn [fst snd db] in *; lia|].
  pose proof (fetch_all_seasons_count E config (r :: results)
                {| db := AsyncCommand.save_discovered_growers E (r :: results) (db w);
                   st := s |}) as H2. cbv zeta in H2.
  destruct (AsyncCommand.fetch_all_seasons_for_discovered_growers E config _ _)
    as [saved w2].
  cbn [fst snd db] in *. lia.
Qed.

Lemma run_batches_saved_count E o starts : forall w,
  let r := AsyncCommand.run_batches E o starts w in
  0 <= r.1.2
  /\ r.1.2 <= report_rows (db r.2) - report_rows (db w) <= r.1.2 + r.1.1.
Proof.
  induction starts as [|bs rest IH]; intros w; cbv zeta; cbn; [lia|].
  pose proof (process_batch_saved_count E (AsyncCommand.config_of o) bs
                (Z.min (bs + AsyncCommand.opt_batch_size o - 1) (AsyncCommand.opt_end o))
                (AsyncCommand.opt_discover_only o) (AsyncCommand.opt_resume o) w) as H1.
  cbv zeta in H1.
  destruct (AsyncCommand.process_batch E _ bs _ _ _ w) as [[discovered saved] w1].
  specialize (IH w1). cbv zeta in IH.
  destruct (AsyncCommand.run_batches E o rest w1) as [[total_d total_s] w2].
  cbn [fst snd] in *. lia.
Qed.

(** X18.  The saved count of the async command's summary never
    over-reports.  When the command completes with ["Discovered D"] and
    ["Saved S seasonal reports"], the store has gained at least [S]
    seasonal reports and at most [S + D]: every report counted in [S] is a
    new row, and the only rows the count leaves out are first seasons, at
    most one for each discovered grower. *)
Theorem async_summary_saved_count (E : Env) (o : AsyncCommand.Options)
    (username password : string) (w : World) (total_discovered total_reports_saved : Z) :
  (AsyncCommand.handle E o username password w).1
  = Completed total_discovered total_reports_saved ->
  let d' := db (AsyncCommand.handle E o username password w).2 in
  0 <= total_reports_saved
  /\ total_reports_saved <= report_rows d' - report_rows (db w)
     <= total_reports_saved + total_discovered.
Proof.
  unfold AsyncCommand.handle. destruct (negb _); [done|].
  destruct (range_step _ _ _) as [starts|e]; [|done].
  pose proof (run_batches_saved_count E o starts w) as H. cbv zeta in H.
  destruct (AsyncCommand.run_batches E o starts w) as [[total_d total_s] w1].
  cbn [fst snd] in *. intros [= <- <-]. lia.
Qed.

Lemma async_summary_saved_count_witness :
  let d' := db (AsyncCommand.handle fx_threaded_v3 fx_options "user" "secret"
                  fx_world0).2 in
  0 <= 6 /\ 6 <= report_rows d' - report_rows (db fx_world0) <= 6 + 1.
Proof.
  refine (async_summary_saved_count fx_threaded_v3 fx_options "user" "secret"
            fx_world0 1 6 _).
  vm_compute. reflexivity.
Defined.

(* ------------------------------------------------------------------ *)
(** ** The first sales year of a grower *)

(** X19.  The three commands differ on a first sales year that does not
    read as an integer.  The async command converts it with
    [_safe_int_convert], so that getting or creating the grower can only
    fail with an integrity error of the store.  The threaded and the
    sequential command call [int] unguarded: [create_grower_from_report]
    raises [ValueError] and stores nothing, and in the threaded command
    the discovered grower and its first season are dropped. *)
Theorem first_sales_year_not_a_number (E : Env) (report : Report) (d : Models.Db)
    (v : string) :
  must_know_info report !! "first_sales_record_found" = Some v ->
  str_truthy v = true ->
  (exists e, py_int (int_max_str_digits E) v = Raise e) ->
  (forall e, (AsyncCommand.get_or_create_grower E report d).1 = Raise e ->
             e = IntegrityError)
  /\ ThreadedCommand.create_grower_from_report E report d = (Raise ValueError, d)
  /\ SequentialCommand.create_grower_from_report E report d = (Raise ValueError, d)
  /\ forall gid first_season,
       ThreadedCommand.save_discovered_growers E [(gid, first_season, report)] d = d.
Proof.
  intros Hv Htruthy [e Hint]. pose proof (py_int_raises _ _ _ Hint) as ->.
  split.
  - intros e. unfold AsyncCommand.get_or_create_grower.
    destruct (safe_int_convert_ok E (must_know_info report !! "first_sales_record_found"))
      as [fsy ->].
    unfold Models.Grower_get_or_create, Models.Grower_create.
    destruct (Models.Grower_get d _); [done|].
    destruct (_ || _)%bool; [|done]. by intros [= <-].
  - assert (Ht : ThreadedCommand.create_grower_from_report E report d
                 = (Raise ValueError, d)).
    { unfold ThreadedCommand.create_grower_from_report. cbv zeta.
      by rewrite Hv, Htruthy, Hint. }
    split; [done|]. split.
    + unfold SequentialCommand.create_grower_from_report. cbv zeta.
      by rewrite Hv, Htruthy, Hint.
    + intros gid first_season. cbn [ThreadedCommand.save_discovered_growers].
      unfold Models.atomic. by rewrite Ht.
Qed.

Lemma first_sales_year_not_a_number_witness :
  (forall e, (AsyncCommand.get_or_create_grower fx_v3 fx_unknown_year_report
                Models.empty_db).1 = Raise e -> e = IntegrityError)
  /\ ThreadedCommand.create_grower_from_report fx_v3 fx_unknown_year_report
       Models.empty_db = (Raise ValueError, Models.empty_db)
  /\ SequentialCommand.create_grower_from_report fx_v3 fx_unknown_year_report
       Models.empty_db = (Raise ValueError, Models.empty_db)
  /\ forall gid first_season,
       ThreadedCommand.save_discovered_growers fx_v3
         [(gid, first_season, fx_unknown_year_report)] Models.empty_db
       = Models.empty_db.
Proof.
  refine (first_sales_year_not_a_number fx_v3 fx_unknown_year_report Models.empty_db
            "n/a" _ _ _).
  - reflexivity.
  - reflexivity.
  - exists ValueError. reflexivity.
Defined.

(* ------------------------------------------------------------------ *)
(** ** Which identifiers a threaded run asks the portal about *)

(** X20.  Every analysis request the threaded command posts is for an
    identifier [V<i>] of the configured range, [start <= i <= end]; in
    resume mode none is for a grower the store held when the run began. *)
Theorem threaded_run_asks_only_about_its_range (E : Env)
    (o : ThreadedCommand.Options) (typed_username typed_password : string)
    (w : World) :
  exists delta,
    posts (st (ThreadedCommand.handle E o typed_username typed_password w).2)
    = posts (st w) ++ delta
    /\ forall gid season, (gid, season) ∈ delta ->
         (exists i, gid = "V" +:+ pretty i
                    /\ ThreadedCommand.opt_start o <= i <= ThreadedCommand.opt_end o)
         /\ (ThreadedCommand.opt_resume o = true ->
             Models.Grower_exists (db w) gid = false).
Proof.
  set (allowed := fun gid : string =>
         (exists i, gid = "V" +:+ pretty i
                    /\ ThreadedCommand.opt_start o <= i <= ThreadedCommand.opt_end o)
         /\ (ThreadedCommand.opt_resume o = true ->
             Models.Grower_exists (db w) gid = false)).
  destruct (tlift_handle E (fun a b => posts_within allowed (st a) (st b)) allowed)
    with (o := o) (typed_username := typed_username)
         (typed_password := typed_password) (w := w) as (delta & Hposts & Hall).
  - intros a. apply posts_within_refl.
  - intros a b c. apply posts_within_trans.
  - intros gid season d s Hgid. cbn [st]. unfold Threaded.fetch_report.
    destruct gid as [|c gid]; [apply posts_within_refl|].
    exists [(String c gid, season)]. split; [|by apply Forall_singleton].
    destruct (portal E _ season 0) as [e|text]; [done|].
    by destruct (Threaded.parse_report E text).
  - intros d s. cbn [st]. exists []. split; [|done]. cbn. by rewrite app_nil_r.
  - intros first_season report d s. apply posts_within_refl.
  - intros g season report d s. apply posts_within_refl.
  - intros i Hi Hno. split; [eauto | done].
  - exists delta. split; [done|]. intros gid season Hin.
    rewrite Forall_forall in Hall. exact (Hall (gid, season) Hin).
Qed.

(* ------------------------------------------------------------------ *)
(** ** The two concurrent scrapers on a stable portal *)

Lemma async_lookup_stable E config gid season :
  0 <= Async.max_retries config ->
  (forall attempt, portal E gid season attempt = portal E gid season 0) ->
  async_lookup E config gid season
  = match portal E gid season 0 with
    | Failed _ => None
    | Body html => Async.parse_report E html
    end.
Proof.
  intros Hm Hstable. unfold async_lookup, Async.fetch_report_with_retry, range.
  replace (Async.max_retries config + 1 - 0)
    with (Z.of_nat (Z.to_nat (Async.max_retries config + 1))) by lia.
  destruct (portal E gid season 0) as [e|html] eqn:Hp.
  - rewrite retry_loop_all_raise; [done|lia|lia|].
    intros i _. exists e. by rewrite Hstable.
  - destruct (Async.parse_report E html) as [report|] eqn:Hparse.
    + by rewrite (retry_loop_raise_then_report E config gid season 0 0 _ st0 html report);
        [|lia|lia|intros; lia|done|done].
    + rewrite retry_loop_all_absent; [done|lia|lia|].
      intros i _. exists html. by rewrite Hstable.
Qed.

Lemma threaded_lookup_page E gid season :
  gid <> EmptyString ->
  threaded_lookup E gid season
  = match portal E gid season 0 with
    | Failed _ => None
    | Body html => Threaded.parse_report E html
    end.
Proof.
  intros Hgid. unfold threaded_lookup, Threaded.fetch_report.
  destruct gid as [|c gid]; [done|]. by destruct (portal E _ season 0).
Qed.

Lemma async_discover_by_lookup E config gid years : forall st,
  (Async.discover_loop E config gid years st).1
  = (fun x : Z * Report =>
       {| Async.grower_id := gid; Async.first_season := x.1;
          Async.first_report_data := x.2 |})
    <$> first_named (async_lookup E config gid) years.
Proof.
  induction years as [|y rest IH]; intros st; cbn [Async.discover_loop first_named];
    [done|].
  rewrite async_fetch_frame.
  destruct (async_lookup E config gid y) as [report|]; [|apply IH].
  destruct (has_name report); [done|apply IH].
Qed.

Lemma threaded_discover_by_lookup E gid years : forall st,
  gid <> EmptyString ->
  (Threaded.discover_loop E gid years st).1
  = Ok ((fun x : Z * Report => (gid, x.1, x.2))
        <$> first_named (threaded_lookup E gid) years).
Proof.
  induction years as [|y rest IH]; intros st Hgid;
    cbn [Threaded.discover_loop first_named]; [done|].
  rewrite threaded_fetch_frame by done.
  destruct (threaded_lookup E gid y) as [report|]; [|by apply IH].
  destruct (has_name report); [done|by apply IH].
Qed.

(** The section parsers of the two scrapers differ in the colon of a
    label only: they give the same report on a page none of whose labels
    has one. *)
Lemma str_contains_colon_cons c s :
  str_contains ":" (String c s) = (Ascii.eqb c ":" || str_contains ":" s)%bool.
Proof.
  cbn [str_contains String.prefix].
  destruct (ascii_dec ":" c) as [<-|Hne].
  - cbn. by destruct s.
  - cbn. destruct (Ascii.eqb_spec c ":") as [->|_]; [done|]. done.
Qed.

Lemma lower_char_colon c : Ascii.eqb (lower_char c) ":" = Ascii.eqb c ":".
Proof. by destruct c as [[] [] [] [] [] [] [] []]. Qed.

Lemma str_contains_colon_app s t :
  str_contains ":" (s +:+ t) = (str_contains ":" s || str_contains ":" t)%bool.
Proof.
  induction s as [|c s IH].
  - cbn. by destruct t.
  - change (String c s +:+ t) with (String c (s +:+ t)).
    rewrite !str_contains_colon_cons, IH. by rewrite orb_assoc.
Qed.

Lemma str_replace_char_colon_free old new s :
  old <> ":"%char -> str_contains ":" new = false ->
  str_contains ":" (str_replace_char old new s) = str_contains ":" s.
Proof.
  intros Hold Hnew. induction s as [|c s IH]; [done|]. cbn [str_replace_char].
  destruct (Ascii.eqb_spec c old) as [->|Hne].
  - rewrite str_contains_colon_app, Hnew, IH, str_contains_colon_cons.
    destruct (Ascii.eqb_spec old ":"); done.
  - by rewrite !str_contains_colon_cons, IH.
Qed.

Lemma str_replace_colon_id s :
  str_contains ":" s = false -> str_replace_char ":" EmptyString s = s.
Proof.
  induction s as [|c s IH]; [done|]. rewrite str_contains_colon_cons.
  intros [Hc Hs]%orb_false_elim. cbn [str_replace_char]. rewrite Hc. by rewrite IH.
Qed.

Lemma lower_colon s : str_contains ":" (lower s) = str_contains ":" s.
Proof.
  induction s as [|c s IH]; [done|]. cbn [lower].
  by rewrite !str_contains_colon_cons, lower_char_colon, IH.
Qed.

Lemma info_key_without_colon label :
  str_contains ":" label = false ->
  Sections.info_key true label = Sections.info_key false label.
Proof.
  intros Hfree. unfold Sections.info_key. apply str_replace_colon_id.
  by rewrite !str_replace_char_colon_free, lower_colon.
Qed.

Lemma _parse_info_sections_without_colon rows : forall section data,
  (forall row c0 rest, row ∈ rows -> Soup.cells row = c0 :: rest ->
     str_contains ":" (Sections._clean_text (Soup.get_text c0)) = false) ->
  Sections._parse_info_sections true rows section data
  = Sections._parse_info_sections false rows section data.
Proof.
  induction rows as [|row rows IH]; intros section data Hfree; [done|].
  cbn [Sections._parse_info_sections].
  assert (Hrest : forall row c0 rest, row ∈ rows -> Soup.cells row = c0 :: rest ->
            str_contains ":" (Sections._clean_text (Soup.get_text c0)) = false).
  { intros r c0 rest Hin. apply Hfree. by apply elem_of_cons; right. }
  destruct (Soup.cells row) as [|c0 [|c1 more]] eqn:Hcells; try by apply IH.
  rewrite info_key_without_colon; [by apply IH|].
  eapply Hfree; [by apply elem_of_cons; left|exact Hcells].
Qed.

Lemma parse_sections_without_colon limit page :
  (forall row c0 rest, row ∈ Soup.info_rows page -> Soup.cells row = c0 :: rest ->
     str_contains ":" (Sections._clean_text (Soup.get_text c0)) = false) ->
  Sections.parse_sections true limit page = Sections.parse_sections false limit page.
Proof.
  intros Hfree. unfold Sections.parse_sections.
  by rewrite _parse_info_sections_without_colon.
Qed.

Lemma first_named_paired (look look' : Z -> option Report) years :
  (forall y, present (look y) = present (look' y)) ->
  match first_named look years, first_named look' years with
  | None, None => True
  | Some found, Some found' =>
      found.1 = found'.1 /\ look found.1 = Some found.2
      /\ look' found.1 = Some found'.2
  | _, _ => False
  end.
Proof.
  intros Heq. induction years as [|y rest IH]; cbn [first_named]; [done|].
  specialize (Heq y).
  destruct (look y) as [r|] eqn:Hl, (look' y) as [r'|] eqn:Hl'; cbn in Heq.
  - rewrite Heq. destruct (has_name r'); [by cbn|exact IH].
  - rewrite Heq. exact IH.
  - rewrite <- Heq. exact IH.
  - exact IH.
Qed.

Lemma concurrent_lookups_paired Ea Et config gid season :
  same_portal Ea Et -> stable_portal Ea ->
  0 <= Async.max_retries config -> gid <> EmptyString ->
  (async_lookup Ea config gid season = None
   /\ threaded_lookup Et gid season = None)
  \/ exists html,
       portal Ea gid season 0 = Body html
       /\ async_lookup Ea config gid season = Some (extract_sections Ea html)
       /\ threaded_lookup Et gid season = Some (extract_sections Et html).
Proof.
  intros Hsame [Hstable Hpage] Hm Hgid.
  rewrite async_lookup_stable, threaded_lookup_page by done.
  rewrite Hsame. pose proof (Hpage gid season) as Hne.
  destruct (portal Ea gid season 0) as [e|html]; [by left|].
  unfold Async.parse_report, Threaded.parse_report.
  destruct html as [|c html]; [done|]. cbn [str_truthy negb orb].
  destruct (str_contains absent_marker (String c html)); [by left|].
  right. by exists (String c html).
Qed.



(* ------------------------------------------------------------------ *)
(** ** The fetch stage of a batch *)

Lemma NoDup_grower_ids_of a b : NoDup (grower_ids_of a b).
Proof.
  unfold grower_ids_of, range. apply NoDup_fmap_2; [|apply NoDup_seqZ].
  intros x y Heq. cbn in Heq. injection Heq as Heq. by apply (inj pretty).
Qed.

Lemma NoDup_fmap_eq {A B} (f : A -> B) (l : list A) x y :
  NoDup (map f l) -> x ∈ l -> y ∈ l -> f x = f y -> x = y.
Proof.
  induction l as [|a l IH]; [by intros _ ?%elem_of_nil|].
  cbn. intros [Hnotin Hnd]%NoDup_cons Hx Hy Heq.
  apply elem_of_cons in Hx as [->|Hx]; apply elem_of_cons in Hy as [->|Hy].
  - done.
  - destruct Hnotin. rewrite Heq. apply list_elem_of_fmap. by exists y.
  - destruct Hnotin. rewrite <- Heq. apply list_elem_of_fmap. by exists x.
  - by apply IH.
Qed.

Lemma seasons_of_frame d d' (l : list Models.SeasonalReport) g :
  Models.seasonal_reports d' = Models.seasonal_reports d ++ l ->
  Forall (fun row => Models.grower row <> g) l ->
  Models.seasons_of d' g = Models.seasons_of d g.
Proof.
  intros Hrows Hother. unfold Models.seasons_of. rewrite Hrows, filter_app.
  clear Hrows.
  assert (Hnil : filter (fun r => Models.grower r = g) l = []).
  { induction Hother as [|row l' Hrow Hrest IH]; [done|].
    rewrite filter_cons. destruct (decide (Models.grower row = g)); [done|exact IH]. }
  by rewrite Hnil, app_nil_r.
Qed.

Lemma async_save_results_rows g results : forall d,
  exists l,
    Models.seasonal_reports (AsyncCommand.save_seasonal_results g results d).2
    = Models.seasonal_reports d ++ l
    /\ Forall (fun row => Models.grower row = Models.grower_number g) l.
Proof.
  induction results as [|[[gid season] report] rest IH]; intros d; cbn.
  { exists []. by rewrite app_nil_r. }
  pose proof (create_seasonal_data_spec g season report d) as (_ & _ & _ & Hrows).
  assert (Hstep : exists l1,
            Models.seasonal_reports
              (AsyncCommand.create_seasonal_data g season report d).2
            = Models.seasonal_reports d ++ l1
            /\ Forall (fun row => Models.grower row = Models.grower_number g) l1).
  { destruct Hrows as [->|(row & Hkey & _ & ->)].
    - exists []. by rewrite app_nil_r.
    - exists [row]. split; [done|]. apply Forall_singleton.
      unfold report_key in Hkey. by injection Hkey. }
  destruct Hstep as (l1 & Hl1 & Hg1).
  destruct (AsyncCommand.create_seasonal_data g season report d) as [[[]|e] d1];
    cbn [snd] in *.
  - destruct (IH d1) as (l2 & Hl2 & Hg2).
    destruct (AsyncCommand.save_seasonal_results g rest d1) as [saved d2].
    cbn [snd] in *. exists (l1 ++ l2). rewrite Hl2, Hl1, app_assoc.
    split; [done|]. by apply Forall_app.
  - destruct (IH d1) as (l2 & Hl2 & Hg2). exists (l1 ++ l2).
    rewrite Hl2, Hl1, app_assoc. split; [done|]. by apply Forall_app.
Qed.

Lemma async_fetch_turn_store E config result w g :
  g <> Async.grower_id result ->
  Models.seasons_of (db (AsyncCommand.fetch_all_seasons_for_one E config result w).2) g
  = Models.seasons_of (db w) g.
Proof.
  intros Hne. unfold AsyncCommand.fetch_all_seasons_for_one.
  destruct (AsyncCommand.seasons_to_fetch _ _) as [|season missing]; [done|].
  destruct (Async.fetch_multiple_reports E config _ (st w)) as [results s1].
  unfold AsyncCommand.get_grower_by_id.
  destruct (Models.Grower_get (db w) (Async.grower_id result)) as [gr|] eqn:Hget;
    [|done].
  destruct (async_save_results_rows gr results (db w)) as (l & Hl & Hg).
  destruct (AsyncCommand.save_seasonal_results gr results (db w)) as [saved d1].
  cbn [snd db] in *. eapply seasons_of_frame; [exact Hl|].
  eapply Forall_impl; [exact Hg|]. cbn. intros row ->.
  rewrite (Grower_get_number _ _ _ Hget). congruence.
Qed.

Lemma async_fetch_stage_requests E config results : forall w,
  0 <= Async.max_retries config ->
  NoDup (map Async.grower_id results) ->
  let after := (AsyncCommand.fetch_all_seasons_for_discovered_growers E config
                  results w).2 in
  exists requested,
    posts (st after) = posts (st w) ++ requested
    /\ forall g season,
         (g, season) ∈ requested
         <-> exists r, r ∈ results /\ g = Async.grower_id r
                       /\ Async.first_season r < season <= current_year
                       /\ season ∉ Models.seasons_of (db w) g.
Proof.
  induction results as [|r rest IH]; intros w Hm Hnd; cbv zeta.
  { cbn. exists []. split; [by rewrite app_nil_r|]. intros g season. split.
    - by intros ?%elem_of_nil.
    - by intros (r & ?%elem_of_nil & _). }
  cbn [AsyncCommand.fetch_all_seasons_for_discovered_growers].
  cbn in Hnd. apply NoDup_cons in Hnd as [Hnotin Hnd].
  destruct (async_fetch_turn_requests E config r w Hm) as (req1 & Hp1 & Hreq1).
  pose proof (fun g => async_fetch_turn_store E config r w g) as Hframe.
  cbv zeta in Hp1.
  destruct (AsyncCommand.fetch_all_seasons_for_one E config r w) as [saved w1].
  cbn [snd] in *.
  destruct (IH w1 Hm Hnd) as (req2 & Hp2 & Hreq2). cbv zeta in Hp2.
  destruct (AsyncCommand.fetch_all_seasons_for_discovered_growers E config rest w1)
    as [total w2].
  cbn [snd] in *. exists (req1 ++ req2). split.
  { by rewrite Hp2, Hp1, app_assoc. }
  assert (Hrest : forall r', r' ∈ rest -> Async.grower_id r' <> Async.grower_id r).
  { intros r' Hr' Heq. apply Hnotin. rewrite <- Heq. apply list_elem_of_fmap.
    by exists r'. }
  intros g season. rewrite elem_of_app, Hreq1, Hreq2. split.
  - intros [(-> & Hs & Hnot)|(r' & Hr' & -> & Hs & Hnot)].
    + exists r. split; [apply list_elem_of_here|done].
    + exists r'. split; [by apply list_elem_of_further|].
      split; [done|]. split; [done|]. by rewrite <- (Hframe _ (Hrest r' Hr')).
  - intros (r' & Hr' & -> & Hs & Hnot). apply elem_of_cons in Hr' as [->|Hr'].
    + by left.
    + right. exists r'. split; [done|]. split; [done|]. split; [done|].
      by rewrite (Hframe _ (Hrest r' Hr')).
Qed.

Lemma threaded_save_results_rows g results : forall d,
  exists l,
    Models.seasonal_reports (ThreadedCommand.save_results g results d).2
    = Models.seasonal_reports d ++ l
    /\ Forall (fun row => Models.grower row = Models.grower_number g) l.
Proof.
  induction results as [|[[gid season] report] rest IH]; intros d; cbn.
  { exists []. by rewrite app_nil_r. }
  assert (Hstep : exists l1,
            Models.seasonal_reports
              (Models.atomic (ThreadedCommand.create_seasonal_data g season report) d).2
            = Models.seasonal_reports d ++ l1
            /\ Forall (fun row => Models.grower row = Models.grower_number g) l1).
  { unfold Models.atomic.
    pose proof (threaded_create_seasonal_data_spec g season report d)
      as (_ & Hrows & _).
    destruct (ThreadedCommand.create_seasonal_data g season report d)
      as [[[]|e] d1]; cbn [snd] in *.
    - destruct Hrows as [->|(row & Hkey & _ & ->)].
      + exists []. by rewrite app_nil_r.
      + exists [row]. split; [done|]. apply Forall_singleton.
        unfold report_key in Hkey. by injection Hkey.
    - exists []. by rewrite app_nil_r. }
  destruct Hstep as (l1 & Hl1 & Hg1).
  destruct (Models.atomic _ d) as [[[]|e] d1]; cbn [snd] in *.
  - destruct (IH d1) as (l2 & Hl2 & Hg2).
    destruct (ThreadedCommand.save_results g rest d1) as [saved d2].
    cbn [snd] in *. exists (l1 ++ l2). rewrite Hl2, Hl1, app_assoc.
    split; [done|]. by apply Forall_app.
  - destruct (IH d1) as (l2 & Hl2 & Hg2). exists (l1 ++ l2).
    rewrite Hl2, Hl1, app_assoc. split; [done|]. by apply Forall_app.
Qed.

Lemma threaded_fetch_turn_store E gid first_season report w g :
  g <> gid ->
  Models.seasons_of
    (db (ThreadedCommand.fetch_remaining_seasons_for_one E
           (gid, first_season, report) w).2) g
  = Models.seasons_of (db w) g.
Proof.
  intros Hne. unfold ThreadedCommand.fetch_remaining_seasons_for_one.
  destruct (ThreadedCommand.missing_seasons _ _) as [|season missing]; [done|].
  destruct (Threaded.fetch_multiple_reports_threaded E _ (st w)) as [results s1].
  unfold ThreadedCommand.get_grower_by_id.
  destruct (Models.Grower_get (db w) gid) as [gr|] eqn:Hget; [|done].
  destruct (threaded_save_results_rows gr results (db w)) as (l & Hl & Hg).
  destruct (ThreadedCommand.save_results gr results (db w)) as [saved d1].
  cbn [snd db] in *. eapply seasons_of_frame; [exact Hl|].
  eapply Forall_impl; [exact Hg|]. cbn. intros row ->.
  rewrite (Grower_get_number _ _ _ Hget). congruence.
Qed.

Lemma threaded_fetch_stage_requests E (results : list (string * Z * Report)) :
  forall w,
  Forall (fun x => x.1.1 <> EmptyString) results ->
  NoDup (map (fun x : string * Z * Report => x.1.1) results) ->
  let after := (ThreadedCommand.fetch_remaining_seasons E results w).2 in
  exists requested,
    posts (st after) = posts (st w) ++ requested
    /\ forall g season,
         (g, season) ∈ requested
         <-> exists x, x ∈ results /\ g = x.1.1
                       /\ x.1.2 < season <= current_year
                       /\ season ∉ Models.seasons_of (db w) g.
Proof.
  induction results as [|[[gid f] report] rest IH]; intros w Hids Hnd; cbv zeta.
  { cbn. exists []. split; [by rewrite app_nil_r|]. intros g season. split.
    - by intros ?%elem_of_nil.
    - by intros (r & ?%elem_of_nil & _). }
  cbn [ThreadedCommand.fetch_remaining_seasons].
  cbn in Hnd. apply NoDup_cons in Hnd as [Hnotin Hnd].
  apply Forall_cons in Hids as [Hgid Hids]. cbn in Hgid.
  destruct (threaded_fetch_turn_requests E gid f report w Hgid) as (req1 & Hp1 & Hreq1).
  pose proof (fun g => threaded_fetch_turn_store E gid f report w g) as Hframe.
  cbv zeta in Hp1.
  destruct (ThreadedCommand.fetch_remaining_seasons_for_one E (gid, f, report) w)
    as [saved w1].
  cbn [snd] in *.
  destruct (IH w1 Hids Hnd) as (req2 & Hp2 & Hreq2). cbv zeta in Hp2.
  destruct (ThreadedCommand.fetch_remaining_seasons E rest w1) as [total w2].
  cbn [snd] in *. exists (req1 ++ req2). split.
  { by rewrite Hp2, Hp1, app_assoc. }
  assert (Hrest : forall x : string * Z * Report, x ∈ rest -> x.1.1 <> gid).
  { intros x Hx Heq. apply Hnotin. rewrite <- Heq. apply list_elem_of_fmap.
    by exists x. }
  intros g season. rewrite elem_of_app, Hreq1, Hreq2. split.
  - intros [(-> & Hs & Hnot)|(x & Hx & -> & Hs & Hnot)].
    + exists (gid, f, report). split; [apply list_elem_of_here|done].
    + exists x. split; [by apply list_elem_of_further|].
      split; [done|]. split; [done|]. by rewrite <- (Hframe _ (Hrest x Hx)).
  - intros (x & Hx & -> & Hs & Hnot). apply elem_of_cons in Hx as [->|Hx].
    + by left.
    + right. exists x. split; [done|]. split; [done|]. split; [done|].
      by rewrite (Hframe _ (Hrest x Hx)).
Qed.

Lemma threaded_discovered_ids_sublist E ids : forall st,
  map (fun x : string * Z * Report => x.1.1)
    (Threaded.discover_growers_threaded E ids st).1 `sublist_of` ids.
Proof.
  induction ids as [|gid rest IH]; intros st; cbn; [done|].
  unfold Threaded.discover_grower_first_season.
  pose proof (threaded_discover_loop_id E gid (range 2018 2026) st) as Hid.
  destruct (Threaded.discover_loop E gid _ st) as [result st1]. specialize (IH st1).
  destruct (Threaded.discover_growers_threaded E rest st1) as [found st2].
  cbn [fst] in *. destruct result as [[[[g y] report]|]|e].
  - cbn. rewrite (Hid g y report eq_refl). by apply sublist_skip.
  - by apply sublist_cons.
  - by apply sublist_cons.
Qed.

Lemma async_batch_ids_NoDup d a b resume : NoDup (async_batch_ids d a b resume).
Proof.
  unfold async_batch_ids. cbv zeta.
  destruct resume; [apply NoDup_filter|]; apply NoDup_grower_ids_of.
Qed.

Lemma threaded_batch_ids_NoDup d a b resume : NoDup (threaded_batch_ids d a b resume).
Proof.
  unfold threaded_batch_ids. cbv zeta.
  destruct resume; [apply NoDup_filter|]; apply NoDup_grower_ids_of.
Qed.

Lemma threaded_batch_ids_nonempty d a b resume gid :
  gid ∈ threaded_batch_ids d a b resume -> gid <> EmptyString.
Proof.
  unfold threaded_batch_ids. cbv zeta. intros Hin.
  assert (gid ∈ grower_ids_of a b) as (i & -> & _)%grower_ids_of_elem; [|done].
  destruct resume; [|done]. by apply list_elem_of_filter in Hin as [_ ?].
Qed.

(** C6.  In full-history mode, after the discovery of a batch, the
    requests the fetch stage posts are, for each discovered identifier
    with first season [f], exactly those of the seasons [f+1, ..., 2025]
    that the store does not hold for that identifier when the stage
    begins, and they are for discovered identifiers only; in
    discover-only mode the stage posts nothing.  In the async command
    (with a retry budget that is not negative, as [handle] sets it) and
    in the threaded command. *)
Theorem fetched_seasons_are_the_missing_ones (E : Env)
    (config : Async.ScrapingConfig) (start_id end_id : Z) (resume : bool)
    (w : World) :
  0 <= Async.max_retries config ->
  (let discovered :=
     Async.discover_growers_batch E config
       (async_batch_ids (db w) start_id end_id resume) (st w) in
   let stored := AsyncCommand.save_discovered_growers E discovered.1 (db w) in
   let full := (AsyncCommand.process_batch E config start_id end_id false resume w).2 in
   let only := (AsyncCommand.process_batch E config start_id end_id true resume w).2 in
   (exists requested,
      posts (st full) = posts discovered.2 ++ requested
      /\ (forall g season,
            (g, season) ∈ requested ->
            exists r, r ∈ discovered.1 /\ g = Async.grower_id r)
      /\ forall r, r ∈ discovered.1 -> forall season,
           (Async.grower_id r, season) ∈ requested
           <-> Async.first_season r < season <= current_year
               /\ season ∉ Models.seasons_of stored (Async.grower_id r))
   /\ posts (st only) = posts discovered.2)
  /\ (let discovered :=
        Threaded.discover_growers_threaded E
          (threaded_batch_ids (db w) start_id end_id resume) (st w) in
      let stored := ThreadedCommand.save_discovered_growers E discovered.1 (db w) in
      let full := (ThreadedCommand.process_batch E start_id end_id false resume w).2 in
      let only := (ThreadedCommand.process_batch E start_id end_id true resume w).2 in
      (exists requested,
         posts (st full) = posts discovered.2 ++ requested
         /\ (forall g season,
               (g, season) ∈ requested ->
               exists x, x ∈ discovered.1 /\ g = x.1.1)
         /\ forall x, x ∈ discovered.1 -> forall season,
              (x.1.1, season) ∈ requested
              <-> x.1.2 < season <= current_year
                  /\ season ∉ Models.seasons_of stored x.1.1)
      /\ posts (st only) = posts discovered.2).
Proof.
  intros Hm. split.
  - cbv zeta. unfold AsyncCommand.process_batch.
    fold (async_batch_ids (db w) start_id end_id resume).
    pose proof (async_batch_ids_NoDup (db w) start_id end_id resume) as Hnd.
    set (ids := async_batch_ids (db w) start_id end_id resume) in *.
    assert (Hempty : forall s : St, exists requested : list (string * Z),
              posts s = posts s ++ requested
              /\ (forall g season, (g, season) ∈ requested ->
                    exists r, r ∈ @nil Async.GrowerDiscoveryResult
                              /\ g = Async.grower_id r)
              /\ forall r, r ∈ @nil Async.GrowerDiscoveryResult -> forall season,
                   (Async.grower_id r, season) ∈ requested
                   <-> Async.first_season r < season <= current_year
                       /\ season ∉ Models.seasons_of (db w) (Async.grower_id r)).
    { intros s. exists []. split; [by rewrite app_nil_r|].
      split; [by intros g season ?%elem_of_nil|]. by intros r ?%elem_of_nil. }
    destruct ids as [|gid0 ids'] eqn:Hids; [cbn; split; [apply Hempty|done]|].
    rewrite <- Hids in *. clear Hids gid0 ids'.
    pose proof (discover_growers_batch_results E config ids (st w)) as Hres.
    destruct (Async.discover_growers_batch E config ids (st w)) as [results s1].
    cbn [fst snd] in *.
    assert (Hndr : NoDup (map Async.grower_id results)).
    { eapply sublist_NoDup; cycle 1; [|exact Hnd]. rewrite Hres.
      apply omap_sublist. intros gid r Hr. by apply async_discovery_source in Hr as [? _]. }
    clear Hres.
    destruct results as [|r0 results0] eqn:Hr; [cbn; split; [apply Hempty|done]|].
    rewrite <- Hr in *. clear Hr r0 results0. split; [|done].
    destruct (async_fetch_stage_requests E config results
                {| db := AsyncCommand.save_discovered_growers E results (db w);
                   st := s1 |} Hm Hndr) as (requested & Hp & Hreq).
    cbv zeta in Hp.
    destruct (AsyncCommand.fetch_all_seasons_for_discovered_growers E config results _)
      as [saved w2].
    cbn [snd st db] in *. exists requested. split; [done|]. split.
    + intros g season (r & Hr & -> & _)%Hreq. by exists r.
    + intros r Hr season. rewrite Hreq. split.
      * intros (r' & Hr' & Heq & Hs & Hnot).
        assert (r = r') as <- by by eapply (NoDup_fmap_eq Async.grower_id).
        done.
      * intros [Hs Hnot]. by exists r.
  - cbv zeta. unfold ThreadedCommand.process_batch.
    fold (threaded_batch_ids (db w) start_id end_id resume).
    pose proof (threaded_batch_ids_NoDup (db w) start_id end_id resume) as Hnd.
    pose proof (threaded_batch_ids_nonempty (db w) start_id end_id resume) as Hne.
    set (ids := threaded_batch_ids (db w) start_id end_id resume) in *.
    assert (Hempty : forall s : St, exists requested : list (string * Z),
              posts s = posts s ++ requested
              /\ (forall g season, (g, season) ∈ requested ->
                    exists x : string * Z * Report, x ∈ @nil (string * Z * Report)
                              /\ g = x.1.1)
              /\ forall x : string * Z * Report,
                   x ∈ @nil (string * Z * Report) -> forall season,
                   (x.1.1, season) ∈ requested
                   <-> x.1.2 < season <= current_year
                       /\ season ∉ Models.seasons_of (db w) x.1.1).
    { intros s. exists []. split; [by rewrite app_nil_r|].
      split; [by intros g season ?%elem_of_nil|]. by intros r ?%elem_of_nil. }
    destruct ids as [|gid0 ids'] eqn:Hids; [cbn; split; [apply Hempty|done]|].
    rewrite <- Hids in *. clear Hids gid0 ids'.
    pose proof (threaded_discovered_ids_sublist E ids (st w)) as Hsub.
    assert (Hin : forall x, x ∈ (Threaded.discover_growers_threaded E ids (st w)).1 ->
                            x.1.1 ∈ ids).
    { intros x. apply threaded_discovered_ids. }
    destruct (Threaded.discover_growers_threaded E ids (st w)) as [results s1].
    cbn [fst snd] in *.
    assert (Hndr : NoDup (map (fun x : string * Z * Report => x.1.1) results)).
    { eapply sublist_NoDup; cycle 1; [exact Hsub|exact Hnd]. }
    assert (Hids : Forall (fun x : string * Z * Report => x.1.1 <> EmptyString) results).
    { apply Forall_forall. intros x Hx. by apply Hne, Hin. }
    clear Hsub Hin.
    destruct results as [|r0 results0] eqn:Hr; [cbn; split; [apply Hempty|done]|].
    rewrite <- Hr in *. clear Hr r0 results0. split; [|done].
    destruct (threaded_fetch_stage_requests E results
                {| db := ThreadedCommand.save_discovered_growers E results (db w);
                   st := s1 |} Hids Hndr) as (requested & Hp & Hreq).
    cbv zeta in Hp.
    destruct (ThreadedCommand.fetch_remaining_seasons E results _) as [saved w2].
    cbn [snd st db] in *. exists requested. split; [done|]. split.
    + intros g season (x & Hx & -> & _)%Hreq. by exists x.
    + intros x Hx season. rewrite Hreq. split.
      * intros (x' & Hx' & Heq & Hs & Hnot).
        assert (x = x') as <-
          by by eapply (NoDup_fmap_eq (fun x : string * Z * Report => x.1.1)).
        done.
      * intros [Hs Hnot]. by exists x.
Qed.

Lemma fetched_seasons_are_the_missing_ones_witness :
  0 <= Async.max_retries fx_config
  /\ (exists requested,
        posts (st (AsyncCommand.process_batch fx_v3 fx_config 1 5 false true
                     fx_v3_world).2)
        = posts (Async.discover_growers_batch fx_v3 fx_config
                   (async_batch_ids (db fx_v3_world) 1 5 true) (st fx_v3_world)).2
          ++ requested
        /\ forall season,
             ("V3", season) ∈ requested
             <-> 2019 < season <= 2025 /\ season ∉ [2019; 2021; 2023])
  /\ (exists requested,
        posts (st (ThreadedCommand.process_batch fx_v3 1 5 false true fx_v3_world).2)
        = posts (Threaded.discover_growers_threaded fx_v3
                   (threaded_batch_ids (db fx_v3_world) 1 5 true) (st fx_v3_world)).2
          ++ requested
        /\ forall season,
             ("V3", season) ∈ requested
             <-> 2019 < season <= 2025 /\ season ∉ [2019; 2021; 2023]).
Proof.
  assert (Hm : 0 <= Async.max_retries fx_config) by (cbn; lia).
  split; [exact Hm|].
  destruct (fetched_seasons_are_the_missing_ones fx_v3 fx_config 1 5 true fx_v3_world Hm)
    as [[(areq & Hap & _ & Haper) _] [(treq & Htp & _ & Htper) _]].
  split.
  - exists areq. split; [exact Hap|]. intros season.
    assert (Hin : fx_v3_result
                  ∈ (Async.discover_growers_batch fx_v3 fx_config
                       (async_batch_ids (db fx_v3_world) 1 5 true)
                       (st fx_v3_world)).1).
    { vm_compute. apply list_elem_of_here. }
    exact (Haper fx_v3_result Hin season).
  - exists treq. split; [exact Htp|]. intros season.
    assert (Hin : ("V3", 2019, fx_report "V3")
                  ∈ (Threaded.discover_growers_threaded fx_v3
                       (threaded_batch_ids (db fx_v3_world) 1 5 true)
                       (st fx_v3_world)).1).
    { vm_compute. apply list_elem_of_here. }
    exact (Htper ("V3", 2019, fx_report "V3") Hin season).
Defined.
